(** * A shallow embedding of the agent's decision-and-control pipeline

    Source files covered: [agent/decision_engine.py], [agent/nodes.py],
    [agent/orchestrator.py], [rag/reranker.py], [rag/retriever.py],
    [rag/evidence.py], [rag/embeddings.py], [tools/base.py], [tools/crm.py],
    [tools/calendar.py], [tools/email.py], [observability/logger.py].

    Conventions of the embedding:
    - Python [str] values are [string]s holding the UTF-8 encoding of the
      text.  Splitting on the ASCII separators the code uses (newline, colon,
      comma) is the same on code points and on UTF-8 bytes.
    - Python [float]s that take part in arithmetic are exact rationals [Q];
      rounding is not modelled.  The value produced by the builtin [float()]
      may also be an infinity or a NaN, see [pyfloat].
    - A call of [trace_logger.info] or [trace_logger.warning] raises
      [KeyError] when its level is enabled, see [TraceLogger]; these calls
      are part of the embedding.  The calls of the event methods of
      [trace_logger] ([decision_made], [retrieval_performed],
      [response_composed], [memory_updated], [error_occurred],
      [agent_run_started], [agent_run_completed]) write a record and
      return, and are left out; [tool_called] and [tool_result] stand in
      [ToolBase.attempt] as an example of them.
    - An exception is an instance of [Exception], the class every handler
      of the core catches, and is represented by its message [str(e)], the
      only part of it the code ever reads. *)

From Stdlib Require Import Ascii String QArith Qminmax Lqa.
From stdpp Require Import gmap strings list pretty sorting.

Open Scope string_scope.

(** ** Python builtins on strings and floats *)

(** What [float(s)] can return. *)
Inductive pyfloat : Type :=
| Finite (q : Q)
| PosInf
| NegInf
| NaN.

(** The builtins whose behaviour depends on the Unicode tables, on the float
    grammar or on floating-point approximation are an interface.  Every
    general theorem below holds for any implementation of it;
    [AsciiBuiltins] implements it for ASCII text and plain decimal literals
    and is used to evaluate concrete inputs. *)
Class PyBuiltins : Type := {
  py_strip : string → string;          (* str.strip()  *)
  py_upper : string → string;          (* str.upper()  *)
  py_lower : string → string;          (* str.lower()  *)
  py_float : string → option pyfloat;  (* float(s); None is ValueError *)
  py_exp : Q → option Q;               (* math.exp(x); None is OverflowError *)
  py_str_list : list string → string;  (* str(l) for a list of strings *)
  py_float_half : py_float "0.5" = Some (Finite 0.5)
}.

(** [sep in s] for a one-character [sep]. *)
Fixpoint contains_char (sep : ascii) (s : string) : bool :=
  match s with
  | EmptyString => false
  | String c s' => if Ascii.eqb c sep then true else contains_char sep s'
  end.

(** [s.split(sep, 1)] for a one-character [sep] that occurs in [s]:
    the text before the first [sep] and the text after it. *)
Fixpoint split_once (sep : ascii) (s : string) : option (string * string) :=
  match s with
  | EmptyString => None
  | String c s' =>
      if Ascii.eqb c sep then Some (EmptyString, s')
      else match split_once sep s' with
           | Some (k, v) => Some (String c k, v)
           | None => None
           end
  end.

(** [s.split(sep)] for a one-character [sep]; never the empty list. *)
Fixpoint split_char (sep : ascii) (s : string) : list string :=
  match s with
  | EmptyString => [EmptyString]
  | String c s' =>
      if Ascii.eqb c sep then EmptyString :: split_char sep s'
      else match split_char sep s' with
           | [] => [String c EmptyString]
           | w :: ws => String c w :: ws
           end
  end.

(** [sep.join(parts)]. *)
Fixpoint join (sep : string) (parts : list string) : string :=
  match parts with
  | [] => ""
  | [p] => p
  | p :: ps => p ++ sep ++ join sep ps
  end.

(** [needle in s]. *)
Fixpoint is_prefix (p s : string) : bool :=
  match p, s with
  | EmptyString, _ => true
  | String a p', String b s' => Ascii.eqb a b && is_prefix p' s'
  | String _ _, EmptyString => false
  end.

Fixpoint contains (needle s : string) : bool :=
  is_prefix needle s ||
  match s with
  | EmptyString => false
  | String _ s' => contains needle s'
  end.

(** [l.append(x)]. *)
Definition append_item {A} (l : list A) (x : A) : list A := (l ++ [x])%list.

(** [l[-n:]] for [n > 0]: the last [n] items. *)
Definition last_n {A} (n : nat) (l : list A) : list A :=
  drop (length l - n) l.

(** The unit interval. *)
Definition in_unit (x : Q) : Prop := (0 <= x <= 1)%Q.

(** Python's two-argument [min] and [max] return the second argument only
    when it is strictly smaller (resp. larger) than the first. *)
Definition Qltb (a b : Q) : bool := negb (Qle_bool b a).
Definition py_min (a b : Q) : Q := if Qltb b a then b else a.
Definition py_max (a b : Q) : Q := if Qltb a b then b else a.

(** The same two functions on everything [float()] can return.  Every
    comparison with a NaN is false. *)
Definition flt_ltb (a b : pyfloat) : bool :=
  match a, b with
  | NaN, _ | _, NaN => false
  | Finite x, Finite y => Qltb x y
  | NegInf, NegInf => false
  | NegInf, _ => true
  | _, NegInf => false
  | PosInf, _ => false
  | Finite _, PosInf => true
  end.
Definition flt_min (a b : pyfloat) : pyfloat := if flt_ltb b a then b else a.
Definition flt_max (a b : pyfloat) : pyfloat := if flt_ltb a b then b else a.

(** ** An ASCII implementation of the builtins *)
Module Ascii_impl.

(** [str.isspace] on one ASCII character: TAB..CR, FS..US and SPACE. *)
Definition is_space (c : ascii) : bool :=
  let n := nat_of_ascii c in
  ((9 <=? n)%nat && (n <=? 13)%nat) || ((28 <=? n)%nat && (n <=? 32)%nat).

Fixpoint lstrip (s : string) : string :=
  match s with
  | EmptyString => EmptyString
  | String c s' => if is_space c then lstrip s' else s
  end.

Fixpoint rstrip (s : string) : string :=
  match s with
  | EmptyString => EmptyString
  | String c s' =>
      match rstrip s' with
      | EmptyString => if is_space c then EmptyString else String c EmptyString
      | r => String c r
      end
  end.

Definition strip (s : string) : string := rstrip (lstrip s).

Definition upper_char (c : ascii) : ascii :=
  let n := nat_of_ascii c in
  if (97 <=? n)%nat && (n <=? 122)%nat then ascii_of_nat (n - 32) else c.

Definition lower_char (c : ascii) : ascii :=
  let n := nat_of_ascii c in
  if (65 <=? n)%nat && (n <=? 90)%nat then ascii_of_nat (n + 32) else c.

Fixpoint map_string (f : ascii → ascii) (s : string) : string :=
  match s with
  | EmptyString => EmptyString
  | String c s' => String (f c) (map_string f s')
  end.

Definition upper : string → string := map_string upper_char.
Definition lower : string → string := map_string lower_char.

Definition digit_of (c : ascii) : option Z :=
  let n := nat_of_ascii c in
  if (48 <=? n)%nat && (n <=? 57)%nat then Some (Z.of_nat (n - 48)) else None.

(** Reads a run of decimal digits: the number read so far, how many digits
    were read, and the rest of the text. *)
Fixpoint read_digits (acc : Z) (count : nat) (s : string) : Z * nat * string :=
  match s with
  | EmptyString => (acc, count, s)
  | String c s' =>
      match digit_of c with
      | Some d => read_digits (10 * acc + d)%Z (S count) s'
      | None => (acc, count, s)
      end
  end.

(** Unsigned decimal literals [d+], [d+.d*] and [.d+]. *)
Definition unsigned_decimal (s : string) : option Q :=
  let '(ip, ni, rest) := read_digits 0 0 s in
  match rest with
  | EmptyString => if (0 <? ni)%nat then Some (inject_Z ip) else None
  | String "." frac =>
      let '(fp, nf, rest') := read_digits 0 0 frac in
      match rest' with
      | EmptyString =>
          if (0 <? ni + nf)%nat
          then Some (inject_Z ip + Qmake fp (Pos.of_nat (10 ^ nf)))%Q
          else None
      | _ => None
      end
  | _ => None
  end.

(** [float(s)] restricted to optionally signed plain decimal literals
    (no exponent, no [inf]/[nan], no digit separators), surrounded by
    optional whitespace. *)
Definition float_of (s : string) : option pyfloat :=
  match strip s with
  | String "-" r => (λ q, Finite (- q)%Q) <$> unsigned_decimal r
  | String "+" r => Finite <$> unsigned_decimal r
  | r => Finite <$> unsigned_decimal r
  end.

(** [str(l)] for strings without quotes, backslashes or control
    characters, where [repr] only adds the single quotes. *)
Definition str_list (l : list string) : string :=
  "[" ++ join ", " (map (λ s, "'" ++ s ++ "'") l) ++ "]".

End Ascii_impl.

(** [py_exp] is not computed by this instance: it always reports
    OverflowError.  No input evaluated with the instance carries an
    [updated_at] stamp, so it is never called there. *)
#[export] Instance AsciiBuiltins : PyBuiltins := {|
  py_strip := Ascii_impl.strip;
  py_upper := Ascii_impl.upper;
  py_lower := Ascii_impl.lower;
  py_float := Ascii_impl.float_of;
  py_exp := λ _, None;
  py_str_list := Ascii_impl.str_list;
  py_float_half := eq_refl
|}.

(** ** Effects: a state-and-exception monad over the outside world

    [W] is the state of everything outside the core (model provider,
    stores, adapters, clock).  A computation either returns a value or
    raises, and in both cases leaves a new world. *)

Inductive Outcome (A : Type) : Type :=
| Ok (a : A)
| Raise (e : string).
Arguments Ok {A} a.
Arguments Raise {A} e.

Definition M (W A : Type) : Type := W → Outcome A * W.

Definition ret {W A} (a : A) : M W A := λ w, (Ok a, w).

Definition raise {W A} (e : string) : M W A := λ w, (Raise e, w).

Definition bind {W A B} (m : M W A) (k : A → M W B) : M W B :=
  λ w, match m w with
       | (Ok a, w') => k a w'
       | (Raise e, w') => (Raise e, w')
       end.

(** [try: body  except Exception as e: handler(str(e))]. *)
Definition try_except {W A} (body : M W A) (handler : string → M W A) : M W A :=
  λ w, match body w with
       | (Ok a, w') => (Ok a, w')
       | (Raise e, w') => handler e w'
       end.

(** A statement of a [try] block, with the way it ended handed to what
    follows: the rest of the block after a return, the [except] block
    after an exception. *)
Definition caught {W A} (m : M W A) : M W (Outcome A) :=
  λ w, let '(o, w') := m w in (Ok o, w').

Declare Scope py_scope.
Delimit Scope py_scope with py.
Notation "x <- m ;; k" := (bind m (λ x, k))
  (at level 100, m at next level, right associativity) : py_scope.
Notation "m ;;; k" := (bind m (λ _, k))
  (at level 100, right associativity) : py_scope.

(** Subscripting that raises: [l[i]] and [d[key]] on a missing entry. *)
Definition subscript {W A} (what : string) (o : option A) : M W A :=
  match o with
  | Some a => ret a
  | None => raise what
  end.

(** ** Shared data *)

(** One conversation turn, [{"role": ..., "content": ...}]. *)
Record Message : Type := mkMessage {
  role : string;
  content : string
}.

(** [f"{x}"] for a value that is a string or None. *)
Definition fmt_opt (o : option string) : string :=
  match o with
  | Some s => s
  | None => "None"
  end.

(** [d.get(key, default)] on a dict whose values are strings or None: the
    default is used only when the key is missing. *)
Definition dict_get (d : gmap string (option string)) (key : string)
    (dflt : string) : option string :=
  match d !! key with
  | Some v => v
  | None => Some dflt
  end.

Definition nl : string := String "010"%char EmptyString.
Definition dquote : string := String (ascii_of_nat 34) EmptyString.

(** [Literal["DEBUG", "INFO", "WARNING", "ERROR"]], the values of
    [settings.log_level]. *)
Inductive LogLevel : Type :=
| DEBUG
| INFO
| WARNING
| ERROR.

(** [config/settings.py]: the settings the core reads. *)
Record Settings : Type := mkSettings {
  rag_top_k : Z;
  rag_confidence_threshold : Q;
  confidence_high_threshold : Q;
  confidence_low_threshold : Q;
  log_level : LogLevel
}.

(** The [Field(default=...)] values. *)
Definition default_settings : Settings :=
  {| rag_top_k := 8;
     rag_confidence_threshold := 0.6;
     confidence_high_threshold := 0.75;
     confidence_low_threshold := 0.5;
     log_level := INFO |}.

(** ** [observability/logger.py]

    [TraceLogger._log(level, event, **kwargs)] builds the dict [log_data]
    from the trace id, a timestamp, the event and the keyword arguments,
    and calls [self.logger.<level>(json.dumps(log_data), extra=log_data)].
    When the level is enabled, the standard library's [Logger.makeRecord]
    refuses an [extra] that holds the key "message" with
    [KeyError("Attempt to overwrite 'message' in LogRecord")]; below the
    level of the logger it makes no record.  [info] and [warning] pass
    their text as [message=...], so they raise whenever their level is
    enabled.  The event methods pass no such key, and no key of theirs is
    an attribute of a log record. *)
Module TraceLogger.

(** The number [logging] gives a level. *)
Definition levelno (level : LogLevel) : Z :=
  match level with
  | DEBUG => 10
  | INFO => 20
  | WARNING => 30
  | ERROR => 40
  end.

(** [self.logger.isEnabledFor(level)], after
    [self.logger.setLevel(getattr(logging, settings.log_level))]. *)
Definition is_enabled (settings : Settings) (level : LogLevel) : bool :=
  (levelno (log_level settings) <=? levelno level)%Z.

(** [str(e)] for that [KeyError]: the [repr] of its argument. *)
Definition overwrite_message : string :=
  dquote ++ "Attempt to overwrite 'message' in LogRecord" ++ dquote.

Section Logger.
Context {W : Type}.
Variable settings : Settings.

(** [_log(level, event, **kwargs)]; [message] tells whether the keyword
    arguments hold the key "message".  Every other keyword argument of the
    calls embedded here is a string, a number, a boolean, None, or a list
    or dict of those, which [json.dumps] accepts.  Writing the record
    leaves the world as it is: a handler that fails to write reports on
    stderr and returns. *)
Definition _log (level : LogLevel) (message : bool) : M W unit :=
  if message && is_enabled settings level then raise overwrite_message
  else ret tt.

Definition info : M W unit := _log INFO true.

Definition warning : M W unit := _log WARNING true.

(** [tool_called(tool_name, parameters, retry_count)]. *)
Definition tool_called : M W unit := _log INFO false.

(** [tool_result(tool_name, success, data, error, retry_count)], logged at
    the level "info" for a success and "warning" for a failure. *)
Definition tool_result (success : bool) : M W unit :=
  _log (if success then INFO else WARNING) false.

End Logger.
End TraceLogger.

(** [integrations/llm_provider.py]: [class LLMProvider(ABC)], the
    [generate(prompt, system_prompt, temperature, max_tokens)] method. *)
Record LLMProvider (W : Type) : Type := mkLLMProvider {
  generate : string → string → Q → Z → M W string
}.
Arguments generate {W} _ _ _ _ _.

(** ** [agent/decision_engine.py] *)
Module DecisionEngine.

(** [class Decision(str, Enum)]. *)
Inductive Decision : Type :=
| RETRIEVE
| REASON_ONLY
| USE_TOOL
| CLARIFY
| ESCALATE.

(** [@dataclass DecisionOutput]. *)
Record DecisionOutput : Type := mkDecisionOutput {
  decision : Decision;
  confidence : Q;
  reasoning : string;
  required_tools : list string;
  retrieval_needed : bool;
  escalation_reason : option string
}.

Section Engine.
Context `{PyBuiltins} {W : Type}.
Variable llm : LLMProvider W.
Variable settings : Settings.

Definition low_threshold : Q := confidence_low_threshold settings.
Definition high_threshold : Q := confidence_high_threshold settings.

Definition _build_decision_prompt {A} (query : string)
    (conversation_history : list Message)
    (lead_context : gmap string (option string))
    (retrieved_sources : list A) : string :=
  let history_text :=
    join nl (map (λ msg, role msg ++ ": " ++ content msg)
                 (last_n 5 conversation_history)) in
  let sources_text :=
    match retrieved_sources with
    | [] => "None"
    | _ => pretty (length retrieved_sources) ++ " sources available"
    end in
  "You are an autonomous AI agent for a service business. Analyze this situation and decide the best action." ++ nl ++
  nl ++
  "CURRENT QUERY:" ++ nl ++
  query ++ nl ++
  nl ++
  "RECENT CONVERSATION:" ++ nl ++
  history_text ++ nl ++
  nl ++
  "LEAD CONTEXT:" ++ nl ++
  "- Email: " ++ fmt_opt (dict_get lead_context "email" "unknown") ++ nl ++
  "- Name: " ++ fmt_opt (dict_get lead_context "name" "unknown") ++ nl ++
  "- Status: " ++ fmt_opt (dict_get lead_context "status" "new") ++ nl ++
  "- Company: " ++ fmt_opt (dict_get lead_context "company" "unknown") ++ nl ++
  nl ++
  "PREVIOUSLY RETRIEVED SOURCES:" ++ nl ++
  sources_text ++ nl ++
  nl ++
  "AVAILABLE ACTIONS:" ++ nl ++
  "1. RETRIEVE - Query knowledge base for factual information (pricing, policies, SOPs, FAQs)" ++ nl ++
  "2. REASON_ONLY - Answer using existing context (no retrieval needed)" ++ nl ++
  "3. USE_TOOL - Execute tools (CRM update, book meeting, send email)" ++ nl ++
  "4. CLARIFY - Ask user for more information" ++ nl ++
  "5. ESCALATE - Pass to human (complex, sensitive, or low confidence)" ++ nl ++
  nl ++
  "DECISION CRITERIA:" ++ nl ++
  "- Use RETRIEVE if query asks about: pricing, policies, procedures, technical details" ++ nl ++
  "- Use REASON_ONLY if: simple acknowledgment, already have info, conversational" ++ nl ++
  "- Use USE_TOOL if: need to update CRM, book meeting, send email" ++ nl ++
  "- Use CLARIFY if: query is ambiguous, missing key information" ++ nl ++
  "- Use ESCALATE if: sensitive issue, legal question, complaint, beyond capability" ++ nl ++
  nl ++
  "Respond in this EXACT format:" ++ nl ++
  "DECISION: [one of: RETRIEVE, REASON_ONLY, USE_TOOL, CLARIFY, ESCALATE]" ++ nl ++
  "CONFIDENCE: [0.0 to 1.0]" ++ nl ++
  "REASONING: [one sentence explaining why]" ++ nl ++
  "TOOLS_NEEDED: [comma-separated list or " ++ dquote ++ "none" ++ dquote ++ "]" ++ nl ++
  "RETRIEVAL_NEEDED: [yes or no]" ++ nl.

(** The loop of [_parse_decision] that fills the dict [parsed]: a line
    with a colon sets [parsed[key.strip().upper()] = value.strip()],
    overwriting an earlier line with the same key. *)
Definition parse_lines (lines : list string) : gmap string string :=
  foldl (λ parsed line,
           if contains_char ":" line then
             match split_once ":" line with
             | Some (key, value) =>
                 <[py_upper (py_strip key) := py_strip value]> parsed
             | None => parsed
             end
           else parsed)
        ∅ lines.

(** The dict literal [decision_map] with its [.get]. *)
Definition decision_map : gmap string Decision :=
  <["RETRIEVE" := RETRIEVE]> (
  <["REASON_ONLY" := REASON_ONLY]> (
  <["USE_TOOL" := USE_TOOL]> (
  <["CLARIFY" := CLARIFY]> (
  <["ESCALATE" := ESCALATE]> ∅)))).

(** [max(0.0, min(1.0, confidence))] on what [float()] returned. *)
Definition clamp_float (c : pyfloat) : pyfloat :=
  flt_max (Finite 0) (flt_min (Finite 1) c).

(** The clamped value as a number: [clamp_float] never returns an infinity
    or a NaN (lemma [clamp_float_finite]), so the last three branches of
    the [match] are the values Python computes for those inputs. *)
Definition clamp_confidence (c : pyfloat) : Q :=
  match c with
  | Finite q => py_max 0 (py_min 1 q)
  | PosInf => 1
  | NegInf => 0
  | NaN => 1
  end.

(** The entry of [parsed] for [key] after the whole response was read. *)
Definition parsed_value (response key : string) : option string :=
  parse_lines (split_char "010" (py_strip response)) !! key.

Definition _parse_decision (response : string) : DecisionOutput :=
  let lines := split_char "010" (py_strip response) in
  let parsed := parse_lines lines in
  (* Extract decision *)
  let decision_str := default "ESCALATE" (parsed !! "DECISION") in
  let decision := default ESCALATE (decision_map !! decision_str) in
  (* Extract confidence *)
  let confidence :=
    match py_float (default "0.5" (parsed !! "CONFIDENCE")) with
    | Some c => clamp_confidence c
    | None => 0.5%Q        (* except ValueError *)
    end in
  (* Extract reasoning *)
  let reasoning := default "No reasoning provided" (parsed !! "REASONING") in
  (* Extract tools *)
  let tools_str := default "none" (parsed !! "TOOLS_NEEDED") in
  let required_tools :=
    if bool_decide (py_lower tools_str ≠ "none")
    then map py_strip (split_char "," tools_str)
    else [] in
  (* Extract retrieval flag *)
  let retrieval_needed :=
    bool_decide (py_lower (default "no" (parsed !! "RETRIEVAL_NEEDED")) = "yes") in
  {| decision := decision;
     confidence := confidence;
     reasoning := reasoning;
     required_tools := required_tools;
     retrieval_needed := retrieval_needed;
     escalation_reason := None |}.

(** The [except Exception as e] branch of [decide]. *)
Definition decide_fallback (e : string) : DecisionOutput :=
  {| decision := ESCALATE;
     confidence := 0.0;
     reasoning := "Decision engine error: " ++ e;
     required_tools := [];
     retrieval_needed := false;
     escalation_reason := Some "internal_error" |}.

Definition decision_system_prompt : string :=
  "You are an autonomous agent decision engine. Analyze the situation and decide the best action.".

Definition decide {A} (query : string) (conversation_history : list Message)
    (lead_context : gmap string (option string))
    (retrieved_sources : list A) : M W DecisionOutput :=
  (* Build decision prompt *)
  let decision_prompt :=
    _build_decision_prompt query conversation_history lead_context
                           retrieved_sources in
  (* Get LLM decision *)
  try_except
    (response <- generate llm decision_prompt decision_system_prompt
                   0.3%Q (* Lower temperature for consistent decisions *)
                   500%Z;;
     (* Parse decision from response *)
     ret (_parse_decision response))%py
    (* Fallback: escalate on error *)
    (λ e, ret (decide_fallback e)).

Definition calculate_confidence (sources_quality query_complexity
    context_completeness tool_success_rate : Q) (conflict_detected : bool) : Q :=
  let base_confidence :=
    (0.3 * sources_quality +
     0.2 * (1.0 - query_complexity) +
     0.3 * context_completeness +
     0.2 * tool_success_rate)%Q in
  let base_confidence :=
    if conflict_detected then (base_confidence * 0.5)%Q else base_confidence in
  py_max 0.0 (py_min 1.0 base_confidence).

(** The formula of the specification for [calculate_confidence], written
    with the library's [Qmin] and [Qmax]: the weighted sum times [h], clamped
    to the unit interval, where [h] is one half under a conflict and one
    otherwise. *)
Definition clamp01 (x : Q) : Q := Qmax 0 (Qmin 1 x).

Definition conflict_factor (conflict_detected : bool) : Q :=
  if conflict_detected then 0.5 else 1.

Definition spec_confidence (sq qc cc tsr : Q) (conflict_detected : bool) : Q :=
  clamp01 (conflict_factor conflict_detected *
           (0.3 * sq + 0.2 * (1 - qc) + 0.3 * cc + 0.2 * tsr)).

Definition should_escalate (confidence : Q) (error_occurred sensitive_topic : bool)
    : bool * option string :=
  if error_occurred then (true, Some "error_in_processing")
  else if sensitive_topic then (true, Some "sensitive_topic_detected")
  else if Qltb confidence low_threshold then (true, Some "confidence_below_threshold")
  else (false, None).

End Engine.
End DecisionEngine.

(** Reading the system clock, [datetime.now(timezone.utc)] and
    [datetime.utcnow()], as microseconds since the epoch. *)
Record Clock (W : Type) : Type := mkClock {
  clock : W → Z
}.
Arguments clock {W} _ _.

Definition utcnow {W} (c : Clock W) : M W Z := λ w, (Ok (clock c w), w).

(** [for x in xs: ...] collecting one result per item. *)
Fixpoint for_each {W A B} (f : A → M W B) (xs : list A) : M W (list B) :=
  match xs with
  | [] => ret []
  | x :: xs' => (y <- f x;; ys <- for_each f xs';; ret (y :: ys))%py
  end.

(** ** [tools/base.py] *)
Module ToolBase.

(** [@dataclass ToolResult]. *)
Record ToolResult : Type := mkToolResult {
  success : bool;
  data : option (gmap string string);
  error : option string;
  retry_allowed : bool
}.

(** [class Tool(ABC)]: the name and the abstract [execute], which takes
    keyword arguments only: a dict from parameter names to strings or
    None. *)
Record Tool (W : Type) : Type := mkTool {
  name : string;
  execute : gmap string (option string) → M W ToolResult
}.
Arguments name {W} _.
Arguments execute {W} _ _ _.

(** [self.max_retries = 3], set by [__init__] and never assigned again. *)
Definition max_retries : nat := 3.

(** How one pass through the body of the [while] loop ends. *)
Inductive LoopExit : Type :=
| Return (result : ToolResult)
| Continue.

(** The result built by the [except Exception as e] branch. *)
Definition exception_result (e : string) : ToolResult :=
  {| success := false;
     data := None;
     error := Some ("Tool execution exception: " ++ e);
     retry_allowed := false |}.

(** The result after the loop ("Should not reach here, but safety return"). *)
Definition safety_result : ToolResult :=
  {| success := false;
     data := None;
     error := Some "Max retries exceeded";
     retry_allowed := false |}.

Section Retry.
Context {W : Type}.
Variable settings : Settings.
Variable self : Tool W.
Variable kwargs : gmap string (option string).

(** One iteration of the loop body at the given [self.retry_count].  The
    keyword arguments and the [data] of a result hold strings, so the
    [json.dumps] of [tool_called] and [tool_result] returns.  The
    [trace_logger.info] that announces a retry stands inside the [try]:
    when it raises, the [except] branch answers as for an exception of the
    adapter, and the loop ends.  The [except] branch itself logs with
    [error_occurred] and [tool_result], which return. *)
Definition attempt (retry_count : nat) : M W LoopExit :=
  try_except
    (TraceLogger.tool_called settings;;;
     result <- execute self kwargs;;
     TraceLogger.tool_result settings (success result);;;
     (* If success or no retry allowed, return *)
     if success result || negb (retry_allowed result) then ret (Return result)
     else
       (* Retry on transient failure *)
       let retry_count := S retry_count in
       if (retry_count <=? max_retries)%nat then
         (TraceLogger.info settings;;;
          ret Continue)
       else ret (Return result) (* Max retries exceeded *))%py
    (λ e, ret (Return (exception_result e))).

(** [while self.retry_count <= self.max_retries: ...].  [iterations] bounds
    the number of passes; [execute_with_retry] starts it with one more than
    [max_retries], which the loop condition never lets it exceed. *)
Fixpoint retry_loop (iterations retry_count : nat) : M W ToolResult :=
  match iterations with
  | O => ret safety_result
  | S iterations' =>
      if (retry_count <=? max_retries)%nat then
        (exit <- attempt retry_count;;
         match exit with
         | Return result => ret result
         | Continue => retry_loop iterations' (S retry_count)
         end)%py
      else ret safety_result
  end.

Definition execute_with_retry : M W ToolResult :=
  retry_loop (S max_retries) 0.

(** A failure that [execute_with_retry] retries. *)
Definition retryable_failure (r : ToolResult) : bool :=
  negb (success r) && retry_allowed r.

(** The world after [k] successive calls of [execute] that all returned a
    retryable failure; [None] when one of them did anything else. *)
Fixpoint after_failures (k : nat) (w : W) : option W :=
  match k with
  | O => Some w
  | S k' =>
      match execute self kwargs w with
      | (Ok r, w') => if retryable_failure r then after_failures k' w' else None
      | (Raise _, _) => None
      end
  end.

End Retry.

(** An adapter wrapped so that the world also counts the calls made to its
    [execute]. *)
Definition counting {W} (t : Tool W) : Tool (W * nat) :=
  {| name := name t;
     execute := λ kwargs '(w, n),
       let '(r, w') := execute t kwargs w in (r, (w', S n)) |}.

End ToolBase.

(** ** [rag/evidence.py] *)
Module Evidence.

(** The [updated_at] entry of a chunk's metadata, as far as the reranker
    can tell its values apart. *)
Inductive UpdatedAt : Type :=
| Missing                (* no entry, or a falsy one (None, empty string) *)
| Unusable               (* fromisoformat or the subtraction raises *)
| At (t : Z).            (* an instant, microseconds since the epoch *)

(** The metadata dict of a chunk: the entries the core reads, each present
    or not. *)
Record Metadata : Type := mkMetadata {
  md_doc_title : option string;
  md_doc_type : option string;
  md_chunk_index : option Z;
  md_source_file : option string;
  md_updated_at : UpdatedAt
}.

(** [@dataclass Evidence]. *)
Record Evidence : Type := mkEvidence {
  source_id : string;
  doc_title : string;
  doc_type : string;
  chunk_text : string;
  score : Q;
  chunk_index : Z;
  source_file : string;
  metadata : Metadata;
  retrieved_at : option Z
}.

(** [evidence.score = s]. *)
Definition set_score (e : Evidence) (s : Q) : Evidence :=
  {| source_id := source_id e;
     doc_title := doc_title e;
     doc_type := doc_type e;
     chunk_text := chunk_text e;
     score := s;
     chunk_index := chunk_index e;
     source_file := source_file e;
     metadata := metadata e;
     retrieved_at := retrieved_at e |}.

End Evidence.

(** ** [rag/reranker.py] *)
Module Reranker.
Import Evidence.

(** [class EvidenceReranker]: the three weights. *)
Record EvidenceReranker : Type := mkEvidenceReranker {
  cosine_weight : Q;
  recency_weight : Q;
  quality_weight : Q
}.

(** [EvidenceReranker()] with the default arguments of [__init__]. *)
Definition default_reranker : EvidenceReranker :=
  {| cosine_weight := 0.6; recency_weight := 0.2; quality_weight := 0.2 |}.

Definition microseconds_per_day : Z := 86400000000.

Section Rerank.
Context `{PyBuiltins}.
Variable self : EvidenceReranker.
(** The reading of [datetime.now(timezone.utc)]. *)
Variable now : Z.

Definition _calculate_recency_score (evidence : Evidence) : Q :=
  match md_updated_at (metadata evidence) with
  | Missing => 0.7
  | Unusable => 0.7
  | At updated_dt =>
      (* timedelta.days is the floor of the difference in days *)
      let days_old := ((now - updated_dt) / microseconds_per_day)%Z in
      let half_life := 90%positive in
      match py_exp (Qmake (- days_old) half_life) with
      | Some recency_score => recency_score
      | None => 0.7
      end
  end.

Definition quality_map : gmap string Q :=
  <["pricing" := 1.0%Q]> (
  <["sop" := 0.95%Q]> (
  <["policy" := 0.9%Q]> (
  <["faq" := 0.8%Q]> (
  <["general" := 0.7%Q]> ∅)))).

Definition _calculate_quality_score (evidence : Evidence) : Q :=
  default 0.7%Q (quality_map !! doc_type evidence).

(** The body of the scoring loop: the new value of [evidence.score]. *)
Definition composite_score (evidence : Evidence) : Q :=
  let cosine_score := score evidence in
  let recency_score := _calculate_recency_score evidence in
  let quality_score := _calculate_quality_score evidence in
  (cosine_weight self * cosine_score +
   recency_weight self * recency_score +
   quality_weight self * quality_score)%Q.

Definition rescore (evidence : Evidence) : Evidence :=
  set_score evidence (composite_score evidence).

(** [list.sort(key=lambda e: e.score, reverse=True)]: a stable sort by
    descending score, written as an insertion sort. *)
Fixpoint insert_desc (e : Evidence) (l : list Evidence) : list Evidence :=
  match l with
  | [] => [e]
  | x :: xs => if Qltb (score e) (score x) then x :: insert_desc e xs else e :: l
  end.

Definition sort_desc (l : list Evidence) : list Evidence :=
  foldr insert_desc [] l.

Definition rerank (evidence_list : list Evidence) : list Evidence :=
  match evidence_list with
  | [] => []
  | _ => sort_desc (map rescore evidence_list)
  end.

(** The score at which rescoring leaves an item where it is. *)
Definition at_fixed_point (evidence : Evidence) : Prop :=
  (composite_score evidence == score evidence)%Q.

(** [threshold or settings.rag_confidence_threshold]: None and 0.0 are
    falsy. *)
Definition filter_low_quality (settings : Settings)
    (evidence_list : list Evidence) (threshold : option Q) : list Evidence :=
  let threshold :=
    match threshold with
    | Some t => if Qeq_bool t 0 then rag_confidence_threshold settings else t
    | None => rag_confidence_threshold settings
    end in
  filter (λ e, Qle_bool threshold (score e) = true) evidence_list.

(** The grouping loop of [detect_conflicts]. *)
Definition group_by_type (evidence_list : list Evidence)
    : gmap string (list Evidence) :=
  foldl (λ (by_type : gmap string (list Evidence)) e,
           let by_type :=
             match by_type !! doc_type e with
             | None => <[doc_type e := []]> by_type
             | Some _ => by_type
             end in
           <[doc_type e := append_item (default [] (by_type !! doc_type e)) e]> by_type)
        ∅ evidence_list.

(** [max(scores)] and [min(scores)] of a non-empty list. *)
Definition list_max (x : Q) (xs : list Q) : Q := foldl py_max x xs.
Definition list_min (x : Q) (xs : list Q) : Q := foldl py_min x xs.

(** [len(group) > 1 and max(scores) - min(scores) > 0.3]. *)
Definition spread_exceeds (group : list Evidence) : bool :=
  match map score group with
  | s :: (_ :: _) as rest => Qltb 0.3 (list_max s rest - list_min s rest)
  | _ => false
  end.

Definition detect_conflicts (evidence_list : list Evidence) : bool :=
  let by_type := group_by_type evidence_list in
  if match by_type !! "pricing" with
     | Some group => spread_exceeds group
     | None => false
     end
  then true
  else if match by_type !! "policy" with
          | Some group => spread_exceeds group
          | None => false
          end
  then true
  else false.

End Rerank.

(** Two results list the same chunks in the same order with equal
    scores. *)
Fixpoint same_order_and_scores (l1 l2 : list Evidence) : bool :=
  match l1, l2 with
  | [], [] => true
  | a :: l1', b :: l2' =>
      bool_decide (source_id a = source_id b) &&
      Qeq_bool (score a) (score b) &&
      same_order_and_scores l1' l2'
  | _, _ => false
  end.

(** Scores never increase along the list. *)
Fixpoint is_sorted_desc (l : list Evidence) : bool :=
  match l with
  | [] => true
  | x :: xs =>
      match xs with
      | [] => true
      | y :: _ => Qle_bool (score y) (score x) && is_sorted_desc xs
      end
  end.

End Reranker.

(** ** [rag/retriever.py] *)
Module Retriever.
Import Evidence.

(** The dict returned by the vector store's [query]: one row of hits per
    query embedding.  [None] is an entry that is missing or None. *)
Record QueryResult : Type := mkQueryResult {
  ids : option (list (list string));
  documents : option (list (list string));
  metadatas : option (list (list Metadata));
  distances : option (list (list Q))
}.

(** [memory/semantic.py]: [SemanticMemory.query(query_embeddings,
    n_results, where)]. *)
Record SemanticMemory (W : Type) : Type := mkSemanticMemory {
  query : list (list Q) → Z → option (gmap string string) → M W QueryResult
}.
Arguments query {W} _ _ _ _ _.

(** [rag/embeddings.py]: [EmbeddingGenerator.embed_single(text)], which
    re-raises a provider failure. *)
Record EmbeddingGenerator (W : Type) : Type := mkEmbeddingGenerator {
  embed_single : string → M W (list Q)
}.
Arguments embed_single {W} _ _ _.

(** [class RAGRetriever]. *)
Record RAGRetriever (W : Type) : Type := mkRAGRetriever {
  vector_store : SemanticMemory W;
  embedding_generator : EmbeddingGenerator W;
  top_k : Z
}.
Arguments vector_store {W} _.
Arguments embedding_generator {W} _.
Arguments top_k {W} _.

Section Retrieve.
Context {W : Type}.
Variable self : RAGRetriever W.
Variable clk : Clock W.

(** [results[field][0][i]], raising when a subscript is out of range or the
    entry is None. *)
Definition hit {A} (field : option (list (list A))) (i : nat) : M W A :=
  subscript "subscript failed"
    match field with
    | Some rows =>
        match rows !! 0%nat with
        | Some row => row !! i
        | None => None
        end
    | None => None
    end.

(** The body of the conversion loop: the [Evidence] built for hit [i]. *)
Definition evidence_of_hit (results : QueryResult) (i : nat) : M W Evidence :=
  (metadata <- hit (metadatas results) i;;
   source_id <- hit (ids results) i;;
   chunk_text <- hit (documents results) i;;
   distance <- hit (distances results) i;;
   retrieved_at <- utcnow clk;;
   ret {| source_id := source_id;
          doc_title := default "unknown" (md_doc_title metadata);
          doc_type := default "unknown" (md_doc_type metadata);
          chunk_text := chunk_text;
          score := 1.0 - distance;  (* Convert distance to similarity *)
          chunk_index := default 0%Z (md_chunk_index metadata);
          source_file := default "unknown" (md_source_file metadata);
          metadata := metadata;
          retrieved_at := Some retrieved_at |})%py.

(** The conversion of the store's answer to [Evidence] objects. *)
Definition convert_hits (results : QueryResult) : M W (list Evidence) :=
  match ids results with
  | Some (row :: _) => for_each (evidence_of_hit results) (seq 0 (length row))
  | _ => ret []
  end.

(** [k = top_k or self.top_k]: None and 0 are falsy. *)
Definition effective_k (top_k_arg : option Z) : Z :=
  match top_k_arg with
  | Some n => if (n =? 0)%Z then top_k self else n
  | None => top_k self
  end.

(** The [where] argument passed to the store: [metadata_filter or {}] with
    the document type added when one is given, and None when that dict is
    empty. *)
Definition where_argument (doc_type_filter : option string)
    (metadata_filter : option (gmap string string))
    : option (gmap string string) :=
  let where_filter := default ∅ metadata_filter in
  let where_filter :=
    match doc_type_filter with
    | Some t => if bool_decide (t = "") then where_filter
                else <["doc_type" := t]> where_filter
    | None => where_filter
    end in
  if bool_decide (where_filter = ∅) then None else Some where_filter.

Definition retrieve (query_text : string) (top_k_arg : option Z)
    (doc_type_filter : option string)
    (metadata_filter : option (gmap string string)) : M W (list Evidence) :=
  let k := effective_k top_k_arg in
  (* Generate query embedding *)
  (query_embedding <- embed_single (embedding_generator self) query_text;;
   (* Build metadata filter *)
   let where_filter := where_argument doc_type_filter metadata_filter in
   (* Query vector store *)
   try_except
     (results <- query (vector_store self) [query_embedding] k where_filter;;
      (* Convert to Evidence objects *)
      convert_hits results)
     (* Return empty list on error rather than failing *)
     (λ e, ret []))%py.

End Retrieve.
End Retriever.

(** ** Collaborators of the nodes *)

(** What the nodes read of [models/lead.py]'s [Lead]. *)
Record Lead : Type := mkLead {
  lead_ident : string;            (* Lead.id *)
  lead_mail : string;             (* Lead.email *)
  lead_name : option string;
  lead_company : option string;
  lead_status : option string
}.

(** [Lead.to_dict()], restricted to the entries above. *)
Definition Lead_to_dict (l : Lead) : gmap string (option string) :=
  <["id" := Some (lead_ident l)]> (
  <["email" := Some (lead_mail l)]> (
  <["name" := lead_name l]> (
  <["company" := lead_company l]> (
  <["status" := lead_status l]> ∅)))).

(** What the nodes read of an [Interaction]. *)
Record Interaction : Type := mkInteraction {
  message_from : string;
  message_text : string
}.

(** The arguments of [FactualMemory.add_interaction]. *)
Record InteractionArgs : Type := mkInteractionArgs {
  ia_lead_id : string;
  ia_message_from : string;
  ia_message_text : string;
  ia_decision_type : option DecisionEngine.Decision;
  ia_confidence_score : option Q;
  ia_tools_used : option (list string);
  ia_sources_retrieved : option (list string)
}.

(** The arguments of [FactualMemory.create_escalation]; the last three are
    the [context] dict. *)
Record EscalationArgs : Type := mkEscalationArgs {
  ea_lead_id : string;
  ea_reason : option string;
  ea_confidence_score : Q;
  ea_query : string;
  ea_decision : option DecisionEngine.Decision;
  ea_errors : list string
}.

(** [memory/factual.py]: the methods of [FactualMemory] the nodes call. *)
Record FactualMemory (W : Type) : Type := mkFactualMemory {
  get_lead_by_email : string → M W (option Lead);
  create_lead : string → string → M W Lead;
  get_lead_interactions : string → Z → M W (list Interaction);
  add_interaction : InteractionArgs → M W unit;
  create_escalation : EscalationArgs → M W unit
}.
Arguments get_lead_by_email {W} _ _ _.
Arguments create_lead {W} _ _ _ _.
Arguments get_lead_interactions {W} _ _ _ _.
Arguments add_interaction {W} _ _ _.
Arguments create_escalation {W} _ _ _.

(** [memory/semantic.py]: [ConversationMemory.add_conversation_turn(lead_id,
    role, message)]. *)
Record ConversationMemory (W : Type) : Type := mkConversationMemory {
  add_conversation_turn : string → string → string → M W unit
}.
Arguments add_conversation_turn {W} _ _ _ _ _.

(** The dicts stored in [tool_results]: [ToolResult.to_dict()] or one of the
    two literal dicts of the tools node.  ["success"] is always present; for
    the other keys [None] is a missing entry or the value None, which
    [.get] does not tell apart. *)
Record ResultDict : Type := mkResultDict {
  rd_success : bool;
  rd_data : option (gmap string string);
  rd_error : option string;
  rd_retry_allowed : option bool;
  rd_message : option string
}.

(** [ToolResult.to_dict()]. *)
Definition ToolResult_to_dict (r : ToolBase.ToolResult) : ResultDict :=
  {| rd_success := ToolBase.success r;
     rd_data := ToolBase.data r;
     rd_error := ToolBase.error r;
     rd_retry_allowed := Some (ToolBase.retry_allowed r);
     rd_message := None |}.

(** ** [agent/state.py] *)

(** [class AgentState(TypedDict)].  Every key is set by
    [AgentOrchestrator.run] before the first node runs.  The two lists of
    source dicts hold [Evidence.to_dict()] values, kept as [Evidence]. *)
Record AgentState : Type := mkAgentState {
  (* Input *)
  lead_id : string;
  lead_email : string;
  query : string;
  source : string;
  (* Context *)
  lead_context : gmap string (option string);
  conversation_history : list Message;
  (* Decision *)
  decision : option DecisionEngine.Decision;
  decision_reasoning : string;
  confidence : Q;
  (* RAG *)
  retrieval_needed : bool;
  retrieved_sources : list Evidence.Evidence;
  reranked_sources : list Evidence.Evidence;
  (* Response *)
  response_text : string;
  sources_used : list string;
  grounded : bool;
  (* Tools *)
  tools_to_use : list string;
  tool_results : list ResultDict;
  tool_errors : list string;
  (* Escalation *)
  escalated : bool;
  escalation_reason : option string;
  (* Metadata *)
  trace_id : string;
  next_action : option string;
  errors : list string
}.

(** [state[key] = v], one function per key that a node assigns. *)
Definition set_lead_id (v : string) (st : AgentState) : AgentState :=
  match st with
  | mkAgentState _ lead_email query source lead_context conversation_history
      decision decision_reasoning confidence retrieval_needed
      retrieved_sources reranked_sources response_text sources_used grounded
      tools_to_use tool_results tool_errors escalated escalation_reason
      trace_id next_action errors =>
      mkAgentState v lead_email query source lead_context
        conversation_history decision decision_reasoning confidence
        retrieval_needed retrieved_sources reranked_sources response_text
        sources_used grounded tools_to_use tool_results tool_errors
        escalated escalation_reason trace_id next_action errors
  end.

Definition set_lead_context (v : gmap string (option string)) (st : AgentState) : AgentState :=
  match st with
  | mkAgentState lead_id lead_email query source _ conversation_history
      decision decision_reasoning confidence retrieval_needed
      retrieved_sources reranked_sources response_text sources_used grounded
      tools_to_use tool_results tool_errors escalated escalation_reason
      trace_id next_action errors =>
      mkAgentState lead_id lead_email query source v conversation_history
        decision decision_reasoning confidence retrieval_needed
        retrieved_sources reranked_sources response_text sources_used
        grounded tools_to_use tool_results tool_errors escalated
        escalation_reason trace_id next_action errors
  end.

Definition set_conversation_history (v : list Message) (st : AgentState) : AgentState :=
  match st with
  | mkAgentState lead_id lead_email query source lead_context _ decision
      decision_reasoning confidence retrieval_needed retrieved_sources
      reranked_sources response_text sources_used grounded tools_to_use
      tool_results tool_errors escalated escalation_reason trace_id
      next_action errors =>
      mkAgentState lead_id lead_email query source lead_context v decision
        decision_reasoning confidence retrieval_needed retrieved_sources
        reranked_sources response_text sources_used grounded tools_to_use
        tool_results tool_errors escalated escalation_reason trace_id
        next_action errors
  end.

Definition set_decision (v : option DecisionEngine.Decision) (st : AgentState) : AgentState :=
  match st with
  | mkAgentState lead_id lead_email query source lead_context
      conversation_history _ decision_reasoning confidence retrieval_needed
      retrieved_sources reranked_sources response_text sources_used grounded
      tools_to_use tool_results tool_errors escalated escalation_reason
      trace_id next_action errors =>
      mkAgentState lead_id lead_email query source lead_context
        conversation_history v decision_reasoning confidence
        retrieval_needed retrieved_sources reranked_sources response_text
        sources_used grounded tools_to_use tool_results tool_errors
        escalated escalation_reason trace_id next_action errors
  end.

Definition set_decision_reasoning (v : string) (st : AgentState) : AgentState :=
  match st with
  | mkAgentState lead_id lead_email query source lead_context
      conversation_history decision _ confidence retrieval_needed
      retrieved_sources reranked_sources response_text sources_used grounded
      tools_to_use tool_results tool_errors escalated escalation_reason
      trace_id next_action errors =>
      mkAgentState lead_id lead_email query source lead_context
        conversation_history decision v confidence retrieval_needed
        retrieved_sources reranked_sources response_text sources_used
        grounded tools_to_use tool_results tool_errors escalated
        escalation_reason trace_id next_action errors
  end.

Definition set_confidence (v : Q) (st : AgentState) : AgentState :=
  match st with
  | mkAgentState lead_id lead_email query source lead_context
      conversation_history decision decision_reasoning _ retrieval_needed
      retrieved_sources reranked_sources response_text sources_used grounded
      tools_to_use tool_results tool_errors escalated escalation_reason
      trace_id next_action errors =>
      mkAgentState lead_id lead_email query source lead_context
        conversation_history decision decision_reasoning v retrieval_needed
        retrieved_sources reranked_sources response_text sources_used
        grounded tools_to_use tool_results tool_errors escalated
        escalation_reason trace_id next_action errors
  end.

Definition set_retrieval_needed (v : bool) (st : AgentState) : AgentState :=
  match st with
  | mkAgentState lead_id lead_email query source lead_context
      conversation_history decision decision_reasoning confidence _
      retrieved_sources reranked_sources response_text sources_used grounded
      tools_to_use tool_results tool_errors escalated escalation_reason
      trace_id next_action errors =>
      mkAgentState lead_id lead_email query source lead_context
        conversation_history decision decision_reasoning confidence v
        retrieved_sources reranked_sources response_text sources_used
        grounded tools_to_use tool_results tool_errors escalated
        escalation_reason trace_id next_action errors
  end.

Definition set_retrieved_sources (v : list Evidence.Evidence) (st : AgentState) : AgentState :=
  match st with
  | mkAgentState lead_id lead_email query source lead_context
      conversation_history decision decision_reasoning confidence
      retrieval_needed _ reranked_sources response_text sources_used
      grounded tools_to_use tool_results tool_errors escalated
      escalation_reason trace_id next_action errors =>
      mkAgentState lead_id lead_email query source lead_context
        conversation_history decision decision_reasoning confidence
        retrieval_needed v reranked_sources response_text sources_used
        grounded tools_to_use tool_results tool_errors escalated
        escalation_reason trace_id next_action errors
  end.

Definition set_reranked_sources (v : list Evidence.Evidence) (st : AgentState) : AgentState :=
  match st with
  | mkAgentState lead_id lead_email query source lead_context
      conversation_history decision decision_reasoning confidence
      retrieval_needed retrieved_sources _ response_text sources_used
      grounded tools_to_use tool_results tool_errors escalated
      escalation_reason trace_id next_action errors =>
      mkAgentState lead_id lead_email query source lead_context
        conversation_history decision decision_reasoning confidence
        retrieval_needed retrieved_sources v response_text sources_used
        grounded tools_to_use tool_results tool_errors escalated
        escalation_reason trace_id next_action errors
  end.

Definition set_response_text (v : string) (st : AgentState) : AgentState :=
  match st with
  | mkAgentState lead_id lead_email query source lead_context
      conversation_history decision decision_reasoning confidence
      retrieval_needed retrieved_sources reranked_sources _ sources_used
      grounded tools_to_use tool_results tool_errors escalated
      escalation_reason trace_id next_action errors =>
      mkAgentState lead_id lead_email query source lead_context
        conversation_history decision decision_reasoning confidence
        retrieval_needed retrieved_sources reranked_sources v sources_used
        grounded tools_to_use tool_results tool_errors escalated
        escalation_reason trace_id next_action errors
  end.

Definition set_sources_used (v : list string) (st : AgentState) : AgentState :=
  match st with
  | mkAgentState lead_id lead_email query source lead_context
      conversation_history decision decision_reasoning confidence
      retrieval_needed retrieved_sources reranked_sources response_text _
      grounded tools_to_use tool_results tool_errors escalated
      escalation_reason trace_id next_action errors =>
      mkAgentState lead_id lead_email query source lead_context
        conversation_history decision decision_reasoning confidence
        retrieval_needed retrieved_sources reranked_sources response_text v
        grounded tools_to_use tool_results tool_errors escalated
        escalation_reason trace_id next_action errors
  end.

Definition set_grounded (v : bool) (st : AgentState) : AgentState :=
  match st with
  | mkAgentState lead_id lead_email query source lead_context
      conversation_history decision decision_reasoning confidence
      retrieval_needed retrieved_sources reranked_sources response_text
      sources_used _ tools_to_use tool_results tool_errors escalated
      escalation_reason trace_id next_action errors =>
      mkAgentState lead_id lead_email query source lead_context
        conversation_history decision decision_reasoning confidence
        retrieval_needed retrieved_sources reranked_sources response_text
        sources_used v tools_to_use tool_results tool_errors escalated
        escalation_reason trace_id next_action errors
  end.

Definition set_tools_to_use (v : list string) (st : AgentState) : AgentState :=
  match st with
  | mkAgentState lead_id lead_email query source lead_context
      conversation_history decision decision_reasoning confidence
      retrieval_needed retrieved_sources reranked_sources response_text
      sources_used grounded _ tool_results tool_errors escalated
      escalation_reason trace_id next_action errors =>
      mkAgentState lead_id lead_email query source lead_context
        conversation_history decision decision_reasoning confidence
        retrieval_needed retrieved_sources reranked_sources response_text
        sources_used grounded v tool_results tool_errors escalated
        escalation_reason trace_id next_action errors
  end.

Definition set_tool_results (v : list ResultDict) (st : AgentState) : AgentState :=
  match st with
  | mkAgentState lead_id lead_email query source lead_context
      conversation_history decision decision_reasoning confidence
      retrieval_needed retrieved_sources reranked_sources response_text
      sources_used grounded tools_to_use _ tool_errors escalated
      escalation_reason trace_id next_action errors =>
      mkAgentState lead_id lead_email query source lead_context
        conversation_history decision decision_reasoning confidence
        retrieval_needed retrieved_sources reranked_sources response_text
        sources_used grounded tools_to_use v tool_errors escalated
        escalation_reason trace_id next_action errors
  end.

Definition set_tool_errors (v : list string) (st : AgentState) : AgentState :=
  match st with
  | mkAgentState lead_id lead_email query source lead_context
      conversation_history decision decision_reasoning confidence
      retrieval_needed retrieved_sources reranked_sources response_text
      sources_used grounded tools_to_use tool_results _ escalated
      escalation_reason trace_id next_action errors =>
      mkAgentState lead_id lead_email query source lead_context
        conversation_history decision decision_reasoning confidence
        retrieval_needed retrieved_sources reranked_sources response_text
        sources_used grounded tools_to_use tool_results v escalated
        escalation_reason trace_id next_action errors
  end.

Definition set_escalated (v : bool) (st : AgentState) : AgentState :=
  match st with
  | mkAgentState lead_id lead_email query source lead_context
      conversation_history decision decision_reasoning confidence
      retrieval_needed retrieved_sources reranked_sources response_text
      sources_used grounded tools_to_use tool_results tool_errors _
      escalation_reason trace_id next_action errors =>
      mkAgentState lead_id lead_email query source lead_context
        conversation_history decision decision_reasoning confidence
        retrieval_needed retrieved_sources reranked_sources response_text
        sources_used grounded tools_to_use tool_results tool_errors v
        escalation_reason trace_id next_action errors
  end.

Definition set_escalation_reason (v : option string) (st : AgentState) : AgentState :=
  match st with
  | mkAgentState lead_id lead_email query source lead_context
      conversation_history decision decision_reasoning confidence
      retrieval_needed retrieved_sources reranked_sources response_text
      sources_used grounded tools_to_use tool_results tool_errors escalated
      _ trace_id next_action errors =>
      mkAgentState lead_id lead_email query source lead_context
        conversation_history decision decision_reasoning confidence
        retrieval_needed retrieved_sources reranked_sources response_text
        sources_used grounded tools_to_use tool_results tool_errors
        escalated v trace_id next_action errors
  end.

Definition set_errors (v : list string) (st : AgentState) : AgentState :=
  match st with
  | mkAgentState lead_id lead_email query source lead_context
      conversation_history decision decision_reasoning confidence
      retrieval_needed retrieved_sources reranked_sources response_text
      sources_used grounded tools_to_use tool_results tool_errors escalated
      escalation_reason trace_id next_action _ =>
      mkAgentState lead_id lead_email query source lead_context
        conversation_history decision decision_reasoning confidence
        retrieval_needed retrieved_sources reranked_sources response_text
        sources_used grounded tools_to_use tool_results tool_errors
        escalated escalation_reason trace_id next_action v
  end.

(** ** [agent/nodes.py] *)
Module Nodes.
Import Evidence.

(** The module-level singletons of [agent/nodes.py] together with the
    settings and the clock they use.  [decision_engine] is represented by
    the provider it holds in [self.llm]. *)
Record Singletons (W : Type) : Type := mkSingletons {
  factual_memory : FactualMemory W;
  conversation_memory : ConversationMemory W;
  decision_engine : LLMProvider W;
  rag_retriever : Retriever.RAGRetriever W;
  reranker : Reranker.EvidenceReranker;
  crm_tool : ToolBase.Tool W;
  calendar_tool : ToolBase.Tool W;
  email_tool : ToolBase.Tool W;
  llm_provider : LLMProvider W;
  settings : Settings;
  system_clock : Clock W
}.
Arguments factual_memory {W} _.
Arguments conversation_memory {W} _.
Arguments decision_engine {W} _.
Arguments rag_retriever {W} _.
Arguments reranker {W} _.
Arguments crm_tool {W} _.
Arguments calendar_tool {W} _.
Arguments email_tool {W} _.
Arguments llm_provider {W} _.
Arguments settings {W} _.
Arguments system_clock {W} _.

Definition apology_text : string :=
  "I apologize, but I'm having trouble formulating a response. A team member will reach out to you shortly.".

Definition handoff_text : string :=
  "Thank you for your inquiry. I want to ensure you get the best possible assistance, " ++
  "so I'm connecting you with one of our team members who will follow up with you shortly.".

Definition system_prompt : string :=
  "You are a professional sales and operations AI agent for a service business." ++ nl ++
  "Your goal is to help prospects by providing accurate information and moving them through the sales funnel." ++ nl ++
  nl ++
  "Guidelines:" ++ nl ++
  "- Be professional but friendly" ++ nl ++
  "- Ground your answers in the provided sources" ++ nl ++
  "- If sources are insufficient, ask clarifying questions" ++ nl ++
  "- Proactively suggest next steps (book a call, request demo, etc.)" ++ nl ++
  "- Keep responses concise (2-3 paragraphs max)" ++ nl.

Section Nodes.
Context `{PyBuiltins} {W : Type}.
Variable env : Singletons W.

(** Node 1: intake webhook. *)
Definition intake_webhook (state : AgentState) : M W AgentState :=
  ret state.

(** Node 2: load lead context. *)
Definition load_lead_context (state : AgentState) : M W AgentState :=
  (lead <- get_lead_by_email (factual_memory env) (lead_email state);;
   lead <- match lead with
           | Some lead => ret lead
           | None => create_lead (factual_memory env) (lead_email state)
                                 (source state)
           end;;
   interactions <- get_lead_interactions (factual_memory env)
                     (lead_ident lead) 10%Z;;
   let history :=
     map (λ inter, {| role := message_from inter;
                      content := message_text inter |})
         (reverse interactions) in
   let state := set_lead_id (lead_ident lead) state in
   let state := set_lead_context (Lead_to_dict lead) state in
   let state := set_conversation_history history state in
   ret state)%py.

(** Node 3: autonomous decision-making. *)
Definition decide_action (state : AgentState) : M W AgentState :=
  (decision_output <-
     DecisionEngine.decide (decision_engine env) (query state)
       (conversation_history state) (lead_context state)
       (retrieved_sources state);;
   let state := set_decision (Some (DecisionEngine.decision decision_output)) state in
   let state := set_decision_reasoning (DecisionEngine.reasoning decision_output) state in
   let state := set_confidence (DecisionEngine.confidence decision_output) state in
   let state := set_retrieval_needed (DecisionEngine.retrieval_needed decision_output) state in
   let state := set_tools_to_use (DecisionEngine.required_tools decision_output) state in
   (* Check if escalation needed *)
   let state :=
     match DecisionEngine.decision decision_output with
     | DecisionEngine.ESCALATE =>
         let state := set_escalated true state in
         set_escalation_reason (DecisionEngine.escalation_reason decision_output) state
     | _ => state
     end in
   ret state)%py.

(** Node 4: RAG retrieval.  [rerank] rescored and sorted [evidence_list]
    itself and returned that same list object, so the dicts stored under
    ["retrieved_sources"] are those of the reranked list.  The
    [trace_logger.warning] after the confidence is lowered is not inside a
    [try]: when it raises, the node raises. *)
Definition retrieve_rag (state : AgentState) : M W AgentState :=
  if negb (retrieval_needed state) then ret state
  else
    ((* Retrieve relevant chunks *)
     evidence_list <- Retriever.retrieve (rag_retriever env) (system_clock env)
                        (query state) (Some (rag_top_k (settings env)))
                        None None;;
     (* Re-rank *)
     now <- utcnow (system_clock env);;
     let reranked := Reranker.rerank (reranker env) now evidence_list in
     let evidence_list := reranked in
     (* Filter low quality *)
     let filtered :=
       Reranker.filter_low_quality (settings env) reranked
         (Some (rag_confidence_threshold (settings env))) in
     (* Check for conflicts *)
     let conflict_detected := Reranker.detect_conflicts filtered in
     (* Update state *)
     let state := set_retrieved_sources evidence_list state in
     let state := set_reranked_sources filtered state in
     (* Adjust confidence if conflicts detected *)
     if conflict_detected then
       let state := set_confidence (confidence state * 0.7)%Q state in
       (TraceLogger.warning (settings env);;;
        ret state)
     else ret state)%py.

(** The text built from the top three reranked sources. *)
Definition compose_sources_text (state : AgentState) : string :=
  match reranked_sources state with
  | [] => ""
  | _ => join (nl ++ nl)
           (map (λ s, "[Source: " ++ doc_title s ++ "]" ++ nl ++ chunk_text s)
                (take 3 (reranked_sources state)))
  end.

Definition compose_prompt (state : AgentState) : string :=
  let sources_text := compose_sources_text state in
  let conversation_text :=
    join nl (map (λ msg, role msg ++ ": " ++ content msg)
                 (last_n 3 (conversation_history state))) in
  "CONVERSATION HISTORY:" ++ nl ++
  conversation_text ++ nl ++
  nl ++
  "CURRENT QUERY:" ++ nl ++
  query state ++ nl ++
  nl ++
  "RETRIEVED INFORMATION:" ++ nl ++
  (if bool_decide (sources_text = "")
   then "No specific sources retrieved - use general knowledge about sales process."
   else sources_text) ++ nl ++
  nl ++
  "LEAD CONTEXT:" ++ nl ++
  "- Status: " ++ fmt_opt (dict_get (lead_context state) "status" "new") ++ nl ++
  "- Company: " ++ fmt_opt (dict_get (lead_context state) "company" "unknown") ++ nl ++
  nl ++
  "Compose a helpful response to the current query.".

(** The assignments of the [try] block after the generation call: the
    state they leave, and whether the [if] that ends the block was
    entered. *)
Definition compose_success (response_text : string) (state : AgentState)
    : AgentState * bool :=
  let state := set_response_text response_text state in
  let state := set_grounded (negb (bool_decide (compose_sources_text state = ""))) state in
  let state := set_sources_used (map doc_title (take 3 (reranked_sources state))) state in
  (* Enforce confidence thresholds *)
  let '(should_escalate_flag, reason) :=
    DecisionEngine.should_escalate (settings env) (confidence state) false false in
  if should_escalate_flag && negb (escalated state) then
    let state := set_escalated true state in
    (set_escalation_reason reason state, true)
  else (state, false).

(** The [except Exception as e] block. *)
Definition compose_failure (e : string) (state : AgentState) : AgentState :=
  let state :=
    set_errors (append_item (errors state) ("Response composition failed: " ++ e))
               state in
  let state := set_response_text apology_text state in
  let state := set_escalated true state in
  set_escalation_reason (Some "response_generation_error") state.

(** Node 5: compose response.  The state is a dict that the [try] block
    assigns to in place, so the [except] block works on the state as the
    exception found it: the incoming state when the generation call
    raises, and the state after the assignments of the block when the
    [trace_logger.warning] that ends it raises. *)
Definition compose_response (state : AgentState) : M W AgentState :=
  let prompt := compose_prompt state in
  (generated <- caught (generate (llm_provider env) prompt system_prompt
                          0.7%Q 500%Z);;
   match generated with
   | Raise e => ret (compose_failure e state)
   | Ok response_text =>
       let '(state, warn) := compose_success response_text state in
       if warn then
         (logged <- caught (TraceLogger.warning (settings env));;
          match logged with
          | Raise e => ret (compose_failure e state)
          | Ok _ => ret state
          end)
       else ret state
   end)%py.

Definition _execute_crm_tool (state : AgentState) : M W ResultDict :=
  ((* Upsert lead with latest info *)
   result <- ToolBase.execute_with_retry (settings env) (crm_tool env)
               (<["action" := Some "upsert"]> (
                <["email" := Some (lead_email state)]> (
                <["name" := mjoin (lead_context state !! "name")]> (
                <["source" := Some (source state)]> ∅))));;
   (* Update status to contacted *)
   (if ToolBase.success result then
      (_ <- ToolBase.execute (crm_tool env)
              (<["action" := Some "update_status"]> (
               <["lead_id" := Some (lead_id state)]> (
               <["status" := Some "contacted"]> ∅)));;
       ret tt)
    else ret tt);;;
   ret (ToolResult_to_dict result))%py.

Definition _execute_calendar_tool (state : AgentState) : M W ResultDict :=
  (* Only book if query indicates interest *)
  let query_lower := py_lower (query state) in
  if contains "call" query_lower || contains "meeting" query_lower
     || contains "schedule" query_lower then
    (result <- ToolBase.execute_with_retry (settings env) (calendar_tool env)
                 (<["action" := Some "book_meeting"]> (
                  <["lead_email" := Some (lead_email state)]> (
                  <["lead_name" := mjoin (lead_context state !! "name")]> (
                  <["meeting_type" := Some "discovery_call"]> ∅))));;
     ret (ToolResult_to_dict result))%py
  else
    ret {| rd_success := true; rd_data := None; rd_error := None;
           rd_retry_allowed := None;
           rd_message := Some "No meeting booking needed" |}.

Definition _execute_email_tool (state : AgentState) : M W ResultDict :=
  (result <- ToolBase.execute_with_retry (settings env) (email_tool env)
               (<["action" := Some "send"]> (
                <["to_email" := Some (lead_email state)]> (
                <["subject" := Some "Re: Your inquiry"]> (
                <["body" := Some (response_text state)]> ∅))));;
   ret (ToolResult_to_dict result))%py.

(** The body of the loop over [tools_to_use], on the two lists it
    appends to. *)
Definition execute_one_tool (state : AgentState) (tool_name : string)
    (acc : list ResultDict * list string) : M W (list ResultDict * list string) :=
  let '(tool_results, tool_errors) := acc in
  try_except
    ((* Determine tool and action *)
     result <-
       (if contains "crm" (py_lower tool_name) then _execute_crm_tool state
        else if contains "calendar" (py_lower tool_name) then _execute_calendar_tool state
        else if contains "email" (py_lower tool_name) then _execute_email_tool state
        else ret {| rd_success := false; rd_data := None;
                    rd_error := Some ("Unknown tool: " ++ tool_name);
                    rd_retry_allowed := None; rd_message := None |});;
     let tool_results := append_item tool_results result in
     let tool_errors :=
       if negb (rd_success result)
       then append_item tool_errors (tool_name ++ ": " ++ fmt_opt (rd_error result))
       else tool_errors in
     ret (tool_results, tool_errors))%py
    (λ e, ret (tool_results,
               append_item tool_errors ("Tool execution failed: " ++ e))).

Fixpoint execute_tool_loop (state : AgentState) (names : list string)
    (acc : list ResultDict * list string) : M W (list ResultDict * list string) :=
  match names with
  | [] => ret acc
  | tool_name :: names' =>
      (acc' <- execute_one_tool state tool_name acc;;
       execute_tool_loop state names' acc')%py
  end.

(** Node 6: execute tools. *)
Definition execute_tools (state : AgentState) : M W AgentState :=
  match tools_to_use state with
  | [] => ret state
  | _ =>
      (lists <- execute_tool_loop state (tools_to_use state) ([], []);;
       let '(tool_results, tool_errors) := lists in
       let state := set_tool_results tool_results state in
       let state := set_tool_errors tool_errors state in
       (* If critical tools failed, escalate *)
       let state :=
         match tool_errors with
         | [] => state
         | _ =>
             if contains "calendar" (py_str_list tool_errors) then
               let state := set_escalated true state in
               set_escalation_reason (Some "tool_failure") state
             else state
         end in
       ret state)%py
  end.

(** Node 7: update memory. *)
Definition update_memory (state : AgentState) : M W AgentState :=
  ((* Add interaction to factual memory *)
   add_interaction (factual_memory env)
     {| ia_lead_id := lead_id state;
        ia_message_from := "lead";
        ia_message_text := query state;
        ia_decision_type := decision state;
        ia_confidence_score := Some (confidence state);
        ia_tools_used := Some (tools_to_use state);
        ia_sources_retrieved := Some (sources_used state) |};;;
   add_interaction (factual_memory env)
     {| ia_lead_id := lead_id state;
        ia_message_from := "agent";
        ia_message_text := response_text state;
        ia_decision_type := decision state;
        ia_confidence_score := Some (confidence state);
        ia_tools_used := None;
        ia_sources_retrieved := None |};;;
   (* Add to semantic memory (conversation history) *)
   add_conversation_turn (conversation_memory env) (lead_id state) "user"
     (query state);;;
   add_conversation_turn (conversation_memory env) (lead_id state) "agent"
     (response_text state);;;
   ret state)%py.

(** Node 8: handle escalation.  The key ["escalation_reason"] is always
    present, so the default of [.get] is never used.  The node ends with a
    [trace_logger.info] outside of any [try]: when it raises, the node
    raises, after the event was stored and the adapter called. *)
Definition handle_escalation (state : AgentState) : M W AgentState :=
  if negb (escalated state) then ret state
  else
    ((* Create escalation event *)
     create_escalation (factual_memory env)
       {| ea_lead_id := lead_id state;
          ea_reason := escalation_reason state;
          ea_confidence_score := confidence state;
          ea_query := query state;
          ea_decision := decision state;
          ea_errors := errors state |};;;
     (* Update lead status *)
     _ <- ToolBase.execute (crm_tool env)
            (<["action" := Some "update_status"]> (
             <["lead_id" := Some (lead_id state)]> (
             <["status" := Some "escalated"]> ∅)));;
     (* Modify response to indicate escalation *)
     let state := set_response_text handoff_text state in
     TraceLogger.info (settings env);;;
     ret state)%py.

(** Node 9: finalize. *)
Definition finalize (state : AgentState) : M W AgentState :=
  ret state.

End Nodes.
End Nodes.

(** ** [agent/orchestrator.py] *)
Module Orchestrator.

(** The nodes registered by [_build_graph]. *)
Inductive Node : Type :=
| Intake
| Load_context
| Decide
| Retrieve
| Compose
| Tools
| Escalate
| Memory
| Finalize.

(** The name each node is registered under. *)
Definition node_name (n : Node) : string :=
  match n with
  | Intake => "intake"
  | Load_context => "load_context"
  | Decide => "decide"
  | Retrieve => "retrieve"
  | Compose => "compose"
  | Tools => "tools"
  | Escalate => "escalate"
  | Memory => "memory"
  | Finalize => "finalize"
  end.

Definition Node_eqb (a b : Node) : bool :=
  bool_decide (node_name a = node_name b).

(** Where an edge leads: a node, or LangGraph's [END]. *)
Inductive Target : Type :=
| To (n : Node)
| END.

(** Conditional edge: decide if RAG retrieval is needed. *)
Definition should_retrieve (state : AgentState) : string :=
  if retrieval_needed state then "retrieve" else "compose".

(** Conditional edge: decide if tools should be executed. *)
Definition should_use_tools (state : AgentState) : string :=
  match tools_to_use state with
  | [] => "memory"
  | _ => "tools"
  end.

(** Conditional edge: decide if escalation is needed. *)
Definition should_escalate (state : AgentState) : string :=
  if escalated state then "escalate" else "memory".

(** LangGraph's [StateGraph] as its builder methods fill it. *)
Record StateGraph (W : Type) : Type := mkStateGraph {
  nodes : list (Node * (AgentState → M W AgentState));
  entry_point : option Node;
  edges : list (Node * Target);
  conditional_edges :
    list (Node * ((AgentState → string) * list (string * Node)))
}.
Arguments nodes {W} _.
Arguments entry_point {W} _.
Arguments edges {W} _.
Arguments conditional_edges {W} _.

Section Graph.
Context `{PyBuiltins} {W : Type}.

Definition empty_graph : StateGraph W :=
  {| nodes := []; entry_point := None; edges := []; conditional_edges := [] |}.

Definition add_node (n : Node) (action : AgentState → M W AgentState)
    (g : StateGraph W) : StateGraph W :=
  {| nodes := append_item (nodes g) (n, action);
     entry_point := entry_point g;
     edges := edges g;
     conditional_edges := conditional_edges g |}.

Definition set_entry_point (n : Node) (g : StateGraph W) : StateGraph W :=
  {| nodes := nodes g;
     entry_point := Some n;
     edges := edges g;
     conditional_edges := conditional_edges g |}.

Definition add_edge (src : Node) (dst : Target) (g : StateGraph W)
    : StateGraph W :=
  {| nodes := nodes g;
     entry_point := entry_point g;
     edges := append_item (edges g) (src, dst);
     conditional_edges := conditional_edges g |}.

Definition add_conditional_edges (src : Node) (path : AgentState → string)
    (path_map : list (string * Node)) (g : StateGraph W) : StateGraph W :=
  {| nodes := nodes g;
     entry_point := entry_point g;
     edges := edges g;
     conditional_edges := append_item (conditional_edges g) (src, (path, path_map)) |}.

Variable env : Nodes.Singletons W.

(** [AgentOrchestrator._build_graph], call by call. *)
Definition _build_graph : StateGraph W :=
  let workflow := empty_graph in
  (* Add nodes *)
  let workflow := add_node Intake (Nodes.intake_webhook) workflow in
  let workflow := add_node Load_context (Nodes.load_lead_context env) workflow in
  let workflow := add_node Decide (Nodes.decide_action env) workflow in
  let workflow := add_node Retrieve (Nodes.retrieve_rag env) workflow in
  let workflow := add_node Compose (Nodes.compose_response env) workflow in
  let workflow := add_node Tools (Nodes.execute_tools env) workflow in
  let workflow := add_node Escalate (Nodes.handle_escalation env) workflow in
  let workflow := add_node Memory (Nodes.update_memory env) workflow in
  let workflow := add_node Finalize (Nodes.finalize) workflow in
  (* Set entry point *)
  let workflow := set_entry_point Intake workflow in
  (* Add edges *)
  let workflow := add_edge Intake (To Load_context) workflow in
  let workflow := add_edge Load_context (To Decide) workflow in
  (* Conditional: retrieve or compose *)
  let workflow :=
    add_conditional_edges Decide should_retrieve
      [("retrieve", Retrieve); ("compose", Compose)] workflow in
  let workflow := add_edge Retrieve (To Compose) workflow in
  (* Conditional: escalate, tools, or memory *)
  let workflow :=
    add_conditional_edges Compose should_escalate
      [("escalate", Escalate); ("memory", Memory)] workflow in
  let workflow := add_edge Tools (To Memory) workflow in
  let workflow := add_edge Escalate (To Memory) workflow in
  let workflow := add_edge Memory (To Finalize) workflow in
  let workflow := add_edge Finalize END workflow in
  workflow.

(** [d.get(key)] on a list of pairs. *)
Fixpoint assoc {A} (key : string) (d : list (string * A)) : option A :=
  match d with
  | [] => None
  | (k, v) :: d' => if bool_decide (k = key) then Some v else assoc key d'
  end.

Fixpoint node_action (n : Node) (l : list (Node * (AgentState → M W AgentState)))
    : option (AgentState → M W AgentState) :=
  match l with
  | [] => None
  | (m, action) :: l' => if Node_eqb m n then Some action else node_action n l'
  end.

(** The targets the graph selects after node [n] has produced [state]: the
    plain edges leaving [n], then for each conditional edge leaving [n] the
    node its path function's answer is mapped to. *)
Definition successors (g : StateGraph W) (n : Node) (state : AgentState)
    : list Target :=
  (map snd (filter (λ e, Node_eqb (fst e) n = true) (edges g)) ++
   omap (λ c, To <$> assoc (fst (snd c) state) (snd (snd c)))
        (filter (λ c, Node_eqb (fst c) n = true) (conditional_edges g)))%list.

(** One step of the compiled graph: run the action of [n], then route on
    the state it returned.  Every node of this graph has one successor
    (lemma [successors_single]); [head] picks it. *)
Definition run_node (g : StateGraph W) (n : Node) (state : AgentState)
    : M W (AgentState * option Target) :=
  match node_action n (nodes g) with
  | None => raise ("unknown node: " ++ node_name n)
  | Some action =>
      (state' <- action state;;
       ret (state', head (successors g n state')))%py
  end.

(** LangGraph's default [recursion_limit]. *)
Definition recursion_limit : nat := 25.

(** Runs the graph from node [n]; returns the final state and the nodes
    that ran, in order. *)
Fixpoint run_from (g : StateGraph W) (steps : nat) (n : Node)
    (state : AgentState) : M W (AgentState * list Node) :=
  match steps with
  | O => raise "GraphRecursionError"
  | S steps' =>
      (r <- run_node g n state;;
       match snd r with
       | Some (To m) =>
           r' <- run_from g steps' m (fst r);;
           ret (fst r', n :: snd r')
       | Some END | None => ret (fst r, [n])
       end)%py
  end.

(** [compiled_graph.invoke(initial_state)], with the trace of nodes. *)
Definition invoke_trace (g : StateGraph W) (initial_state : AgentState)
    : M W (AgentState * list Node) :=
  match entry_point g with
  | Some n => run_from g recursion_limit n initial_state
  | None => raise "no entry point"
  end.

Definition invoke (g : StateGraph W) (initial_state : AgentState)
    : M W AgentState :=
  (r <- invoke_trace g initial_state;; ret (fst r))%py.

(** [trace_logger.generate_trace_id()]. *)
Variable generate_trace_id : M W string.

Definition initial_state (lead_email query source trace_id : string)
    : AgentState :=
  {| lead_id := "";
     lead_email := lead_email;
     query := query;
     source := source;
     lead_context := ∅;
     conversation_history := [];
     decision := None;
     decision_reasoning := "";
     confidence := 0.0;
     retrieval_needed := false;
     retrieved_sources := [];
     reranked_sources := [];
     response_text := "";
     sources_used := [];
     grounded := false;
     tools_to_use := [];
     tool_results := [];
     tool_errors := [];
     escalated := false;
     escalation_reason := None;
     trace_id := trace_id;
     next_action := None;
     errors := [] |}.

Definition orchestration_apology : string :=
  "I apologize, but I'm experiencing technical difficulties. A team member will assist you shortly.".

(** The state returned by the [except Exception as e] branch of [run]. *)
Definition error_state (initial : AgentState) (e : string) : AgentState :=
  let state := set_escalated true initial in
  let state := set_escalation_reason (Some "orchestration_error") state in
  let state := set_errors [e] state in
  set_response_text orchestration_apology state.

(** [AgentOrchestrator.run]; [trace_id] is [None] or empty when the caller
    gives none. *)
Definition run (lead_email query source : string) (trace_id : option string)
    : M W AgentState :=
  (trace_id <- match trace_id with
               | Some t => if bool_decide (t = "") then generate_trace_id
                           else ret t
               | None => generate_trace_id
               end;;
   let initial := initial_state lead_email query source trace_id in
   try_except
     (invoke _build_graph initial)
     (λ e, ret (error_state initial e)))%py.

End Graph.
End Orchestrator.

(** ** A scripted outside world

    A concrete world on which the pipeline can be evaluated: the replies of
    the model provider and of the tool adapters are scripted and consumed
    in order, the embedding provider and the vector store each have one
    fixed outcome, the structured store accepts every call, and every
    collaborator call is logged in [calls]. *)
Module Scenario.

Record World : Type := mkWorld {
  llm_replies : list (Outcome string);
  embed_reply : Outcome (list Q);
  store_reply : Outcome Retriever.QueryResult;
  tool_replies : list (Outcome ToolBase.ToolResult);
  time : Z;
  calls : list string
}.

Definition log (call : string) (w : World) : World :=
  {| llm_replies := llm_replies w;
     embed_reply := embed_reply w;
     store_reply := store_reply w;
     tool_replies := tool_replies w;
     time := time w;
     calls := append_item (calls w) call |}.

Definition pop_llm (w : World) : World :=
  {| llm_replies := tail (llm_replies w);
     embed_reply := embed_reply w;
     store_reply := store_reply w;
     tool_replies := tool_replies w;
     time := time w;
     calls := calls w |}.

Definition pop_tool (w : World) : World :=
  {| llm_replies := llm_replies w;
     embed_reply := embed_reply w;
     store_reply := store_reply w;
     tool_replies := tail (tool_replies w);
     time := time w;
     calls := calls w |}.

Definition scripted_llm : LLMProvider World :=
  {| generate := λ _ _ _ _ w,
       match llm_replies w with
       | reply :: _ => (reply, log "llm.generate" (pop_llm w))
       | [] => (Raise "no reply scripted", log "llm.generate" w)
       end |}.

Definition scripted_tool (tool_name : string) : ToolBase.Tool World :=
  {| ToolBase.name := tool_name;
     ToolBase.execute := λ kwargs w,
       let call := tool_name ++ "." ++ fmt_opt (mjoin (kwargs !! "action")) in
       match tool_replies w with
       | reply :: _ => (reply, log call (pop_tool w))
       | [] => (Raise "no reply scripted", log call w)
       end |}.

Definition scripted_retriever : Retriever.RAGRetriever World :=
  {| Retriever.vector_store :=
       {| Retriever.query := λ _ _ _ w, (store_reply w, log "store.query" w) |};
     Retriever.embedding_generator :=
       {| Retriever.embed_single := λ _ w, (embed_reply w, log "embed" w) |};
     Retriever.top_k := 8 |}.

Definition new_lead (email : string) : Lead :=
  {| lead_ident := "lead-1";
     lead_mail := email;
     lead_name := None;
     lead_company := None;
     lead_status := Some "new" |}.

Definition accepting_store : FactualMemory World :=
  {| get_lead_by_email := λ _ w, (Ok None, log "get_lead_by_email" w);
     create_lead := λ email _ w, (Ok (new_lead email), log "create_lead" w);
     get_lead_interactions := λ _ _ w, (Ok [], log "get_lead_interactions" w);
     add_interaction := λ _ w, (Ok tt, log "add_interaction" w);
     create_escalation := λ _ w, (Ok tt, log "create_escalation" w) |}.

Definition env : Nodes.Singletons World :=
  {| Nodes.factual_memory := accepting_store;
     Nodes.conversation_memory :=
       {| add_conversation_turn := λ _ _ _ w,
            (Ok tt, log "add_conversation_turn" w) |};
     Nodes.decision_engine := scripted_llm;
     Nodes.rag_retriever := scripted_retriever;
     Nodes.reranker := Reranker.default_reranker;
     Nodes.crm_tool := scripted_tool "crm_tool";
     Nodes.calendar_tool := scripted_tool "calendar_tool";
     Nodes.email_tool := scripted_tool "email_tool";
     Nodes.llm_provider := scripted_llm;
     Nodes.settings := default_settings;
     Nodes.system_clock := {| clock := time |} |}.

Definition world (llm : list (Outcome string)) (embed : Outcome (list Q))
    (store : Outcome Retriever.QueryResult)
    (tool : list (Outcome ToolBase.ToolResult)) : World :=
  {| llm_replies := llm;
     embed_reply := embed;
     store_reply := store;
     tool_replies := tool;
     time := 0;
     calls := [] |}.

Definition no_hits : Retriever.QueryResult :=
  {| Retriever.ids := Some [[]];
     Retriever.documents := Some [[]];
     Retriever.metadatas := Some [[]];
     Retriever.distances := Some [[]] |}.

(** A chunk of the given type and score with no [updated_at] entry. *)
Definition chunk (id type : string) (s : Q) : Evidence.Evidence :=
  {| Evidence.source_id := id;
     Evidence.doc_title := "T-" ++ id;
     Evidence.doc_type := type;
     Evidence.chunk_text := "text of " ++ id;
     Evidence.score := s;
     Evidence.chunk_index := 0;
     Evidence.source_file := "kb.md";
     Evidence.metadata :=
       {| Evidence.md_doc_title := Some ("T-" ++ id);
          Evidence.md_doc_type := Some type;
          Evidence.md_chunk_index := Some 0%Z;
          Evidence.md_source_file := Some "kb.md";
          Evidence.md_updated_at := Evidence.Missing |};
     Evidence.retrieved_at := None |}.

(** The store's answer holding the given chunks, each at distance
    [1 - score]. *)
Definition hits (chunks : list Evidence.Evidence) : Retriever.QueryResult :=
  {| Retriever.ids := Some [map Evidence.source_id chunks];
     Retriever.documents := Some [map Evidence.chunk_text chunks];
     Retriever.metadatas := Some [map Evidence.metadata chunks];
     Retriever.distances := Some [map (λ c, 1 - Evidence.score c)%Q chunks] |}.

(** A model reply in the format the decision prompt asks for. *)
Definition reply (decision confidence tools retrieval : string) : string :=
  "DECISION: " ++ decision ++ nl ++
  "CONFIDENCE: " ++ confidence ++ nl ++
  "REASONING: scripted" ++ nl ++
  "TOOLS_NEEDED: " ++ tools ++ nl ++
  "RETRIEVAL_NEEDED: " ++ retrieval.

(** The compiled graph over the scripted world, and its invocation with
    the trace of nodes. *)
Definition graph : Orchestrator.StateGraph World :=
  Orchestrator._build_graph env.


End Scenario.

(** ** Inputs evaluated in the properties below *)
Module Inputs.
Import Scenario.

Definition lead_email_in : string := "lead@example.com".
Definition query_in : string := "Can we schedule a call?".

Definition state_in : AgentState :=
  Orchestrator.initial_state lead_email_in query_in "website_form" "trace-0".


(** The model itself answers ESCALATE, in the format it was asked for. *)
Definition model_escalates : World :=
  world [Ok (reply "ESCALATE" "0.9" "none" "no"); Ok "Let me check."]
        (Ok [1%Q]) (Ok no_hits) [].

(** The model provider is down. *)
Definition llm_down : World :=
  world [Raise "provider unavailable"] (Ok [1%Q]) (Ok no_hits) [].

(** A reply whose DECISION is not one of the five names and whose
    CONFIDENCE is not a number. *)
Definition odd_reply : string :=
  "DECISION: MAYBE" ++ nl ++ "CONFIDENCE: high".

(** A state the decide stage left with confidence 0.6 and retrieval
    requested, and a world whose store returns two pricing chunks that
    both pass the quality filter with composite scores 0.94 and 0.61. *)
Definition confident_state : AgentState :=
  set_retrieval_needed true (set_confidence 0.6 state_in).

Definition conflicting_prices : World :=
  world [Ok "Our plans start at two prices."] (Ok [1%Q])
        (Ok (hits [chunk "a" "pricing" 1; chunk "b" "pricing" 0.45])) [].

(** An adapter reply that may be retried. *)
Definition transient (msg : string) : Outcome ToolBase.ToolResult :=
  Ok {| ToolBase.success := false; ToolBase.data := None;
        ToolBase.error := Some msg; ToolBase.retry_allowed := true |}.

(** Four transient failures in a row, then a success that is never
    asked for. *)
Definition always_failing : World :=
  world [] (Ok [1%Q]) (Ok no_hits)
        [transient "timeout 1"; transient "timeout 2"; transient "timeout 3";
         transient "timeout 4";
         Ok {| ToolBase.success := true; ToolBase.data := None;
               ToolBase.error := None; ToolBase.retry_allowed := false |}].

Definition upsert_args : gmap string (option string) :=
  <["action" := Some "upsert"]> (<["email" := Some lead_email_in]> ∅).

(** Two chunks on which a second pass of the reranker changes both the
    scores and the order: the first pass gives a 0.88 and b 0.82, the
    second gives b 0.832 and a 0.808. *)
Definition two_chunks : list Evidence.Evidence :=
  [chunk "a" "general" 1; chunk "b" "pricing" 0.8].

(** A world whose embedding provider is down. *)
Definition embedding_down : World :=
  world [] (Raise "embedding provider down") (Ok no_hits) [].

(** A world whose embedding provider answers and whose vector store is
    down. *)
Definition store_down : World :=
  world [] (Ok [1%Q]) (Raise "vector store down") [].

End Inputs.

(** The names the decision map knows. *)
Definition decision_names : list string :=
  ["RETRIEVE"; "REASON_ONLY"; "USE_TOOL"; "CLARIFY"; "ESCALATE"].

(** Same chunk, equal score. *)
Definition ev_equiv (a b : Evidence.Evidence) : Prop :=
  Evidence.set_score a 0 = Evidence.set_score b 0 ∧
  (Evidence.score a == Evidence.score b)%Q.

(** ** Further definitions used by the additional properties *)

(** The key under which [decision_map] holds a decision. *)
Definition Decision_name (d : DecisionEngine.Decision) : string :=
  match d with
  | DecisionEngine.RETRIEVE => "RETRIEVE"
  | DecisionEngine.REASON_ONLY => "REASON_ONLY"
  | DecisionEngine.USE_TOOL => "USE_TOOL"
  | DecisionEngine.CLARIFY => "CLARIFY"
  | DecisionEngine.ESCALATE => "ESCALATE"
  end.

(** The number of occurrences of a character. *)
Fixpoint count_char (c : ascii) (s : string) : nat :=
  match s with
  | EmptyString => 0
  | String a s' => (if Ascii.eqb a c then 1 else 0) + count_char c s'
  end.

(** The threshold [filter_low_quality] compares with:
    [threshold or settings.rag_confidence_threshold]. *)
Definition effective_threshold (settings : Settings) (threshold : option Q) : Q :=
  match threshold with
  | Some t => if Qeq_bool t 0 then rag_confidence_threshold settings else t
  | None => rag_confidence_threshold settings
  end.

(** The chunks of one document type, in their order in the list. *)
Definition of_type (t : string) (l : list Evidence.Evidence)
    : list Evidence.Evidence :=
  filter (λ e, Evidence.doc_type e = t) l.

(** The chunks whose score equals [q], in their order in the list. *)
Definition with_score (q : Q) (l : list Evidence.Evidence)
    : list Evidence.Evidence :=
  filter (λ e, Qeq_bool (Evidence.score e) q = true) l.

(** [results[field][0][i]] when it exists. *)
Definition hit_field {A} (field : option (list (list A))) (i : nat) : option A :=
  match field with
  | Some (row :: _) => row !! i
  | _ => None
  end.

(** [e] is the [Evidence] of hit [i] of a store answer: identifier, text
    and metadata are those of the hit, the score is one minus its distance,
    and the title, type, index and file come from the metadata with their
    defaults. *)
Definition hit_matches (results : Retriever.QueryResult) (i : nat)
    (e : Evidence.Evidence) : Prop :=
  hit_field (Retriever.ids results) i = Some (Evidence.source_id e) ∧
  hit_field (Retriever.documents results) i = Some (Evidence.chunk_text e) ∧
  hit_field (Retriever.metadatas results) i = Some (Evidence.metadata e) ∧
  (∃ distance, hit_field (Retriever.distances results) i = Some distance ∧
               Evidence.score e = (1.0 - distance)%Q) ∧
  Evidence.doc_title e =
    default "unknown" (Evidence.md_doc_title (Evidence.metadata e)) ∧
  Evidence.doc_type e =
    default "unknown" (Evidence.md_doc_type (Evidence.metadata e)) ∧
  Evidence.chunk_index e =
    default 0%Z (Evidence.md_chunk_index (Evidence.metadata e)) ∧
  Evidence.source_file e =
    default "unknown" (Evidence.md_source_file (Evidence.metadata e)).

(** The escalation flag carries a reason. *)
Definition escalation_recorded (state : AgentState) : Prop :=
  escalated state = true → escalation_reason state ≠ None.

(** The state with the three entries the retrieval node writes blanked
    out: two states with the same image agree on every other entry. *)
Definition outside_retrieval (state : AgentState) : AgentState :=
  set_retrieved_sources [] (set_reranked_sources [] (set_confidence 0 state)).

(** The state with the entries the tools node writes blanked out. *)
Definition outside_tools (state : AgentState) : AgentState :=
  set_tool_results [] (set_tool_errors []
    (set_escalated false (set_escalation_reason None state))).

(** The action [_build_graph] registers for each node. *)
Definition node_function `{PyBuiltins} {W : Type} (env : Nodes.Singletons W)
    (n : Orchestrator.Node) : AgentState → M W AgentState :=
  match n with
  | Orchestrator.Intake => Nodes.intake_webhook
  | Orchestrator.Load_context => Nodes.load_lead_context env
  | Orchestrator.Decide => Nodes.decide_action env
  | Orchestrator.Retrieve => Nodes.retrieve_rag env
  | Orchestrator.Compose => Nodes.compose_response env
  | Orchestrator.Tools => Nodes.execute_tools env
  | Orchestrator.Escalate => Nodes.handle_escalation env
  | Orchestrator.Memory => Nodes.update_memory env
  | Orchestrator.Finalize => Nodes.finalize
  end.


(** Where the built graph goes after node [n] has returned [state]. *)
Definition next_target (n : Orchestrator.Node) (state : AgentState)
    : Orchestrator.Target :=
  match n with
  | Orchestrator.Intake => Orchestrator.To Orchestrator.Load_context
  | Orchestrator.Load_context => Orchestrator.To Orchestrator.Decide
  | Orchestrator.Decide =>
      Orchestrator.To (if retrieval_needed state then Orchestrator.Retrieve
                       else Orchestrator.Compose)
  | Orchestrator.Retrieve => Orchestrator.To Orchestrator.Compose
  | Orchestrator.Compose =>
      Orchestrator.To (if escalated state then Orchestrator.Escalate
                       else Orchestrator.Memory)
  | Orchestrator.Tools => Orchestrator.To Orchestrator.Memory
  | Orchestrator.Escalate => Orchestrator.To Orchestrator.Memory
  | Orchestrator.Memory => Orchestrator.To Orchestrator.Finalize
  | Orchestrator.Finalize => Orchestrator.END
  end.

(** ** [tools/crm.py], [tools/calendar.py], [tools/email.py]: [execute]

    The three adapters share one [execute]: look the action up in a dict
    of handlers, refuse an unknown action, and run the handler inside a
    [try] that turns any exception into a failure that may be retried.
    The handlers themselves talk to the stores and are parameters. *)
Module Adapters.

Record Adapter (W : Type) : Type := mkAdapter {
  (* the dict [actions] *)
  actions : gmap string (gmap string (option string) → M W ToolBase.ToolResult);
  (* "Unknown CRM action: ", "Unknown calendar action: ", ... *)
  unknown_prefix : string;
  (* "CRM operation failed: ", "Calendar operation failed: ", ... *)
  failed_prefix : string;
  (* the message of the TypeError of a call without [action] *)
  missing_action : string
}.
Arguments actions {W} _.
Arguments unknown_prefix {W} _.
Arguments failed_prefix {W} _.
Arguments missing_action {W} _.

Section Execute.
Context {W : Type}.
Variable self : Adapter W.

(** [execute(self, action, **kwargs)] called with keyword arguments only:
    a call without [action] is a TypeError raised before the body runs. *)
Definition execute (kwargs : gmap string (option string))
    : M W ToolBase.ToolResult :=
  match kwargs !! "action" with
  | None => raise (missing_action self)
  | Some action =>
      match match action with
            | Some a => actions self !! a
            | None => None
            end with
      | None =>
          ret {| ToolBase.success := false;
                 ToolBase.data := None;
                 ToolBase.error := Some (unknown_prefix self ++ fmt_opt action);
                 ToolBase.retry_allowed := false |}
      | Some handler =>
          try_except
            (handler (delete "action" kwargs))
            (λ e, ret {| ToolBase.success := false;
                         ToolBase.data := None;
                         ToolBase.error := Some (failed_prefix self ++ e);
                         ToolBase.retry_allowed := true |})
      end
  end.

End Execute.

(** The handlers of [CRMTool]. *)
Record CRMHandlers (W : Type) : Type := mkCRMHandlers {
  _upsert_lead : gmap string (option string) → M W ToolBase.ToolResult;
  _qualify_lead : gmap string (option string) → M W ToolBase.ToolResult;
  _update_status : gmap string (option string) → M W ToolBase.ToolResult;
  _get_lead : gmap string (option string) → M W ToolBase.ToolResult;
  _schedule_followup : gmap string (option string) → M W ToolBase.ToolResult
}.
Arguments _upsert_lead {W} _.
Arguments _qualify_lead {W} _.
Arguments _update_status {W} _.
Arguments _get_lead {W} _.
Arguments _schedule_followup {W} _.

(** The handlers of [CalendarTool]. *)
Record CalendarHandlers (W : Type) : Type := mkCalendarHandlers {
  _book_meeting : gmap string (option string) → M W ToolBase.ToolResult;
  _check_availability : gmap string (option string) → M W ToolBase.ToolResult;
  _cancel_meeting : gmap string (option string) → M W ToolBase.ToolResult
}.
Arguments _book_meeting {W} _.
Arguments _check_availability {W} _.
Arguments _cancel_meeting {W} _.

(** The handlers of [EmailTool]. *)
Record EmailHandlers (W : Type) : Type := mkEmailHandlers {
  _send_email : gmap string (option string) → M W ToolBase.ToolResult;
  _send_followup : gmap string (option string) → M W ToolBase.ToolResult
}.
Arguments _send_email {W} _.
Arguments _send_followup {W} _.

(** The dict and the two messages of each adapter. *)
Definition CRMAdapter {W} (h : CRMHandlers W) : Adapter W :=
  {| actions := <["upsert" := _upsert_lead h]> (
                <["qualify" := _qualify_lead h]> (
                <["update_status" := _update_status h]> (
                <["get_lead" := _get_lead h]> (
                <["schedule_followup" := _schedule_followup h]> ∅))));
     unknown_prefix := "Unknown CRM action: ";
     failed_prefix := "CRM operation failed: ";
     missing_action :=
       "CRMTool.execute() missing 1 required positional argument: 'action'" |}.

Definition CalendarAdapter {W} (h : CalendarHandlers W) : Adapter W :=
  {| actions := <["book_meeting" := _book_meeting h]> (
                <["check_availability" := _check_availability h]> (
                <["cancel_meeting" := _cancel_meeting h]> ∅));
     unknown_prefix := "Unknown calendar action: ";
     failed_prefix := "Calendar operation failed: ";
     missing_action :=
       "CalendarTool.execute() missing 1 required positional argument: 'action'" |}.

Definition EmailAdapter {W} (h : EmailHandlers W) : Adapter W :=
  {| actions := <["send" := _send_email h]> (
                <["send_followup" := _send_followup h]> ∅);
     unknown_prefix := "Unknown email action: ";
     failed_prefix := "Email operation failed: ";
     missing_action :=
       "EmailTool.execute() missing 1 required positional argument: 'action'" |}.

(** An adapter under its name, as the [Tool] that [execute_with_retry]
    runs. *)
Definition as_tool {W} (self : Adapter W) (tool_name : string)
    : ToolBase.Tool W :=
  {| ToolBase.name := tool_name; ToolBase.execute := execute self |}.

Definition CRMTool {W} (h : CRMHandlers W) : ToolBase.Tool W :=
  as_tool (CRMAdapter h) "crm_tool".

Definition CalendarTool {W} (h : CalendarHandlers W) : ToolBase.Tool W :=
  as_tool (CalendarAdapter h) "calendar_tool".

Definition EmailTool {W} (h : EmailHandlers W) : ToolBase.Tool W :=
  as_tool (EmailAdapter h) "email_tool".

(** The world after [k] successive calls of a handler that all raised. *)
Fixpoint after_raises {W} (handler : gmap string (option string) → M W ToolBase.ToolResult)
    (args : gmap string (option string)) (k : nat) (w : W) : option W :=
  match k with
  | O => Some w
  | S k' =>
      match handler args w with
      | (Raise _, w') => after_raises handler args k' w'
      | (Ok _, _) => None
      end
  end.

End Adapters.

(** ** [rag/embeddings.py]: [EmbeddingGenerator] *)
Module Embeddings.

(** [class EmbeddingCache]: the two file operations of a cache entry.
    An entry is the file named by the hash of its text and holds what [set]
    dumped there, a list of floats.  [cache_read] is None when the file
    does not exist, and otherwise what [open] and [json.load] give, a list
    or an exception; reading leaves the world as it is.  [cache_write] is
    [open] and [json.dump]. *)
Record EmbeddingCache (W : Type) : Type := mkEmbeddingCache {
  cache_read : string → W → option (Outcome (list Q));
  cache_write : string → list Q → M W unit
}.
Arguments cache_read {W} _ _ _.
Arguments cache_write {W} _ _ _ _.

(** [integrations/llm_provider.py]: [EmbeddingProvider.embed(texts)]. *)
Record EmbeddingProvider (W : Type) : Type := mkEmbeddingProvider {
  provider_embed : list string → M W (list (list Q))
}.
Arguments provider_embed {W} _ _ _.

(** [class EmbeddingGenerator]; [cache] is None under [use_cache=False]. *)
Record EmbeddingGenerator (W : Type) : Type := mkEmbeddingGenerator {
  provider : EmbeddingProvider W;
  cache : option (EmbeddingCache W)
}.
Arguments provider {W} _.
Arguments cache {W} _.

(** The three lists the first loop of [embed] builds. *)
Record Scan : Type := mkScan {
  embeddings : list (nat * list Q);
  texts_to_embed : list string;
  text_indices : list nat
}.

(** [list.sort(key=lambda x: x[0])], a stable sort by ascending index. *)
Fixpoint insert_by_index (x : nat * list Q) (l : list (nat * list Q))
    : list (nat * list Q) :=
  match l with
  | [] => [x]
  | y :: ys => if (fst y <? fst x)%nat
               then y :: insert_by_index x ys else x :: l
  end.

Definition sort_by_index (l : list (nat * list Q)) : list (nat * list Q) :=
  foldr insert_by_index [] l.


Section Cache.
Context {W : Type}.
Variable settings : Settings.
Variable self : EmbeddingCache W.

(** [EmbeddingCache.get]: an entry that cannot be read is reported with
    [trace_logger.warning] from the [except] block; when that call returns,
    [get] answers None, and when it raises, [get] raises. *)
Definition get (text : string) : M W (option (list Q)) :=
  λ w,
    match cache_read self text w with
    | Some (Ok embedding) => (Ok (Some embedding), w)
    | Some (Raise e) => (TraceLogger.warning settings;;; ret None)%py w
    | None => (Ok None, w)
    end.

(** [EmbeddingCache.set]: a write that fails is reported in the same
    way. *)
Definition set (text : string) (embedding : list Q) : M W unit :=
  try_except (cache_write self text embedding)
             (λ e, TraceLogger.warning settings).

(** [for text, embedding in zip(...): self.cache.set(text, embedding)]. *)
Fixpoint set_all (pairs : list (string * list Q)) : M W unit :=
  match pairs with
  | [] => ret tt
  | (text, embedding) :: pairs' => (set text embedding;;; set_all pairs')%py
  end.

End Cache.

Section Generator.
Context {W : Type}.
Variable settings : Settings.
Variable self : EmbeddingGenerator W.

(** [if self.cache: cached = self.cache.get(text)], and None without a
    cache. *)
Definition lookup_cache (text : string) : M W (option (list Q)) :=
  match cache self with
  | Some c => get settings c text
  | None => ret None
  end.

(** [for i, text in enumerate(texts)], from index [i] on: a text with a
    cached embedding that is not the empty list goes to [embeddings], every
    other text to [texts_to_embed] and [text_indices]. *)
Fixpoint scan (texts : list string) (i : nat) : M W Scan :=
  match texts with
  | [] => ret {| embeddings := []; texts_to_embed := []; text_indices := [] |}
  | text :: texts' =>
      (cached <- lookup_cache text;;
       rest <- scan texts' (S i);;
       ret match cached with
           | Some (x :: v) =>
               {| embeddings := (i, x :: v) :: embeddings rest;
                  texts_to_embed := texts_to_embed rest;
                  text_indices := text_indices rest |}
           | _ =>
               {| embeddings := embeddings rest;
                  texts_to_embed := text :: texts_to_embed rest;
                  text_indices := i :: text_indices rest |}
           end)%py
  end.

(** [if self.cache: for ...: self.cache.set(...)]. *)
Definition store_all (pairs : list (string * list Q)) : M W unit :=
  match cache self with
  | Some c => set_all settings c pairs
  | None => ret tt
  end.

(** [EmbeddingGenerator.embed].  The [except] block around the provider
    call and the cache writes logs with [error_occurred] and raises the
    exception again. *)
Definition embed (texts : list string) : M W (list (list Q)) :=
  ((* Check cache *)
   s <- scan texts 0;;
   (* Generate embeddings for uncached texts *)
   new <- match texts_to_embed s with
          | [] => ret []
          | _ =>
              (new_embeddings <- provider_embed (provider self) (texts_to_embed s);;
               (* Cache new embeddings *)
               store_all (zip (texts_to_embed s) new_embeddings);;;
               (* Add to results *)
               ret (zip (text_indices s) new_embeddings))
          end;;
   (* Sort by original index *)
   ret (map snd (sort_by_index (embeddings s ++ new)%list)))%py.

(** [self.embed([text])[0]]. *)
Definition embed_single (text : string) : M W (list Q) :=
  (vectors <- embed [text];;
   subscript "list index out of range" (vectors !! 0%nat))%py.

(** The generator as the retriever sees it. *)
Definition as_generator : Retriever.EmbeddingGenerator W :=
  {| Retriever.embed_single := embed_single |}.

(** The embedding the cache holds for a text: its entry, when there is a
    cache, the entry can be read and the list is not empty. *)
Definition cached (text : string) (w : W) : option (list Q) :=
  match cache self with
  | Some c =>
      match cache_read c text w with
      | Some (Ok (x :: v)) => Some (x :: v)
      | _ => None
      end
  | None => None
  end.




End Generator.
End Embeddings.

(** ** [rag/retriever.py]: [retrieve_by_doc_type] *)
Module RetrieverByType.

Section ByType.
Context {W : Type}.
Variable self : Retriever.RAGRetriever W.
Variable clk : Clock W.

(** The loop over the document types, on the dict [results]. *)
Fixpoint by_type_loop (query_text : string) (top_k_per_type : Z)
    (doc_types : list string) (results : gmap string (list Evidence.Evidence))
    : M W (gmap string (list Evidence.Evidence)) :=
  match doc_types with
  | [] => ret results
  | doc_type :: doc_types' =>
      (evidence <- Retriever.retrieve self clk query_text
                     (Some top_k_per_type) (Some doc_type) None;;
       let results :=
         match evidence with
         | [] => results
         | _ => <[doc_type := evidence]> results
         end in
       by_type_loop query_text top_k_per_type doc_types' results)%py
  end.

Definition retrieve_by_doc_type (query_text : string)
    (doc_types : list string) (top_k_per_type : Z)
    : M W (gmap string (list Evidence.Evidence)) :=
  by_type_loop query_text top_k_per_type doc_types ∅.

(** [retrieve_with_context]: the last three messages, joined by spaces,
    go in front of the query. *)
Definition retrieve_with_context (query_text : string)
    (conversation_history : list string) (top_k_arg : option Z)
    : M W (list Evidence.Evidence) :=
  let context := join " " (last_n 3 conversation_history) in
  let contextualized_query :=
    context ++ nl ++ nl ++ "Current query: " ++ query_text in
  Retriever.retrieve self clk contextualized_query top_k_arg None None.

End ByType.
End RetrieverByType.

(** ** Further inputs evaluated in the properties below *)
Module MoreInputs.
Import Scenario Inputs.

(** A handler over the scripted world: it answers with the next scripted
    tool reply and logs its call. *)
Definition scripted_handler (call : string)
    : gmap string (option string) → M World ToolBase.ToolResult :=
  λ _ w,
    match tool_replies w with
    | reply :: _ => (reply, log call (pop_tool w))
    | [] => (Raise "no reply scripted", log call w)
    end.

Definition scripted_crm : Adapters.CRMHandlers World :=
  {| Adapters._upsert_lead := scripted_handler "crm._upsert_lead";
     Adapters._qualify_lead := scripted_handler "crm._qualify_lead";
     Adapters._update_status := scripted_handler "crm._update_status";
     Adapters._get_lead := scripted_handler "crm._get_lead";
     Adapters._schedule_followup := scripted_handler "crm._schedule_followup" |}.

Definition scripted_calendar : Adapters.CalendarHandlers World :=
  {| Adapters._book_meeting := scripted_handler "calendar._book_meeting";
     Adapters._check_availability := scripted_handler "calendar._check_availability";
     Adapters._cancel_meeting := scripted_handler "calendar._cancel_meeting" |}.

Definition scripted_email : Adapters.EmailHandlers World :=
  {| Adapters._send_email := scripted_handler "email._send_email";
     Adapters._send_followup := scripted_handler "email._send_followup" |}.

(** The database refuses four times in a row. *)
Definition database_locked : World :=
  world [] (Ok [1%Q]) (Ok no_hits)
        [Raise "database is locked"; Raise "database is locked";
         Raise "database is locked"; Raise "database is locked"].

(** One upsert that succeeds. *)
Definition upsert_succeeds : World :=
  world [] (Ok [1%Q]) (Ok no_hits)
        [Ok {| ToolBase.success := true; ToolBase.data := None;
               ToolBase.error := None; ToolBase.retry_allowed := false |}].

Definition delete_args : gmap string (option string) :=
  <["action" := Some "delete"]> (<["email" := Some lead_email_in]> ∅).

(** The model asks for retrieval while the embedding provider is down. *)
Definition retrieval_embedding_down : World :=
  world [Ok (reply "RETRIEVE" "0.9" "none" "yes")]
        (Raise "embedding provider down") (Ok no_hits) [].

(** A state with one reranked source, and one with a low confidence. *)
Definition grounded_state : AgentState :=
  set_reranked_sources [chunk "a" "pricing" 0.9] (set_confidence 0.8 state_in).

Definition unsure_state : AgentState := set_confidence 0.2 state_in.

(** A state that was escalated for low confidence. *)
Definition escalated_state : AgentState :=
  set_escalation_reason (Some "confidence_below_threshold")
    (set_escalated true unsure_state).

(** A state that asks for a tool no adapter matches and for the CRM. *)
Definition tools_state : AgentState :=
  set_tools_to_use ["fax"; "crm_update"] state_in.

(** A lead who asks for prices, not for a meeting. *)
Definition pricing_question : AgentState :=
  Orchestrator.initial_state lead_email_in "What are your prices?"
    "website_form" "trace-0".

(** A model reply that names two tools. *)
Definition two_tools_reply : string :=
  reply "USE_TOOL" "0.9" "crm_update, email" "yes".

(** A world for the embedding generator: the cache files, each holding a
    list or being unreadable, and whether the cache directory accepts
    writes.  The provider embeds a text as its length. *)
Record Disk : Type := mkDisk {
  files : gmap string (Outcome (list Q));
  writable : bool
}.






(** A cache directory that refuses writes. *)
Definition read_only_cache : Disk :=
  {| files := ∅; writable := false |}.


(** The settings with warnings and below switched off. *)
Definition errors_only : Settings :=
  {| rag_top_k := rag_top_k default_settings;
     rag_confidence_threshold := rag_confidence_threshold default_settings;
     confidence_high_threshold := confidence_high_threshold default_settings;
     confidence_low_threshold := confidence_low_threshold default_settings;
     log_level := ERROR |}.

(** The scripted singletons under those settings. *)
Definition quiet_env : Nodes.Singletons World :=
  {| Nodes.factual_memory := Nodes.factual_memory env;
     Nodes.conversation_memory := Nodes.conversation_memory env;
     Nodes.decision_engine := Nodes.decision_engine env;
     Nodes.rag_retriever := Nodes.rag_retriever env;
     Nodes.reranker := Nodes.reranker env;
     Nodes.crm_tool := Nodes.crm_tool env;
     Nodes.calendar_tool := Nodes.calendar_tool env;
     Nodes.email_tool := Nodes.email_tool env;
     Nodes.llm_provider := Nodes.llm_provider env;
     Nodes.settings := errors_only;
     Nodes.system_clock := Nodes.system_clock env |}.

(** The model asks for retrieval with confidence 0.6 and the store answers
    with two pricing chunks whose scores are far apart. *)
Definition retrieval_conflict : World :=
  world [Ok (reply "RETRIEVE" "0.6" "none" "yes");
         Ok "Our plans start at two prices."]
        (Ok [1%Q])
        (Ok (hits [chunk "a" "pricing" 1; chunk "b" "pricing" 0.45])) [].

(** A state that asks for retrieval, and a store that answers with one
    chunk. *)
Definition one_price : World :=
  world [Ok "Our plans start at one price."] (Ok [1%Q])
        (Ok (hits [chunk "a" "pricing" 1])) [].

(** Two chunks that the scoring leaves as they are: without [updated_at]
    the recency is 0.7, so a pricing chunk scored 0.85 and a general chunk
    scored 0.7 are rescored to 0.85 and 0.7. *)
Definition settled_chunks : list Evidence.Evidence :=
  [chunk "g" "general" 0.7; chunk "p" "pricing" 0.85].

End MoreInputs.

(** * Properties *)

(** ** Arithmetic of the clamps *)

(** Case analysis on every comparison of the goal, innermost first. *)
Ltac qle_cases :=
  repeat match goal with
  | |- context [Qle_bool ?a ?b] =>
      lazymatch a with context [Qle_bool _ _] => fail | _ => idtac end;
      lazymatch b with context [Qle_bool _ _] => fail | _ => idtac end;
      let E := fresh "E" in
      destruct (Qle_bool a b) eqn:E;
      [ apply Qle_bool_iff in E
      | apply not_true_iff_false in E; rewrite Qle_bool_iff in E;
        apply Qnot_le_lt in E ];
      cbn [negb]
  end.

Ltac unfold_clamps := unfold py_max, py_min, Qltb in *; simpl negb.

Lemma Qltb_lt (a b : Q) : Qltb a b = true ↔ (a < b)%Q.
Proof.
  unfold Qltb. rewrite negb_true_iff, <- not_true_iff_false, Qle_bool_iff.
  split; [apply Qnot_le_lt | apply Qlt_not_le].
Qed.

Lemma py_min_Qmin (a b : Q) : (py_min a b == Qmin a b)%Q.
Proof.
  unfold_clamps. qle_cases; simpl.
  - rewrite Q.min_l; [reflexivity | assumption].
  - rewrite Q.min_r; [reflexivity | lra].
Qed.

Lemma py_max_Qmax (a b : Q) : (py_max a b == Qmax a b)%Q.
Proof.
  unfold_clamps. qle_cases; simpl.
  - rewrite Q.max_l; [reflexivity | assumption].
  - rewrite Q.max_r; [reflexivity | lra].
Qed.

Lemma clamp_between (lo hi q : Q) :
  (lo <= hi)%Q → (lo <= py_max lo (py_min hi q) <= hi)%Q.
Proof. intros Hb. unfold_clamps. qle_cases; lra. Qed.

Lemma clamp_bounds (q : Q) : (0 <= py_max 0 (py_min 1 q) <= 1)%Q.
Proof. apply clamp_between. lra. Qed.

Lemma clamp_mono (lo hi x y : Q) :
  (x <= y)%Q → (py_max lo (py_min hi x) <= py_max lo (py_min hi y))%Q.
Proof. intros Hxy. unfold_clamps. qle_cases; lra. Qed.

Lemma clamp_id (lo hi x : Q) :
  (lo <= x <= hi)%Q → (py_max lo (py_min hi x) == x)%Q.
Proof. intros Hx. unfold_clamps. qle_cases; lra. Qed.

(** ** The decision engine *)
Module DecisionEngineProps.
Import DecisionEngine.

Lemma decision_map_unknown (s : string) :
  s ∉ decision_names → decision_map !! s = None.
Proof.
  unfold decision_names. rewrite !not_elem_of_cons. intros (?&?&?&?&?&_).
  unfold decision_map. by rewrite !lookup_insert_ne, lookup_empty.
Qed.

Lemma decision_closed (d : Decision) :
  d ∈ [RETRIEVE; REASON_ONLY; USE_TOOL; CLARIFY; ESCALATE].
Proof. destruct d; rewrite !elem_of_cons; tauto. Qed.

(** [clamp_confidence] is the number that Python's clamp computes, also for
    the infinities and NaN. *)
Lemma clamp_float_finite (c : pyfloat) :
  clamp_float c = Finite (clamp_confidence c).
Proof.
  destruct c as [q| | |]; try reflexivity.
  unfold clamp_float, clamp_confidence, flt_max, flt_min, py_max, py_min.
  cbn [flt_ltb]. destruct (Qltb q 1) eqn:E1; cbn [flt_ltb].
  - destruct (Qltb 0 q); reflexivity.
  - reflexivity.
Qed.

Lemma clamp_confidence_bounds (c : pyfloat) : in_unit (clamp_confidence c).
Proof.
  destruct c as [q| | |]; cbn; unfold in_unit; try lra. apply clamp_bounds.
Qed.

Section Parse.
Context `{PyBuiltins}.

Lemma parse_confidence_bounds (response : string) :
  in_unit (confidence (_parse_decision response)).
Proof.
  unfold _parse_decision; cbn [confidence].
  destruct (py_float _) as [c|].
  - apply clamp_confidence_bounds.
  - unfold in_unit; lra.
Qed.

Lemma decide_returns {W A} (llm : LLMProvider W) query hist lc
    (srcs : list A) (w : W) :
  ∃ d w', decide llm query hist lc srcs w = (Ok d, w') ∧
          (d = decide_fallback (match fst (generate llm
                 (_build_decision_prompt query hist lc srcs)
                 decision_system_prompt 0.3%Q 500%Z w) with
               | Raise e => e | Ok _ => "" end) ∨
           ∃ response, d = _parse_decision response).
Proof.
  unfold decide, try_except, bind.
  destruct (generate llm _ _ _ _ w) as [[response|e] w'] eqn:E; cbn.
  - eexists _, _. split; [reflexivity|]. right. by eexists.
  - eexists _, _. split; [reflexivity|]. by left.
Qed.

(** C7. For every response of the model, the parser yields one of the five
    decisions, mapping a missing or an unrecognised DECISION entry to
    ESCALATE, and a confidence in the unit interval, which is 0.5 when the
    CONFIDENCE entry cannot be read as a float; hence [decide], which never
    raises, always returns a decision of the closed set and a confidence in
    the unit interval. *)
Theorem parse_decision_closed_and_clamped (response : string) :
  let d := _parse_decision response in
  decision d ∈ [RETRIEVE; REASON_ONLY; USE_TOOL; CLARIFY; ESCALATE] ∧
  (parsed_value response "DECISION" = None → decision d = ESCALATE) ∧
  (∀ s, parsed_value response "DECISION" = Some s →
        s ∉ decision_names → decision d = ESCALATE) ∧
  (∀ s, parsed_value response "DECISION" = Some s →
        decision d = default ESCALATE (decision_map !! s)) ∧
  in_unit (confidence d) ∧
  (∀ s, parsed_value response "CONFIDENCE" = Some s →
        py_float s = None → confidence d = 0.5%Q) ∧
  (parsed_value response "CONFIDENCE" = None → confidence d = 0.5%Q) ∧
  (∀ W A (llm : LLMProvider W) query hist lc (srcs : list A) (w : W),
     ∃ d' w', decide llm query hist lc srcs w = (Ok d', w') ∧
       decision d' ∈ [RETRIEVE; REASON_ONLY; USE_TOOL; CLARIFY; ESCALATE] ∧
       in_unit (confidence d')).
Proof.
  cbv zeta. split_and!.
  - apply decision_closed.
  - unfold parsed_value, _parse_decision. cbn [decision]. by intros ->.
  - unfold parsed_value, _parse_decision. cbn [decision].
    intros s -> Hs. cbn. by rewrite decision_map_unknown.
  - unfold parsed_value, _parse_decision. cbn [decision]. by intros s ->.
  - apply parse_confidence_bounds.
  - unfold parsed_value, _parse_decision. cbn [confidence].
    intros s -> Hs. cbn. by rewrite Hs.
  - unfold parsed_value, _parse_decision. cbn [confidence].
    intros ->. cbn. by rewrite py_float_half.
  - intros W A llm query hist lc srcs w.
    destruct (decide_returns llm query hist lc srcs w) as (d & w' & -> & Hd).
    exists d, w'. split; [reflexivity|]. split; [apply decision_closed|].
    destruct Hd as [-> | [r ->]].
    + unfold in_unit; cbn; lra.
    + apply parse_confidence_bounds.
Qed.

(** C6. If the generation call made by [decide] raises, [decide] returns
    (it does not raise) the fail-closed output: ESCALATE, confidence 0, no
    tools, no retrieval, reason "internal_error". *)
Theorem decide_fail_closed {W A} (llm : LLMProvider W) (query : string)
    (hist : list Message) (lc : gmap string (option string))
    (srcs : list A) (w w' : W) (e : string) :
  generate llm (_build_decision_prompt query hist lc srcs)
           decision_system_prompt 0.3%Q 500%Z w = (Raise e, w') →
  ∃ d, decide llm query hist lc srcs w = (Ok d, w') ∧
       decision d = ESCALATE ∧
       (confidence d == 0)%Q ∧
       required_tools d = [] ∧
       retrieval_needed d = false ∧
       escalation_reason d = Some "internal_error".
Proof.
  intros Hgen. exists (decide_fallback e).
  unfold decide, try_except, bind. rewrite Hgen. cbn.
  repeat split; reflexivity.
Qed.

End Parse.

(** C8. [calculate_confidence] is the clamped weighted sum of the
    specification, halved under a conflict before clamping; for inputs in
    the unit interval it is non-decreasing in the source quality, the
    context completeness and the tool success rate, non-increasing in the
    query complexity, and with a conflict exactly half of what it is
    without. *)
Theorem calculate_confidence_formula :
  (∀ sq qc cc tsr conflict,
     (calculate_confidence sq qc cc tsr conflict ==
      spec_confidence sq qc cc tsr conflict)%Q) ∧
  (∀ sq qc cc tsr sq' qc' cc' tsr' conflict,
     in_unit sq → in_unit qc → in_unit cc → in_unit tsr →
     in_unit sq' → in_unit qc' → in_unit cc' → in_unit tsr' →
     ((sq <= sq')%Q →
      (calculate_confidence sq qc cc tsr conflict <=
       calculate_confidence sq' qc cc tsr conflict)%Q) ∧
     ((cc <= cc')%Q →
      (calculate_confidence sq qc cc tsr conflict <=
       calculate_confidence sq qc cc' tsr conflict)%Q) ∧
     ((tsr <= tsr')%Q →
      (calculate_confidence sq qc cc tsr conflict <=
       calculate_confidence sq qc cc tsr' conflict)%Q) ∧
     ((qc <= qc')%Q →
      (calculate_confidence sq qc' cc tsr conflict <=
       calculate_confidence sq qc cc tsr conflict)%Q) ∧
     (calculate_confidence sq qc cc tsr true ==
      0.5 * calculate_confidence sq qc cc tsr false)%Q).
Proof.
  split.
  - intros sq qc cc tsr conflict.
    unfold calculate_confidence, spec_confidence, clamp01, conflict_factor.
    rewrite py_max_Qmax, py_min_Qmin.
    destruct conflict.
    + apply Q.max_compat; [reflexivity|]. apply Q.min_compat; [reflexivity|]. lra.
    + apply Q.max_compat; [reflexivity|]. apply Q.min_compat; [reflexivity|]. lra.
  - intros sq qc cc tsr sq' qc' cc' tsr' conflict.
    unfold in_unit. intros Hsq Hqc Hcc Htsr Hsq' Hqc' Hcc' Htsr'.
    unfold calculate_confidence.
    repeat split.
    + intros Hle. apply clamp_mono. destruct conflict; lra.
    + intros Hle. apply clamp_mono. destruct conflict; lra.
    + intros Hle. apply clamp_mono. destruct conflict; lra.
    + intros Hle. apply clamp_mono. destruct conflict; lra.
    + rewrite !clamp_id; lra.
Qed.

End DecisionEngineProps.

(** ** The logger *)
Module TraceLoggerProps.

Section Calls.
Context {W : Type}.
Variable settings : Settings.

(** The event methods pass no [message] keyword and return. *)
Lemma event_returns (level : LogLevel) (w : W) :
  TraceLogger._log settings level false w = (Ok tt, w).
Proof. reflexivity. Qed.

(** [trace_logger.info], by the level of the logger. *)
Lemma info_outcome (w : W) :
  TraceLogger.info settings w =
  if TraceLogger.is_enabled settings INFO
  then (Raise TraceLogger.overwrite_message, w) else (Ok tt, w).
Proof.
  unfold TraceLogger.info, TraceLogger._log. cbn [andb].
  by destruct (TraceLogger.is_enabled settings INFO).
Qed.

(** [trace_logger.warning], by the level of the logger. *)
Lemma warning_outcome (w : W) :
  TraceLogger.warning settings w =
  if TraceLogger.is_enabled settings WARNING
  then (Raise TraceLogger.overwrite_message, w) else (Ok tt, w).
Proof.
  unfold TraceLogger.warning, TraceLogger._log. cbn [andb].
  by destruct (TraceLogger.is_enabled settings WARNING).
Qed.

End Calls.
End TraceLoggerProps.

(** ** The retry wrapper *)
Module ToolBaseProps.
Import ToolBase.

Section Retry.
Context {W : Type}.
Variable settings : Settings.
Variable t : Tool W.
Variable kwargs : gmap string (option string).

Lemma success_or_final (r : ToolResult) :
  success r || negb (retry_allowed r) = negb (retryable_failure r).
Proof. unfold retryable_failure. destruct (success r), (retry_allowed r); reflexivity. Qed.

(** One pass of the loop on the counting adapter, by the outcome of the
    call it makes. *)
Lemma attempt_counting (c : nat) (w : W) (n : nat) :
  attempt settings (counting t) kwargs c (w, n) =
  match execute t kwargs w with
  | (Ok r, w') =>
      (Ok (if retryable_failure r
           then if (S c <=? max_retries)%nat
                then if TraceLogger.is_enabled settings INFO
                     then Return (exception_result TraceLogger.overwrite_message)
                     else Continue
                else Return r
           else Return r), (w', S n))
  | (Raise e, w') => (Ok (Return (exception_result e)), (w', S n))
  end.
Proof.
  unfold attempt, try_except, bind, TraceLogger.tool_called,
    TraceLogger.tool_result.
  rewrite TraceLoggerProps.event_returns. cbn [counting execute].
  destruct (execute t kwargs w) as [[r|e] w']; cbn [fst snd]; [|reflexivity].
  rewrite TraceLoggerProps.event_returns, success_or_final.
  destruct (retryable_failure r); cbn [negb]; [|reflexivity].
  destruct (S c <=? max_retries)%nat; [|reflexivity].
  rewrite TraceLoggerProps.info_outcome.
  by destruct (TraceLogger.is_enabled settings INFO).
Qed.

Lemma attempt_plain (c : nat) (w : W) :
  attempt settings t kwargs c w =
  match execute t kwargs w with
  | (Ok r, w') =>
      (Ok (if retryable_failure r
           then if (S c <=? max_retries)%nat
                then if TraceLogger.is_enabled settings INFO
                     then Return (exception_result TraceLogger.overwrite_message)
                     else Continue
                else Return r
           else Return r), w')
  | (Raise e, w') => (Ok (Return (exception_result e)), w')
  end.
Proof.
  unfold attempt, try_except, bind, TraceLogger.tool_called,
    TraceLogger.tool_result.
  rewrite TraceLoggerProps.event_returns.
  destruct (execute t kwargs w) as [[r|e] w']; [|reflexivity].
  rewrite TraceLoggerProps.event_returns, success_or_final.
  destruct (retryable_failure r); cbn [negb]; [|reflexivity].
  destruct (S c <=? max_retries)%nat; [|reflexivity].
  rewrite TraceLoggerProps.info_outcome.
  by destruct (TraceLogger.is_enabled settings INFO).
Qed.

(** The loop on the counting adapter returns what the loop on the plain
    adapter returns, and adds between one and [iterations] calls. *)
Lemma retry_loop_counting (iterations : nat) :
  ∀ c w n, (c + iterations = S max_retries)%nat → (0 < iterations)%nat →
  ∃ r w' m,
    retry_loop settings (counting t) kwargs iterations c (w, n)
      = (Ok r, (w', n + m)%nat) ∧
    (1 <= m <= iterations)%nat ∧
    retry_loop settings t kwargs iterations c w = (Ok r, w').
Proof.
  induction iterations as [|i IH]; intros c w n Hc Hpos; [lia|].
  cbn [retry_loop].
  assert ((c <=? max_retries)%nat = true) as -> by (apply Nat.leb_le; lia).
  unfold bind. rewrite attempt_counting, attempt_plain.
  destruct (execute t kwargs w) as [[r|e] w1].
  - destruct (retryable_failure r).
    + destruct (S c <=? max_retries)%nat eqn:Hlim.
      * destruct (TraceLogger.is_enabled settings INFO).
        -- eexists _, w1, 1%nat.
           split; [f_equal; f_equal; lia|]. split; [lia | reflexivity].
        -- apply Nat.leb_le in Hlim.
           destruct (IH (S c) w1 (S n)) as (r' & w' & m & E1 & Hm & E2); [lia..|].
           exists r', w', (S m). rewrite E1, E2.
           split; [f_equal; f_equal; lia|]. split; [lia | reflexivity].
      * exists r, w1, 1%nat. split; [f_equal; f_equal; lia|]. split; [lia | reflexivity].
    + exists r, w1, 1%nat. split; [f_equal; f_equal; lia|]. split; [lia | reflexivity].
  - eexists _, w1, 1%nat. split; [f_equal; f_equal; lia|]. split; [lia | reflexivity].
Qed.

(** With the level "info" enabled the wrapper makes one call of the
    adapter, whatever the call does: a result that asks for a retry makes
    the announcement of the retry raise. *)
Lemma single_call (w : W) :
  TraceLogger.is_enabled settings INFO = true →
  execute_with_retry settings (counting t) kwargs (w, 0%nat) =
  match execute t kwargs w with
  | (Ok r, w') =>
      (Ok (if retryable_failure r
           then exception_result TraceLogger.overwrite_message else r),
       (w', 1%nat))
  | (Raise e, w') => (Ok (exception_result e), (w', 1%nat))
  end.
Proof.
  intros Hinfo. unfold execute_with_retry. cbn [retry_loop Nat.leb].
  unfold bind. rewrite attempt_counting, Hinfo.
  destruct (execute t kwargs w) as [[r|e] w']; [|reflexivity].
  by destruct (retryable_failure r).
Qed.

Hypothesis quiet : TraceLogger.is_enabled settings INFO = false.

(** After [k] retryable failures the loop is [k] passes further, when the
    level "info" is not enabled. *)
Lemma retry_loop_skip (k : nat) :
  ∀ iterations c w n wk,
  (c + iterations = S max_retries)%nat → (k < iterations)%nat →
  after_failures t kwargs k w = Some wk →
  retry_loop settings (counting t) kwargs iterations c (w, n) =
  retry_loop settings (counting t) kwargs (iterations - k) (c + k)
    (wk, (n + k)%nat).
Proof.
  induction k as [|k IH]; intros iterations c w n wk Hc Hk Haf.
  - cbn in Haf. injection Haf as <-. by rewrite Nat.sub_0_r, !Nat.add_0_r.
  - destruct iterations as [|i]; [lia|].
    cbn [after_failures] in Haf.
    destruct (execute t kwargs w) as [[r|e] w1] eqn:Hex; [|discriminate].
    destruct (retryable_failure r) eqn:Hr; [|discriminate].
    cbn [retry_loop].
    assert ((c <=? max_retries)%nat = true) as -> by (apply Nat.leb_le; lia).
    unfold bind. rewrite attempt_counting, Hex, Hr, quiet.
    assert ((S c <=? max_retries)%nat = true) as -> by (apply Nat.leb_le; lia).
    rewrite (IH i (S c) w1 (S n) wk); [|lia|lia|assumption].
    replace (S i - S k)%nat with (i - k)%nat by lia.
    replace (S c + k)%nat with (c + S k)%nat by lia.
    replace (S n + k)%nat with (n + S k)%nat by lia.
    reflexivity.
Qed.

(** The pass that follows [k] retryable failures, on the counting
    adapter started with its counter at zero. *)
Lemma retry_after_failures (k : nat) (w wk : W) :
  (k <= max_retries)%nat →
  after_failures t kwargs k w = Some wk →
  execute_with_retry settings (counting t) kwargs (w, 0%nat) =
  match execute t kwargs wk with
  | (Ok r, w') =>
      if retryable_failure r && (S k <=? max_retries)%nat
      then retry_loop settings (counting t) kwargs (max_retries - k) (S k)
             (w', S k)
      else (Ok r, (w', S k))
  | (Raise e, w') => (Ok (exception_result e), (w', S k))
  end.
Proof.
  intros Hk Haf. unfold execute_with_retry.
  rewrite (retry_loop_skip k _ _ w 0%nat wk); [|lia|lia|assumption].
  replace (S max_retries - k)%nat with (S (max_retries - k)) by lia.
  cbn [retry_loop Nat.add].
  assert ((k <=? max_retries)%nat = true) as -> by (apply Nat.leb_le; lia).
  unfold bind. rewrite attempt_counting, quiet.
  destruct (execute t kwargs wk) as [[r|e] w']; [|reflexivity].
  destruct (retryable_failure r); [|reflexivity].
  destruct (S k <=? max_retries)%nat; reflexivity.
Qed.

End Retry.

(** C5, on the code.  Under the default settings [execute_with_retry]
    calls the adapter's [execute] once and never again: when the call
    returns a failure that may be retried, the [trace_logger.info] that
    announces the retry raises inside the [try], and the wrapper returns
    the non-retryable failure built from that exception in place of the
    adapter's result.  On [always_failing], whose adapter would fail four
    times in a row, the wrapper returns after the first call, with four
    scripted replies left.  The second component of the world counts the
    calls. *)
Theorem execute_with_retry_never_retries :
  (∀ W (t : Tool W) (kwargs : gmap string (option string)) (w : W),
     execute_with_retry default_settings (counting t) kwargs (w, 0%nat) =
     match execute t kwargs w with
     | (Ok r, w') =>
         (Ok (if retryable_failure r
              then exception_result TraceLogger.overwrite_message else r),
          (w', 1%nat))
     | (Raise e, w') => (Ok (exception_result e), (w', 1%nat))
     end) ∧
  (∃ w1,
     execute_with_retry default_settings
       (counting (Scenario.scripted_tool "crm_tool")) Inputs.upsert_args
       (Inputs.always_failing, 0%nat)
     = (Ok {| success := false; data := None;
              error := Some ("Tool execution exception: " ++
                             TraceLogger.overwrite_message);
              retry_allowed := false |}, (w1, 1%nat)) ∧
     length (Scenario.tool_replies w1) = 4%nat).
Proof.
  split.
  - intros W t kwargs w. by apply single_call.
  - eexists. split; [rewrite single_call by reflexivity; reflexivity | reflexivity].
Qed.

End ToolBaseProps.

(** ** The reranker *)
Module RerankerProps.
Import Evidence Reranker.

Lemma Qltb_equiv (a a' b b' : Q) :
  (a == a')%Q → (b == b')%Q → Qltb a b = Qltb a' b'.
Proof. intros Ha Hb. unfold Qltb. by rewrite Ha, Hb. Qed.

Lemma insert_desc_perm (e : Evidence) (l : list Evidence) :
  insert_desc e l ≡ₚ e :: l.
Proof.
  induction l as [|x xs IH]; cbn; [reflexivity|].
  destruct (Qltb (score e) (score x)); [|reflexivity].
  rewrite IH. apply Permutation_swap.
Qed.

Lemma sort_desc_perm (l : list Evidence) : sort_desc l ≡ₚ l.
Proof.
  induction l as [|x xs IH]; cbn; [reflexivity|].
  rewrite insert_desc_perm. by rewrite IH.
Qed.

Lemma is_sorted_desc_cons (x y : Evidence) (l : list Evidence) :
  is_sorted_desc (x :: y :: l) =
  Qle_bool (score y) (score x) && is_sorted_desc (y :: l).
Proof. reflexivity. Qed.

Lemma is_sorted_desc_tail (x : Evidence) (l : list Evidence) :
  is_sorted_desc (x :: l) = true → is_sorted_desc l = true.
Proof.
  destruct l as [|y l]; [reflexivity|]. rewrite is_sorted_desc_cons.
  by intros [_ ?]%andb_true_iff.
Qed.

Lemma insert_desc_sorted (e : Evidence) (l : list Evidence) :
  is_sorted_desc l = true → is_sorted_desc (insert_desc e l) = true.
Proof.
  induction l as [|x xs IH]; intros Hl; [reflexivity|].
  cbn [insert_desc]. destruct (Qltb (score e) (score x)) eqn:E.
  - apply Qltb_lt in E.
    specialize (IH (is_sorted_desc_tail _ _ Hl)).
    destruct xs as [|y ys].
    + cbn [insert_desc]. rewrite is_sorted_desc_cons, andb_true_r.
      apply Qle_bool_iff. lra.
    + rewrite is_sorted_desc_cons in Hl. apply andb_true_iff in Hl as [Hxy _].
      cbn [insert_desc] in *. destruct (Qltb (score e) (score y)) eqn:E'.
      * rewrite is_sorted_desc_cons, Hxy. exact IH.
      * rewrite is_sorted_desc_cons, IH, andb_true_r.
        apply Qle_bool_iff. lra.
  - rewrite is_sorted_desc_cons, Hl, andb_true_r.
    apply Qle_bool_iff. apply not_true_iff_false in E. rewrite Qltb_lt in E. lra.
Qed.

Lemma sort_desc_sorted (l : list Evidence) : is_sorted_desc (sort_desc l) = true.
Proof.
  induction l as [|x xs IH]; [reflexivity|]. cbn. by apply insert_desc_sorted.
Qed.

(** Sorting a list that is already in order leaves it as it is: the sort is
    stable. *)
Lemma sort_desc_sorted_id (l : list Evidence) :
  is_sorted_desc l = true → sort_desc l = l.
Proof.
  induction l as [|x xs IH]; intros Hl; [reflexivity|].
  cbn [sort_desc foldr]. fold (sort_desc xs).
  destruct xs as [|y ys]; [reflexivity|].
  rewrite is_sorted_desc_cons in Hl. apply andb_true_iff in Hl as [Hyx Hys].
  rewrite (IH Hys). cbn [insert_desc].
  assert (Qltb (score x) (score y) = false) as ->; [|reflexivity].
  apply not_true_iff_false. rewrite Qltb_lt. apply Qle_bool_iff in Hyx. lra.
Qed.

Lemma insert_desc_equiv (a b : Evidence) (l l' : list Evidence) :
  ev_equiv a b → Forall2 ev_equiv l l' →
  Forall2 ev_equiv (insert_desc a l) (insert_desc b l').
Proof.
  intros Hab Hl. induction Hl as [|x y xs ys Hxy Hl IH]; cbn.
  - by constructor.
  - rewrite (Qltb_equiv (score a) (score b) (score x) (score y));
      [|apply Hab|apply Hxy].
    destruct (Qltb (score b) (score y)).
    + constructor; [exact Hxy | exact IH].
    + constructor; [exact Hab | by constructor].
Qed.

Lemma sort_desc_equiv (l l' : list Evidence) :
  Forall2 ev_equiv l l' → Forall2 ev_equiv (sort_desc l) (sort_desc l').
Proof.
  induction 1; cbn; [constructor|]. by apply insert_desc_equiv.
Qed.

Lemma equiv_same_order (l l' : list Evidence) :
  Forall2 ev_equiv l l' → same_order_and_scores l l' = true.
Proof.
  induction 1 as [|x y xs ys [Hid Hs] _ IH]; [reflexivity|].
  cbn. rewrite IH, andb_true_r. apply andb_true_iff. split.
  - apply bool_decide_eq_true. by apply (f_equal source_id) in Hid.
  - by apply Qeq_bool_iff.
Qed.

Lemma insert_desc_with_score (q : Q) (e : Evidence) (l : list Evidence) :
  with_score q (insert_desc e l) = with_score q (e :: l).
Proof.
  unfold with_score. induction l as [|x l IH]; [reflexivity|].
  cbn [insert_desc]. destruct (Qltb (score e) (score x)) eqn:E; [|reflexivity].
  apply Qltb_lt in E.
  rewrite (filter_cons _ x), IH, !(filter_cons _ e), (filter_cons _ x).
  destruct (decide (Qeq_bool (score x) q = true)) as [Hx|Hx];
    destruct (decide (Qeq_bool (score e) q = true)) as [He|He]; try reflexivity.
  apply Qeq_bool_iff in Hx, He. lra.
Qed.

(** The sort is stable: the chunks of one score keep their order. *)
Lemma sort_desc_with_score (q : Q) (l : list Evidence) :
  with_score q (sort_desc l) = with_score q l.
Proof.
  induction l as [|x l IH]; [reflexivity|].
  cbn [sort_desc foldr]. fold (sort_desc l).
  rewrite insert_desc_with_score. unfold with_score in *.
  by rewrite !(filter_cons _ x), IH.
Qed.

Section Rerank.
Context `{PyBuiltins}.
Variable self : EvidenceReranker.
Variable now : Z.

Lemma rerank_unfold (l : list Evidence) :
  rerank self now l = sort_desc (map (rescore self now) l).
Proof. by destruct l. Qed.

Lemma rescore_fixed (l : list Evidence) :
  Forall (at_fixed_point self now) l →
  Forall2 ev_equiv (map (rescore self now) l) l.
Proof.
  induction 1 as [|e l He _ IH]; cbn; constructor; [|exact IH].
  split; [by destruct e | exact He].
Qed.

(** C3, as amended. [rerank] overwrites each score with the composite
    computed from the score it finds, so applying it to its own output
    scores every chunk again from its first-pass score, as cosine weight
    times that score plus recency weight times recency plus quality weight
    times quality (0.6, 0.2 and 0.2 by default).  The second output is the
    stable descending arrangement of the first output rescored: it holds
    those rescored chunks and no others, its scores never increase, and
    the chunks that share a score stand in the order they had in the first
    output.  It lists the same chunks in the same order with equal scores
    whenever every chunk of the first output is at the fixed point of the
    scoring, score = composite score. *)
Theorem rerank_twice (l : list Evidence) :
  let first := rerank self now l in
  let second := rerank self now first in
  (∀ e, score (rescore self now e) =
        (cosine_weight self * score e +
         recency_weight self * _calculate_recency_score now e +
         quality_weight self * _calculate_quality_score e)%Q) ∧
  second ≡ₚ map (rescore self now) first ∧
  is_sorted_desc second = true ∧
  (∀ q, with_score q second = with_score q (map (rescore self now) first)) ∧
  (Forall (at_fixed_point self now) first →
   same_order_and_scores second first = true).
Proof.
  cbv zeta. split_and!.
  - by intros [].
  - rewrite (rerank_unfold (rerank self now l)). apply sort_desc_perm.
  - rewrite rerank_unfold. apply sort_desc_sorted.
  - intros q. rewrite (rerank_unfold (rerank self now l)).
    apply sort_desc_with_score.
  - intros Hfix. apply equiv_same_order.
    rewrite (rerank_unfold (rerank self now l)).
    rewrite <- (sort_desc_sorted_id (rerank self now l)) at 2.
    + apply sort_desc_equiv, rescore_fixed, Hfix.
    + rewrite rerank_unfold. apply sort_desc_sorted.
Qed.

End Rerank.

(** C3, counterexample. *)
Lemma rerank_not_idempotent :
  let first := rerank default_reranker 0 Inputs.two_chunks in
  let second := rerank default_reranker 0 first in
  same_order_and_scores second first = false ∧
  map source_id first = ["a"; "b"] ∧
  map source_id second = ["b"; "a"] ∧
  map (λ e, Qred (score e)) first = map Qred [0.88%Q; 0.82%Q] ∧
  map (λ e, Qred (score e)) second = map Qred [0.832%Q; 0.808%Q].
Proof. vm_compute. repeat split. Qed.

(** Two chunks at the fixed point, given in ascending order: the first
    pass puts the pricing chunk in front and leaves both scores as they
    are, and the second pass returns the same list. *)
Lemma rerank_twice_witness :
  map source_id (rerank default_reranker 0 MoreInputs.settled_chunks)
    = ["p"; "g"] ∧
  same_order_and_scores
    (rerank default_reranker 0
       (rerank default_reranker 0 MoreInputs.settled_chunks))
    (rerank default_reranker 0 MoreInputs.settled_chunks) = true.
Proof.
  split; [reflexivity|].
  apply (rerank_twice default_reranker 0 MoreInputs.settled_chunks).
  repeat constructor.
Defined.

End RerankerProps.

(** ** The retriever *)
Module RetrieverProps.
Import Evidence Retriever.

Section Retrieve.
Context {W : Type}.
Variable self : RAGRetriever W.
Variable clk : Clock W.

(** X29. The embedding call runs before the guarded block: when it
    raises, [retrieve] raises the same exception.  Once the embedding has
    been computed [retrieve] always returns a list: the empty list when
    the vector-store query raises or when the conversion of its answer
    raises, and the converted hits otherwise. *)
Theorem retrieve_absorbs_store_failures (query_text : string)
    (top_k_arg : option Z) (doc_type_filter : option string)
    (metadata_filter : option (gmap string string)) (w : W) :
  (∀ e w1,
     embed_single (embedding_generator self) query_text w = (Raise e, w1) →
     retrieve self clk query_text top_k_arg doc_type_filter metadata_filter w
       = (Raise e, w1)) ∧
  (∀ embedding w1,
     embed_single (embedding_generator self) query_text w = (Ok embedding, w1) →
     (∃ evidence_list w2,
        retrieve self clk query_text top_k_arg doc_type_filter metadata_filter w
          = (Ok evidence_list, w2)) ∧
     (∀ e w2,
        query (vector_store self) [embedding] (effective_k self top_k_arg)
              (where_argument doc_type_filter metadata_filter) w1 = (Raise e, w2) →
        retrieve self clk query_text top_k_arg doc_type_filter metadata_filter w
          = (Ok [], w2)) ∧
     (∀ results w2 e w3,
        query (vector_store self) [embedding] (effective_k self top_k_arg)
              (where_argument doc_type_filter metadata_filter) w1 = (Ok results, w2) →
        convert_hits clk results w2 = (Raise e, w3) →
        retrieve self clk query_text top_k_arg doc_type_filter metadata_filter w
          = (Ok [], w3)) ∧
     (∀ results w2 evidence_list w3,
        query (vector_store self) [embedding] (effective_k self top_k_arg)
              (where_argument doc_type_filter metadata_filter) w1 = (Ok results, w2) →
        convert_hits clk results w2 = (Ok evidence_list, w3) →
        retrieve self clk query_text top_k_arg doc_type_filter metadata_filter w
          = (Ok evidence_list, w3))).
Proof.
  split.
  - intros e w1 Hemb. unfold retrieve, bind. by rewrite Hemb.
  - intros embedding w1 Hemb. unfold retrieve. cbv zeta. split_and!.
    + unfold bind at 1. rewrite Hemb. unfold try_except.
      destruct (bind _ _ w1) as [[l|e] w2]; eexists _, _; reflexivity.
    + intros e w2 Hq. unfold try_except, bind. by rewrite Hemb, Hq.
    + intros results w2 e w3 Hq Hconv. unfold try_except, bind.
      by rewrite Hemb, Hq, Hconv.
    + intros results w2 l w3 Hq Hconv. unfold try_except, bind.
      by rewrite Hemb, Hq, Hconv.
Qed.

End Retrieve.

(** C9, on the code.  The embedding call stands before the [try] of
    [retrieve]: on [embedding_down] its failure leaves [retrieve] as an
    exception, where on [store_down] the failure of the store query, which
    stands inside the [try], gives the empty list. *)
Lemma retrieve_propagates_embedding_failure :
  fst (retrieve Scenario.scripted_retriever {| clock := Scenario.time |}
         "What are your prices?" None None None Inputs.embedding_down)
  = Raise "embedding provider down" ∧
  fst (retrieve Scenario.scripted_retriever {| clock := Scenario.time |}
         "What are your prices?" None None None Inputs.store_down)
  = Ok [].
Proof. split; reflexivity. Qed.

Lemma retrieve_absorbs_store_failures_witness :
  retrieve Scenario.scripted_retriever {| clock := Scenario.time |}
    "What are your prices?" None None None Inputs.embedding_down
  = (Raise "embedding provider down", Scenario.log "embed" Inputs.embedding_down) ∧
  retrieve Scenario.scripted_retriever {| clock := Scenario.time |}
    "What are your prices?" None None None Inputs.store_down
  = (Ok [], Scenario.log "store.query" (Scenario.log "embed" Inputs.store_down)).
Proof.
  split.
  - by apply (retrieve_absorbs_store_failures Scenario.scripted_retriever).
  - destruct (proj2 (retrieve_absorbs_store_failures Scenario.scripted_retriever
                       {| clock := Scenario.time |} "What are your prices?"
                       None None None Inputs.store_down)
                [1%Q] (Scenario.log "embed" Inputs.store_down) eq_refl)
      as (_ & Hstore & _).
    by apply (Hstore "vector store down").
Defined.

End RetrieverProps.

(** ** The nodes *)
Module NodesProps.
Import Nodes.

Lemma set_confidence_get (v : Q) (st : AgentState) :
  confidence (set_confidence v st) = v.
Proof. by destruct st. Qed.

Section Nodes.
Context `{PyBuiltins} {W : Type}.
Variable env : Singletons W.

(** C4. When the generation call of the compose node raises, the node
    returns a state whose response is the fixed apology, which is
    escalated with reason "response_generation_error", and whose error
    list is the old one followed by the error string. *)
Theorem compose_failure_guarantee (state : AgentState) (w w' : W) (e : string) :
  generate (llm_provider env) (compose_prompt state) system_prompt
           0.7%Q 500%Z w = (Raise e, w') →
  ∃ state',
    compose_response env state w = (Ok state', w') ∧
    response_text state' =
      "I apologize, but I'm having trouble formulating a response. A team member will reach out to you shortly." ∧
    escalated state' = true ∧
    escalation_reason state' = Some "response_generation_error" ∧
    errors state' =
      (errors state ++ [("Response composition failed: " ++ e)%string])%list.
Proof.
  intros Hgen. exists (compose_failure e state).
  unfold compose_response, caught, bind. rewrite Hgen.
  by destruct state.
Qed.

(** What the decide node stores when the model's reply parses to
    ESCALATE: the escalation flag, and the parser's missing reason. *)
Lemma decide_action_parsed_escalate (state : AgentState) (w w' : W)
    (response : string) :
  generate (decision_engine env)
    (DecisionEngine._build_decision_prompt (query state)
       (conversation_history state) (lead_context state)
       (retrieved_sources state))
    DecisionEngine.decision_system_prompt 0.3%Q 500%Z w = (Ok response, w') →
  DecisionEngine.decision (DecisionEngine._parse_decision response)
    = DecisionEngine.ESCALATE →
  ∃ state',
    decide_action env state w = (Ok state', w') ∧
    escalated state' = true ∧
    escalation_reason state' = None.
Proof.
  intros Hgen Hesc. unfold decide_action, DecisionEngine.decide, try_except.
  unfold bind. rewrite Hgen. cbn [ret]. rewrite Hesc.
  eexists. split; [reflexivity|]. by destruct state.
Qed.

(** The states the retrieval node can leave when retrieval is requested:
    the sources stored, and the confidence lowered under a conflict. *)
Lemma retrieve_rag_unfold (state : AgentState) (w : W) :
  retrieval_needed state = true →
  retrieve_rag env state w =
  match Retriever.retrieve (rag_retriever env) (system_clock env) (query state)
          (Some (rag_top_k (settings env))) None None w with
  | (Raise e, w1) => (Raise e, w1)
  | (Ok evidence_list, w1) =>
      let reranked :=
        Reranker.rerank (reranker env) (clock (system_clock env) w1)
          evidence_list in
      let filtered :=
        Reranker.filter_low_quality (settings env) reranked
          (Some (rag_confidence_threshold (settings env))) in
      let stored :=
        set_reranked_sources filtered (set_retrieved_sources reranked state) in
      if Reranker.detect_conflicts filtered then
        if TraceLogger.is_enabled (settings env) WARNING
        then (Raise TraceLogger.overwrite_message, w1)
        else (Ok (set_confidence (confidence stored * 0.7)%Q stored), w1)
      else (Ok stored, w1)
  end.
Proof.
  intros Hneeded. unfold retrieve_rag. rewrite Hneeded. cbn [negb].
  unfold bind at 1.
  destruct (Retriever.retrieve _ _ _ _ _ _ w) as [[l|e] w1]; [|reflexivity].
  unfold bind at 1, utcnow at 1. cbv zeta.
  destruct (Reranker.detect_conflicts _); [|reflexivity].
  unfold bind. rewrite TraceLoggerProps.warning_outcome.
  by destruct (TraceLogger.is_enabled (settings env) WARNING).
Qed.

(** The confidence after the retrieval node. *)
Lemma retrieve_rag_confidence (state state' : AgentState) (w w' : W) :
  retrieve_rag env state w = (Ok state', w') →
  if retrieval_needed state
  then confidence state' =
         (if Reranker.detect_conflicts (reranked_sources state')
          then confidence state * 0.7 else confidence state)%Q
  else state' = state.
Proof.
  destruct (retrieval_needed state) eqn:Hneeded.
  - rewrite (retrieve_rag_unfold state w Hneeded). cbv zeta.
    destruct (Retriever.retrieve _ _ _ _ _ _ w) as [[l|e] w1]; [|discriminate].
    destruct (Reranker.detect_conflicts _) eqn:E.
    + destruct (TraceLogger.is_enabled _ _); [discriminate|].
      intros [= <- <-]. destruct state; cbn in *. by rewrite E.
    + intros [= <- <-]. destruct state; cbn in *. by rewrite E.
  - unfold retrieve_rag. rewrite Hneeded. by intros [= <- <-].
Qed.

(** The compose node, by the outcome of its generation call. *)
Lemma compose_response_unfold (state : AgentState) (w : W) :
  compose_response env state w =
  match generate (llm_provider env) (compose_prompt state) system_prompt
          0.7%Q 500%Z w with
  | (Raise e, w1) => (Ok (compose_failure e state), w1)
  | (Ok response_text, w1) =>
      let composed := compose_success env response_text state in
      if snd composed && TraceLogger.is_enabled (settings env) WARNING
      then (Ok (compose_failure TraceLogger.overwrite_message (fst composed)), w1)
      else (Ok (fst composed), w1)
  end.
Proof.
  unfold compose_response, caught, bind.
  destruct (generate _ _ _ _ _ w) as [[text|e] w1]; [|reflexivity].
  cbv zeta. destruct (compose_success env text state) as [st [|]]; [|reflexivity].
  cbn [fst snd andb]. rewrite TraceLoggerProps.warning_outcome.
  by destruct (TraceLogger.is_enabled (settings env) WARNING).
Qed.

Lemma compose_success_confidence (text : string) (state : AgentState) :
  confidence (fst (compose_success env text state)) = confidence state.
Proof.
  unfold compose_success.
  destruct (DecisionEngine.should_escalate _ _ _ _) as [flag reason].
  destruct (flag && _); by destruct state.
Qed.

Lemma compose_response_confidence (state state' : AgentState) (w w' : W) :
  compose_response env state w = (Ok state', w') →
  confidence state' = confidence state.
Proof.
  rewrite compose_response_unfold.
  destruct (generate _ _ _ _ _ w) as [[r|e] w1]; cbv zeta.
  - destruct (_ && _); intros [= <- <-];
      rewrite <- (compose_success_confidence r state);
      by destruct (fst (compose_success env r state)).
  - intros [= <- <-]. by destruct state.
Qed.

End Nodes.
End NodesProps.

(** ** The pipeline *)
Module PipelineProps.
Import Nodes Orchestrator.

Section Graph.
Context `{PyBuiltins} {W : Type}.
Variable env : Singletons W.

(** The routing of the built graph, node by node. *)
Lemma successors_built (n : Node) (state : AgentState) :
  successors (_build_graph env) n state =
  match n with
  | Intake => [To Load_context]
  | Load_context => [To Decide]
  | Decide => [To (if retrieval_needed state then Retrieve else Compose)]
  | Retrieve => [To Compose]
  | Compose => [To (if escalated state then Escalate else Memory)]
  | Tools => [To Memory]
  | Escalate => [To Memory]
  | Memory => [To Finalize]
  | Finalize => [END]
  end.
Proof.
  destruct n; try reflexivity.
  - destruct state as [? ? ? ? ? ? ? ? ? needed ? ? ? ? ? ? ? ? ? ? ? ? ?].
    by destruct needed.
  - destruct state as [? ? ? ? ? ? ? ? ? ? ? ? ? ? ? ? ? ? esc ? ? ? ?].
    by destruct esc.
Qed.

Lemma successors_single (n : Node) (state : AgentState) :
  length (successors (_build_graph env) n state) = 1%nat.
Proof. rewrite successors_built. by destruct n. Qed.


End Graph.


(** C10, on the code.  On [confident_state] and [conflicting_prices] the
    filtered list holds a conflict and the retrieval node, having lowered
    the confidence, raises from its [trace_logger.warning]: the lowered
    confidence never reaches the compose stage.  A whole run on
    [retrieval_conflict], where the model asks for retrieval with
    confidence 0.6, ends in the orchestration-error state, with confidence
    0 and one generation call made.  With warnings switched off the same
    node returns the confidence 0.42, and the compose stage escalates for
    "confidence_below_threshold". *)
Theorem conflict_discount_lost :
  (∃ w1,
     retrieve_rag Scenario.env Inputs.confident_state Inputs.conflicting_prices
       = (Raise TraceLogger.overwrite_message, w1)) ∧
  (∃ final w',
     run Scenario.env (ret "generated") Inputs.lead_email_in Inputs.query_in
         "website_form" (Some "trace-0") MoreInputs.retrieval_conflict
       = (Ok final, w') ∧
     final = error_state Inputs.state_in TraceLogger.overwrite_message ∧
     (confidence final == 0)%Q ∧
     escalation_reason final = Some "orchestration_error" ∧
     Scenario.calls w' =
       ["get_lead_by_email"; "create_lead"; "get_lead_interactions";
        "llm.generate"; "embed"; "store.query"]) ∧
  (∃ discounted w1 composed w2,
     retrieve_rag MoreInputs.quiet_env Inputs.confident_state
       Inputs.conflicting_prices = (Ok discounted, w1) ∧
     Reranker.detect_conflicts (reranked_sources discounted) = true ∧
     (confidence discounted == 0.42)%Q ∧
     compose_response MoreInputs.quiet_env discounted w1 = (Ok composed, w2) ∧
     escalated composed = true ∧
     escalation_reason composed = Some "confidence_below_threshold").
Proof.
  split_and!.
  - eexists. vm_compute. reflexivity.
  - eexists _, _. split_and!; [vm_compute; reflexivity | by vm_compute..].
  - eexists _, _, _, _.
    split; [vm_compute; reflexivity|].
    split; [by vm_compute|]. split; [by vm_compute|].
    split; [vm_compute; reflexivity|].
    split; by vm_compute.
Qed.

(** C2, on the code.  On [model_escalates] the decide node returns a state
    with the escalation flag set and no reason, and the compose node, whose
    generation call succeeds, passes both on unchanged to the escalate
    node. *)
Theorem parsed_escalate_has_no_reason :
  ∃ decided w1 composed w2,
    decide_action Scenario.env Inputs.state_in Inputs.model_escalates
      = (Ok decided, w1) ∧
    decision decided = Some DecisionEngine.ESCALATE ∧
    escalated decided = true ∧
    escalation_reason decided = None ∧
    compose_response Scenario.env decided w1 = (Ok composed, w2) ∧
    escalated composed = true ∧
    escalation_reason composed = None ∧
    successors Scenario.graph Compose composed = [To Escalate].
Proof.
  eexists _, _, _, _. split_and!; [reflexivity | by vm_compute..].
Qed.

End PipelineProps.

(** ** Instances of the conditional properties *)
Module Witnesses.
Import Inputs.

Lemma parse_decision_witness :
  DecisionEngine.decision (DecisionEngine._parse_decision odd_reply)
    = DecisionEngine.ESCALATE ∧
  DecisionEngine.confidence (DecisionEngine._parse_decision odd_reply) = 0.5%Q.
Proof.
  destruct (DecisionEngineProps.parse_decision_closed_and_clamped odd_reply)
    as (_ & _ & Hd & _ & _ & Hc & _).
  split.
  - apply (Hd "MAYBE"); [reflexivity|].
    unfold decision_names. rewrite !not_elem_of_cons. split_and!; try discriminate.
    apply not_elem_of_nil.
  - apply (Hc "high"); reflexivity.
Defined.

Lemma decide_fail_closed_witness :
  ∃ d, DecisionEngine.decide Scenario.scripted_llm query_in [] ∅
         (@nil Evidence.Evidence) llm_down
       = (Ok d, Scenario.log "llm.generate" (Scenario.pop_llm llm_down)) ∧
       DecisionEngine.decision d = DecisionEngine.ESCALATE ∧
       (DecisionEngine.confidence d == 0)%Q ∧
       DecisionEngine.required_tools d = [] ∧
       DecisionEngine.retrieval_needed d = false ∧
       DecisionEngine.escalation_reason d = Some "internal_error".
Proof.
  apply (DecisionEngineProps.decide_fail_closed Scenario.scripted_llm query_in
           [] ∅ (@nil Evidence.Evidence) llm_down _ "provider unavailable").
  reflexivity.
Defined.

Lemma calculate_confidence_witness :
  (DecisionEngine.calculate_confidence 0.5 0.5 0.6 1 true <=
   DecisionEngine.calculate_confidence 0.8 0.5 0.6 1 true)%Q ∧
  (DecisionEngine.calculate_confidence 0.5 0.7 0.6 1 true <=
   DecisionEngine.calculate_confidence 0.5 0.5 0.6 1 true)%Q ∧
  (DecisionEngine.calculate_confidence 0.5 0.5 0.6 1 true ==
   0.5 * DecisionEngine.calculate_confidence 0.5 0.5 0.6 1 false)%Q.
Proof.
  assert (∀ x : Q, (0 <= x <= 1)%Q → in_unit x) as Hunit by (intros x Hx; exact Hx).
  destruct (proj2 DecisionEngineProps.calculate_confidence_formula
              0.5 0.5 0.6 1 0.8 0.7 0.6 1 true
              (Hunit 0.5 ltac:(lra)) (Hunit 0.5 ltac:(lra)) (Hunit 0.6 ltac:(lra))
              (Hunit 1 ltac:(lra)) (Hunit 0.8 ltac:(lra)) (Hunit 0.7 ltac:(lra))
              (Hunit 0.6 ltac:(lra)) (Hunit 1 ltac:(lra)))%Q
    as (Hsq & _ & _ & Hqc & Hhalf).
  split_and!; [apply Hsq; lra | apply Hqc; lra | exact Hhalf].
Defined.

Lemma compose_failure_witness :
  ∃ state',
    Nodes.compose_response Scenario.env state_in llm_down
      = (Ok state', Scenario.log "llm.generate" (Scenario.pop_llm llm_down)) ∧
    response_text state' =
      "I apologize, but I'm having trouble formulating a response. A team member will reach out to you shortly." ∧
    escalated state' = true ∧
    escalation_reason state' = Some "response_generation_error" ∧
    errors state' = ["Response composition failed: provider unavailable"].
Proof.
  apply (NodesProps.compose_failure_guarantee Scenario.env state_in llm_down _
           "provider unavailable").
  reflexivity.
Defined.

End Witnesses.

(** * Further properties of the code *)

(** ** The decision engine, continued *)
Module DecisionEngineMore.
Import DecisionEngine.

Lemma decision_map_lookup (s : string) (d : Decision) :
  decision_map !! s = Some d ↔ s = Decision_name d.
Proof.
  split.
  - unfold decision_map. rewrite !lookup_insert_Some, lookup_empty.
    intros [[<- <-]|[_ [[<- <-]|[_ [[<- <-]|[_ [[<- <-]|[_ [[<- <-]|[_ ?]]]]]]]]]];
      first [reflexivity | discriminate].
  - intros ->. by destruct d.
Qed.

Lemma split_char_length (c : ascii) (s : string) :
  length (split_char c s) = S (count_char c s).
Proof.
  induction s as [|a s IH]; [reflexivity|]. cbn [split_char count_char].
  destruct (Ascii.eqb a c); cbn [length]; [by rewrite IH|].
  destruct (split_char c s); cbn [length] in *; [discriminate | exact IH].
Qed.

Lemma append_nil (s : string) : "" ++ s = s.
Proof. reflexivity. Qed.

Lemma append_cons (a : ascii) (k s : string) :
  String a k ++ s = String a (k ++ s).
Proof. reflexivity. Qed.

Lemma split_once_first (c : ascii) (k v : string) :
  contains_char c k = false →
  split_once c (k ++ String c v) = Some (k, v).
Proof.
  induction k as [|a k IH]; rewrite ?append_nil, ?append_cons;
    cbn [split_once contains_char].
  - by rewrite Ascii.eqb_refl.
  - destruct (Ascii.eqb a c); [discriminate|]. intros Hk. by rewrite IH.
Qed.

Lemma contains_char_app (c : ascii) (k v : string) :
  contains_char c (k ++ String c v) = true.
Proof.
  induction k as [|a k IH]; rewrite ?append_nil, ?append_cons;
    cbn [contains_char].
  - by rewrite Ascii.eqb_refl.
  - by destruct (Ascii.eqb a c).
Qed.

Section Parse.
Context `{PyBuiltins}.

(** X1. The parsed decision is one of the four non-escalating decisions
    exactly when the DECISION entry is that decision's upper-case name,
    character for character; every other entry, and a missing one, gives
    ESCALATE. *)
Theorem parse_decision_exact_name (response : string) (d : Decision) :
  decision (_parse_decision response) = d ↔
  parsed_value response "DECISION" = Some (Decision_name d) ∨
  (d = ESCALATE ∧
   ∀ d', parsed_value response "DECISION" ≠ Some (Decision_name d')).
Proof.
  unfold _parse_decision, parsed_value. cbn [decision].
  destruct (parse_lines _ !! "DECISION") as [s|] eqn:E; cbn.
  - destruct (decision_map !! s) as [d0|] eqn:Em; cbn.
    + apply decision_map_lookup in Em as ->. split.
      * intros <-. by left.
      * intros [[= Hd] | [_ Hno]]; [|by destruct (Hno d0)].
        destruct d0, d; cbn in Hd; congruence.
    + split.
      * intros <-. right. split; [done|]. intros d' [= ->].
        by rewrite (proj2 (decision_map_lookup _ d')) in Em.
      * intros [[= ->] | [-> _]]; [|done].
        by rewrite (proj2 (decision_map_lookup _ d)) in Em.
  - split.
    + intros <-. right. split; [done|]. by intros d'.
    + intros [? | [-> _]]; [discriminate | reflexivity].
Qed.

(** X2. The parser returns no tools exactly when the TOOLS_NEEDED entry is
    missing or lower-cases to "none"; otherwise it returns one name per
    comma-separated field, one more than there are commas, so never an
    empty list.  Retrieval is requested exactly when the RETRIEVAL_NEEDED
    entry lower-cases to "yes". *)
Theorem parse_decision_tools_and_retrieval (response : string) :
  let d := _parse_decision response in
  let tools_str := default "none" (parsed_value response "TOOLS_NEEDED") in
  (required_tools d = [] ↔ py_lower tools_str = "none") ∧
  (py_lower tools_str ≠ "none" →
   length (required_tools d) = S (count_char "," tools_str)) ∧
  (retrieval_needed d = true ↔
   py_lower (default "no" (parsed_value response "RETRIEVAL_NEEDED")) = "yes").
Proof.
  cbv zeta. unfold _parse_decision, parsed_value.
  cbn [required_tools retrieval_needed].
  set (tools_str := default "none" _).
  split_and!.
  - case_bool_decide as Hn; [|tauto].
    split; [|done]. intros Hnil. apply (f_equal length) in Hnil.
    rewrite length_map, split_char_length in Hnil. discriminate.
  - intros Hn. rewrite bool_decide_eq_true_2 by done.
    by rewrite length_map, split_char_length.
  - apply bool_decide_eq_true.
Qed.

(** X3. In the loop that reads the reply, a line without a colon changes
    nothing, and a line [key:value] whose key holds no colon sets the entry
    for the stripped, upper-cased key to the stripped value: the value may
    itself contain colons, the last line for a key wins, and the other
    entries are kept. *)
Theorem parse_lines_last_wins (lines : list string) (line key value : string) :
  (contains_char ":" line = false →
   parse_lines (lines ++ [line]) = parse_lines lines) ∧
  (contains_char ":" key = false →
   parse_lines (lines ++ [key ++ String ":" value])
   = <[py_upper (py_strip key) := py_strip value]> (parse_lines lines)).
Proof.
  unfold parse_lines. rewrite !foldl_app. cbn [foldl]. split.
  - by intros ->.
  - intros Hk. by rewrite contains_char_app, split_once_first.
Qed.

End Parse.

(** X4. [should_escalate] answers with a reason exactly when it answers
    true.  An error wins over a sensitive topic, which wins over the
    confidence; the confidence alone escalates only when it is strictly
    below the low threshold. *)
Theorem should_escalate_priority (settings : Settings) (c : Q)
    (error_occurred sensitive_topic : bool) :
  let r := should_escalate settings c error_occurred sensitive_topic in
  (fst r = true ↔ snd r ≠ None) ∧
  (error_occurred = true → r = (true, Some "error_in_processing")) ∧
  (error_occurred = false → sensitive_topic = true →
   r = (true, Some "sensitive_topic_detected")) ∧
  (error_occurred = false → sensitive_topic = false →
   (c < confidence_low_threshold settings)%Q →
   r = (true, Some "confidence_below_threshold")) ∧
  (error_occurred = false → sensitive_topic = false →
   (confidence_low_threshold settings <= c)%Q → r = (false, None)).
Proof.
  cbv zeta. unfold should_escalate, low_threshold.
  destruct error_occurred, sensitive_topic; cbn [fst snd];
    try (split_and!; solve [done | split; [done | discriminate]]).
  destruct (Qltb c _) eqn:E; cbn [fst snd].
  - apply Qltb_lt in E. split_and!; try done; intros _ _ Hle; lra.
  - apply not_true_iff_false in E. rewrite Qltb_lt in E.
    split_and!; try done; intros _ _ Hlt; lra.
Qed.

(** X5. [calculate_confidence] lies in the unit interval whatever its
    arguments are, and for arguments in the unit interval a detected
    conflict caps it at one half. *)
Theorem calculate_confidence_range (sq qc cc tsr : Q) (conflict : bool) :
  in_unit (calculate_confidence sq qc cc tsr conflict) ∧
  (in_unit sq → in_unit qc → in_unit cc → in_unit tsr →
   (calculate_confidence sq qc cc tsr true <= 0.5)%Q).
Proof.
  split.
  - unfold calculate_confidence, in_unit.
    pose proof (clamp_between 0.0 1.0
      (if conflict
       then (0.3 * sq + 0.2 * (1.0 - qc) + 0.3 * cc + 0.2 * tsr) * 0.5
       else 0.3 * sq + 0.2 * (1.0 - qc) + 0.3 * cc + 0.2 * tsr)%Q) as Hb.
    lra.
  - unfold in_unit, calculate_confidence. intros Hsq Hqc Hcc Htsr.
    rewrite clamp_id; lra.
Qed.

End DecisionEngineMore.

(** ** The retry wrapper, continued *)
Module ToolBaseMore.
Import ToolBase.

Section Retry.
Context {W : Type}.
Variable settings : Settings.
Variable t : Tool W.
Variable kwargs : gmap string (option string).

Lemma retry_loop_provenance (iterations : nat) :
  ∀ c w r w',
  (c + iterations = S max_retries)%nat → (0 < iterations)%nat →
  retry_loop settings t kwargs iterations c w = (Ok r, w') →
  ∃ w0,
    execute t kwargs w0 = (Ok r, w') ∨
    (∃ e, execute t kwargs w0 = (Raise e, w') ∧ r = exception_result e) ∨
    (TraceLogger.is_enabled settings INFO = true ∧
     ∃ r0, execute t kwargs w0 = (Ok r0, w') ∧
           retryable_failure r0 = true ∧
           r = exception_result TraceLogger.overwrite_message).
Proof.
  induction iterations as [|i IH]; intros c w r w' Hc Hpos; [lia|].
  cbn [retry_loop].
  assert ((c <=? max_retries)%nat = true) as -> by (apply Nat.leb_le; lia).
  unfold bind. rewrite ToolBaseProps.attempt_plain.
  destruct (execute t kwargs w) as [[r1|e] w1] eqn:Hex.
  - destruct (retryable_failure r1) eqn:Hr.
    + destruct (S c <=? max_retries)%nat eqn:Hlim.
      * destruct (TraceLogger.is_enabled settings INFO) eqn:Hinfo.
        -- intros [= <- <-]. exists w. right. right.
           split; [reflexivity|]. by exists r1.
        -- apply Nat.leb_le in Hlim. apply IH; lia.
      * intros [= <- <-]. exists w. by left.
    + intros [= <- <-]. exists w. by left.
  - intros [= <- <-]. exists w. right. left. by exists e.
Qed.

(** X6. [execute_with_retry] never raises, and whatever it returns comes
    from a call of the adapter: it is the result of a call of [execute], in
    the world that call left, or the failure built from an exception that
    a call raised, or, with the level "info" enabled, the failure built
    from the [KeyError] of the retry announcement that follows a call
    which returned a failure that may be retried.  The result
    "Max retries exceeded" after the loop is never built by the wrapper. *)
Theorem execute_with_retry_provenance (w : W) :
  ∃ r w',
    execute_with_retry settings t kwargs w = (Ok r, w') ∧
    ∃ w0,
      execute t kwargs w0 = (Ok r, w') ∨
      (∃ e, execute t kwargs w0 = (Raise e, w') ∧
            r = {| success := false; data := None;
                   error := Some ("Tool execution exception: " ++ e);
                   retry_allowed := false |}) ∨
      (TraceLogger.is_enabled settings INFO = true ∧
       ∃ r0, execute t kwargs w0 = (Ok r0, w') ∧
             retryable_failure r0 = true ∧
             r = {| success := false; data := None;
                    error := Some ("Tool execution exception: " ++
                                   TraceLogger.overwrite_message);
                    retry_allowed := false |}).
Proof.
  unfold execute_with_retry.
  destruct (ToolBaseProps.retry_loop_counting settings t kwargs
              (S max_retries) 0 w 0) as (r & w' & m & _ & _ & Hrun);
    [reflexivity | lia |].
  exists r, w'. split; [exact Hrun|].
  apply (retry_loop_provenance (S max_retries) 0 w r w'); [reflexivity | lia | exact Hrun].
Qed.

(** X30. With the level "info" not enabled, [execute_with_retry] retries
    as its docstring says: it makes between one and four calls of the
    adapter's [execute]; when four attempts in a row return a failure that
    may be retried it returns the fourth result unchanged; when an attempt
    returns a success or a failure that must not be retried it returns
    that result at once; and when [execute] raises it returns at once the
    non-retryable failure built from the exception.  The second component
    of the world counts the calls. *)
Theorem execute_with_retry_quiet :
  TraceLogger.is_enabled settings INFO = false →
  (∀ w, ∃ r w' n,
     execute_with_retry settings (counting t) kwargs (w, 0%nat)
       = (Ok r, (w', n)) ∧
     (1 <= n <= 4)%nat ∧
     execute_with_retry settings t kwargs w = (Ok r, w')) ∧
  (∀ w w3 r4 w4,
     after_failures t kwargs 3 w = Some w3 →
     execute t kwargs w3 = (Ok r4, w4) →
     retryable_failure r4 = true →
     execute_with_retry settings (counting t) kwargs (w, 0%nat)
       = (Ok r4, (w4, 4%nat))) ∧
  (∀ k w wk r w',
     (k < 4)%nat →
     after_failures t kwargs k w = Some wk →
     execute t kwargs wk = (Ok r, w') →
     success r = true ∨ retry_allowed r = false →
     execute_with_retry settings (counting t) kwargs (w, 0%nat)
       = (Ok r, (w', S k))) ∧
  (∀ k w wk e w',
     (k < 4)%nat →
     after_failures t kwargs k w = Some wk →
     execute t kwargs wk = (Raise e, w') →
     execute_with_retry settings (counting t) kwargs (w, 0%nat) =
       (Ok {| success := false; data := None;
              error := Some ("Tool execution exception: " ++ e);
              retry_allowed := false |}, (w', S k))).
Proof.
  intros Hquiet. split_and!.
  - intros w. unfold execute_with_retry.
    destruct (ToolBaseProps.retry_loop_counting settings t kwargs
                (S max_retries) 0 w 0) as (r & w' & m & E1 & Hm & E2);
      [reflexivity | lia |].
    exists r, w', m. unfold max_retries in Hm.
    split; [exact E1|]. split; [lia | exact E2].
  - intros w w3 r4 w4 Haf Hex Hr.
    rewrite (ToolBaseProps.retry_after_failures settings t kwargs Hquiet 3 w w3);
      [|unfold max_retries; lia|assumption].
    rewrite Hex, Hr. reflexivity.
  - intros k w wk r w' Hk Haf Hex Hr.
    rewrite (ToolBaseProps.retry_after_failures settings t kwargs Hquiet k w wk);
      [|unfold max_retries; lia|assumption].
    rewrite Hex.
    assert (retryable_failure r = false) as ->; [|reflexivity].
    unfold retryable_failure. destruct Hr as [-> | ->]; [reflexivity|].
    by rewrite andb_false_r.
  - intros k w wk e w' Hk Haf Hex.
    rewrite (ToolBaseProps.retry_after_failures settings t kwargs Hquiet k w wk);
      [|unfold max_retries; lia|assumption].
    by rewrite Hex.
Qed.

End Retry.
End ToolBaseMore.

(** ** The reranker, continued *)
Module RerankerMore.
Import Evidence Reranker RerankerProps.

Lemma sorted_head_bound (x : Evidence) (l : list Evidence) :
  is_sorted_desc (x :: l) = true →
  Forall (λ y, (score y <= score x)%Q) l.
Proof.
  revert x. induction l as [|y l IH]; intros x Hs; [constructor|].
  rewrite is_sorted_desc_cons in Hs. apply andb_true_iff in Hs as [Hyx Hl].
  apply Qle_bool_iff in Hyx. constructor; [exact Hyx|].
  eapply Forall_impl; [apply (IH y Hl)|]. cbn. intros z Hz. lra.
Qed.

Lemma sorted_cons_bound (x : Evidence) (l : list Evidence) :
  is_sorted_desc l = true →
  Forall (λ y, (score y <= score x)%Q) l →
  is_sorted_desc (x :: l) = true.
Proof.
  intros Hl Hb. destruct l as [|y l]; [reflexivity|].
  rewrite is_sorted_desc_cons, Hl, andb_true_r.
  apply Qle_bool_iff. by apply Forall_cons in Hb as [? _].
Qed.

Lemma filter_sorted (P : Evidence → Prop) `{∀ e, Decision (P e)}
    (l : list Evidence) :
  is_sorted_desc l = true → is_sorted_desc (filter P l) = true.
Proof.
  induction l as [|x l IH]; intros Hs; [reflexivity|].
  pose proof (is_sorted_desc_tail _ _ Hs) as Hl.
  rewrite filter_cons. destruct (decide (P x)); [|by apply IH].
  apply sorted_cons_bound; [by apply IH|].
  apply sorted_head_bound in Hs.
  rewrite Forall_forall in Hs |- *. intros y Hy.
  apply Hs. by apply list_elem_of_filter in Hy as [_ ?].
Qed.

Section Rerank.
Context `{PyBuiltins}.
Variable self : EvidenceReranker.
Variable now : Z.

Lemma rerank_sorted (l : list Evidence) :
  is_sorted_desc (rerank self now l) = true.
Proof. rewrite rerank_unfold. apply sort_desc_sorted. Qed.

(** X7. [rerank] returns the rescored chunks, all of them and no others,
    with scores that never increase along the list. *)
Theorem rerank_sorted_permutation (l : list Evidence) :
  rerank self now l ≡ₚ map (rescore self now) l ∧
  length (rerank self now l) = length l ∧
  is_sorted_desc (rerank self now l) = true.
Proof.
  rewrite rerank_unfold. split_and!.
  - apply sort_desc_perm.
  - by rewrite sort_desc_perm, length_map.
  - apply sort_desc_sorted.
Qed.

(** X8. [rerank] is stable: the chunks that end with the same composite
    score stand in the result in the order they had in the input. *)
Theorem rerank_stable (q : Q) (l : list Evidence) :
  with_score q (rerank self now l) = with_score q (map (rescore self now) l).
Proof. rewrite rerank_unfold. apply sort_desc_with_score. Qed.

(** X9. The quality score lies between 0.7 and 1, and is 0.7 for every
    document type other than pricing, sop, policy and faq; the recency
    score is 0.7 when the chunk has no usable [updated_at]; and of two
    chunks with the same type and [updated_at], the one with the larger
    similarity gets the larger composite score when the cosine weight is
    not negative. *)
Theorem score_components (a b : Evidence) :
  (0.7 <= _calculate_quality_score a <= 1)%Q ∧
  (doc_type a ∉ ["pricing"; "sop"; "policy"; "faq"] →
   _calculate_quality_score a = 0.7%Q) ∧
  (md_updated_at (metadata a) = Missing ∨ md_updated_at (metadata a) = Unusable →
   _calculate_recency_score now a = 0.7%Q) ∧
  (doc_type a = doc_type b →
   md_updated_at (metadata a) = md_updated_at (metadata b) →
   (0 <= cosine_weight self)%Q → (score a <= score b)%Q →
   (composite_score self now a <= composite_score self now b)%Q).
Proof.
  split; [|split; [|split]].
  - unfold _calculate_quality_score.
    destruct (quality_map !! doc_type a) as [q|] eqn:E; cbn; [|lra].
    unfold quality_map in E. rewrite !lookup_insert_Some, lookup_empty in E.
    destruct E as [[_ <-]|[_ [[_ <-]|[_ [[_ <-]|[_ [[_ <-]|[_ [[_ <-]|[_ ?]]]]]]]]]];
      first [lra | discriminate].
  - rewrite !not_elem_of_cons. intros (?&?&?&?&_).
    unfold _calculate_quality_score, quality_map.
    rewrite lookup_insert_ne, lookup_insert_ne, lookup_insert_ne,
      lookup_insert_ne by done.
    destruct (decide ("general" = doc_type a)) as [<-|Hg]; [reflexivity|].
    by rewrite lookup_insert_ne, lookup_empty.
  - unfold _calculate_recency_score. by intros [-> | ->].
  - intros Ht Hu Hw Hs. unfold composite_score, _calculate_recency_score,
      _calculate_quality_score. rewrite Ht, Hu.
    assert (cosine_weight self * score a <= cosine_weight self * score b)%Q.
    { rewrite !(Qmult_comm (cosine_weight self)). by apply Qmult_le_compat_r. }
    lra.
Qed.

End Rerank.

Lemma filter_low_quality_elem (settings : Settings) (l : list Evidence)
    (threshold : option Q) (e : Evidence) :
  e ∈ filter_low_quality settings l threshold ↔
  e ∈ l ∧ (effective_threshold settings threshold <= score e)%Q.
Proof.
  unfold filter_low_quality, effective_threshold.
  rewrite list_elem_of_filter, Qle_bool_iff. tauto.
Qed.

Lemma filter_low_quality_sorted (settings : Settings) (l : list Evidence)
    (threshold : option Q) :
  is_sorted_desc l = true →
  is_sorted_desc (filter_low_quality settings l threshold) = true.
Proof. unfold filter_low_quality. apply filter_sorted. Qed.

(** X10. [filter_low_quality] keeps exactly the chunks whose score reaches
    the threshold, in their order, so a list in descending order stays in
    descending order; a threshold of None or 0 stands for the configured
    one. *)
Theorem filter_low_quality_spec (settings : Settings) (l : list Evidence)
    (threshold : option Q) :
  let t := effective_threshold settings threshold in
  let kept := filter_low_quality settings l threshold in
  (∀ e, e ∈ kept ↔ e ∈ l ∧ (t <= score e)%Q) ∧
  kept `sublist_of` l ∧
  (is_sorted_desc l = true → is_sorted_desc kept = true) ∧
  filter_low_quality settings l (Some 0%Q) = filter_low_quality settings l None.
Proof.
  cbv zeta. split_and!.
  - apply filter_low_quality_elem.
  - unfold filter_low_quality. apply sublist_filter.
  - apply filter_low_quality_sorted.
  - reflexivity.
Qed.

End RerankerMore.

(** ** Conflict detection *)
Module ConflictProps.
Import Evidence Reranker.

Lemma group_fold (l : list Evidence) :
  ∀ (acc : gmap string (list Evidence)) (t : string),
  foldl (λ (by_type : gmap string (list Evidence)) e,
           let by_type :=
             match by_type !! doc_type e with
             | None => <[doc_type e := []]> by_type
             | Some _ => by_type
             end in
           <[doc_type e := append_item (default [] (by_type !! doc_type e)) e]> by_type)
        acc l !! t =
  match acc !! t with
  | Some g => Some (g ++ of_type t l)%list
  | None => match of_type t l with [] => None | g => Some g end
  end.
Proof.
  unfold of_type. induction l as [|e l IH]; intros acc t.
  - cbn. destruct (acc !! t); [by rewrite app_nil_r | done].
  - cbn [foldl]. rewrite IH. cbv zeta. rewrite filter_cons.
    destruct (decide (doc_type e = t)) as [<-|Hne].
    + rewrite lookup_insert_eq. unfold append_item.
      destruct (acc !! doc_type e) as [g|] eqn:E.
      * rewrite E. cbn. by rewrite <- app_assoc.
      * rewrite lookup_insert_eq. cbn. reflexivity.
    + rewrite lookup_insert_ne by done.
      destruct (acc !! doc_type e); [done|]. by rewrite lookup_insert_ne.
Qed.

Lemma group_by_type_lookup (l : list Evidence) (t : string) :
  group_by_type l !! t = match of_type t l with [] => None | g => Some g end.
Proof. unfold group_by_type. by rewrite group_fold, lookup_empty. Qed.

Lemma py_max_cases (a b : Q) :
  (py_max a b = a ∨ py_max a b = b) ∧ (a <= py_max a b)%Q ∧ (b <= py_max a b)%Q.
Proof. unfold_clamps. qle_cases; split_and!; auto; lra. Qed.

Lemma py_min_cases (a b : Q) :
  (py_min a b = a ∨ py_min a b = b) ∧ (py_min a b <= a)%Q ∧ (py_min a b <= b)%Q.
Proof. unfold_clamps. qle_cases; split_and!; auto; lra. Qed.

Lemma list_max_spec (xs : list Q) :
  ∀ x, list_max x xs ∈ x :: xs ∧ Forall (λ y, (y <= list_max x xs)%Q) (x :: xs).
Proof.
  unfold list_max. induction xs as [|y xs IH]; intros x; cbn [foldl].
  - split; [by left|]. constructor; [lra | constructor].
  - destruct (IH (py_max x y)) as [Hin Hle].
    destruct (py_max_cases x y) as (Hc & Hx & Hy).
    split.
    + apply elem_of_cons in Hin as [-> | Hin].
      * destruct Hc as [-> | ->]; [by left | right; by left].
      * by do 2 right.
    + apply Forall_cons in Hle as [Hm Hrest].
      constructor; [lra|]. constructor; [lra | exact Hrest].
Qed.

Lemma list_min_spec (xs : list Q) :
  ∀ x, list_min x xs ∈ x :: xs ∧ Forall (λ y, (list_min x xs <= y)%Q) (x :: xs).
Proof.
  unfold list_min. induction xs as [|y xs IH]; intros x; cbn [foldl].
  - split; [by left|]. constructor; [lra | constructor].
  - destruct (IH (py_min x y)) as [Hin Hle].
    destruct (py_min_cases x y) as (Hc & Hx & Hy).
    split.
    + apply elem_of_cons in Hin as [-> | Hin].
      * destruct Hc as [-> | ->]; [by left | right; by left].
      * by do 2 right.
    + apply Forall_cons in Hle as [Hm Hrest].
      constructor; [lra|]. constructor; [lra | exact Hrest].
Qed.

Lemma spread_exceeds_iff (g : list Evidence) :
  spread_exceeds g = true ↔
  ∃ a b, a ∈ g ∧ b ∈ g ∧ (0.3 < score a - score b)%Q.
Proof.
  unfold spread_exceeds. split.
  - destruct (map score g) as [|s [|s2 rest]] eqn:E; try discriminate.
    intros Hlt. apply Qltb_lt in Hlt.
    destruct (list_max_spec (s2 :: rest) s) as [Hmax _].
    destruct (list_min_spec (s2 :: rest) s) as [Hmin _].
    rewrite <- E in Hmax, Hmin.
    apply list_elem_of_fmap in Hmax as (a & Ha & Hain).
    apply list_elem_of_fmap in Hmin as (b & Hb & Hbin).
    exists a, b. rewrite <- Ha, <- Hb. auto.
  - intros (a & b & Ha & Hb & Hd).
    destruct (map score g) as [|s [|s2 rest]] eqn:E.
    + destruct g; [by apply elem_of_nil in Ha | discriminate].
    + destruct g as [|x [|? ?]]; try discriminate.
      apply list_elem_of_singleton in Ha, Hb. subst. lra.
    + apply Qltb_lt.
      destruct (list_max_spec (s2 :: rest) s) as [_ Hmax].
      destruct (list_min_spec (s2 :: rest) s) as [_ Hmin].
      rewrite <- E in Hmax, Hmin. rewrite Forall_forall in Hmax, Hmin.
      pose proof (Hmax (score a) (list_elem_of_fmap_2 score _ _ Ha)).
      pose proof (Hmin (score b) (list_elem_of_fmap_2 score _ _ Hb)).
      lra.
Qed.

(** X11. [detect_conflicts] reports a conflict exactly when the list holds
    two pricing chunks, or two policy chunks, whose scores differ by more
    than 0.3; chunks of every other type play no part. *)
Theorem detect_conflicts_iff (l : list Evidence) :
  detect_conflicts l = true ↔
  ∃ a b, a ∈ l ∧ b ∈ l ∧ doc_type a = doc_type b ∧
         (doc_type a = "pricing" ∨ doc_type a = "policy") ∧
         (0.3 < score a - score b)%Q.
Proof.
  unfold detect_conflicts. rewrite !group_by_type_lookup.
  assert (∀ t, match match of_type t l with [] => None | g => Some g end with
               | Some group => spread_exceeds group
               | None => false
               end = spread_exceeds (of_type t l)) as Hg.
  { intros t. by destruct (of_type t l). }
  rewrite !Hg. clear Hg.
  assert (∀ t, spread_exceeds (of_type t l) = true ↔
               ∃ a b, a ∈ l ∧ b ∈ l ∧ doc_type a = t ∧ doc_type b = t ∧
                      (0.3 < score a - score b)%Q) as Ht.
  { intros t. rewrite spread_exceeds_iff. unfold of_type. split.
    - intros (a & b & [? ?]%list_elem_of_filter & [? ?]%list_elem_of_filter & ?).
      exists a, b. auto.
    - intros (a & b & ? & ? & ? & ? & ?). exists a, b.
      rewrite !list_elem_of_filter. auto. }
  destruct (spread_exceeds (of_type "pricing" l)) eqn:Ep.
  - split; [intros _|done]. apply Ht in Ep as (a & b & ? & ? & Ha & Hb & ?).
    exists a, b. split_and!; auto. congruence.
  - destruct (spread_exceeds (of_type "policy" l)) eqn:Eq.
    + split; [intros _|done]. apply Ht in Eq as (a & b & ? & ? & Ha & Hb & ?).
      exists a, b. split_and!; auto. congruence.
    + split; [discriminate|]. intros (a & b & ? & ? & Hab & [Ha|Ha] & ?).
      * apply not_true_iff_false in Ep. destruct Ep. apply Ht.
        exists a, b. split_and!; auto. congruence.
      * apply not_true_iff_false in Eq. destruct Eq. apply Ht.
        exists a, b. split_and!; auto. congruence.
Qed.

End ConflictProps.

(** ** The retriever, continued *)
Module RetrieverMore.
Import Evidence Retriever.

Section Retrieve.
Context {W : Type}.
Variable self : RAGRetriever W.
Variable clk : Clock W.

Lemma hit_ok {A} (field : option (list (list A))) (i : nat) (w w' : W) (a : A) :
  hit field i w = (Ok a, w') → hit_field field i = Some a ∧ w' = w.
Proof.
  unfold hit, hit_field, subscript.
  destruct field as [[|row rows]|]; cbn; try discriminate.
  destruct (row !! i); cbn; [|discriminate]. by intros [= -> ->].
Qed.

Lemma evidence_of_hit_ok (results : QueryResult) (i : nat) (w w' : W)
    (e : Evidence) :
  evidence_of_hit clk results i w = (Ok e, w') →
  hit_matches results i e ∧ retrieved_at e = Some (clock clk w) ∧ w' = w.
Proof.
  unfold evidence_of_hit, bind.
  destruct (hit (metadatas results) i w) as [[md|?] w1] eqn:E1; [|discriminate].
  apply hit_ok in E1 as [E1 ->].
  destruct (hit (ids results) i w) as [[id|?] w1] eqn:E2; [|discriminate].
  apply hit_ok in E2 as [E2 ->].
  destruct (hit (documents results) i w) as [[doc|?] w1] eqn:E3; [|discriminate].
  apply hit_ok in E3 as [E3 ->].
  destruct (hit (distances results) i w) as [[d|?] w1] eqn:E4; [|discriminate].
  apply hit_ok in E4 as [E4 ->].
  unfold utcnow, ret. intros [= <- <-]. cbn.
  unfold hit_matches; cbn. split_and!; try done. by exists d.
Qed.

Lemma for_each_hits (results : QueryResult) (idxs : list nat) :
  ∀ w w' l,
  for_each (evidence_of_hit clk results) idxs w = (Ok l, w') →
  Forall2 (hit_matches results) idxs l ∧
  Forall (λ e, retrieved_at e = Some (clock clk w)) l ∧ w' = w.
Proof.
  induction idxs as [|i idxs IH]; intros w w' l; cbn [for_each].
  - unfold ret. intros [= <- <-]. by repeat constructor.
  - unfold bind at 1.
    destruct (evidence_of_hit clk results i w) as [[e|?] w1] eqn:E; [|discriminate].
    apply evidence_of_hit_ok in E as (He & Hat & ->).
    unfold bind at 1.
    destruct (for_each _ idxs w) as [[l'|?] w1] eqn:E'; [|discriminate].
    apply IH in E' as (Hl & Hat' & ->).
    unfold ret. intros [= <- <-]. split_and!; by constructor.
Qed.

(** X12. When the store answers, [retrieve] returns either the empty list
    or one [Evidence] for every hit of the first row, in the store's order:
    the identifier, text and metadata of the hit, one minus its distance as
    score, and the defaults for what the metadata lacks.  A list that
    covers only some of the hits is never returned, and building the list
    leaves the world as the store left it. *)
Theorem retrieve_all_or_nothing (query_text : string) (top_k_arg : option Z)
    (doc_type_filter : option string)
    (metadata_filter : option (gmap string string))
    (w w1 w2 w' : W) (embedding : list Q) (results : QueryResult)
    (l : list Evidence) :
  embed_single (embedding_generator self) query_text w = (Ok embedding, w1) →
  query (vector_store self) [embedding] (effective_k self top_k_arg)
        (where_argument doc_type_filter metadata_filter) w1 = (Ok results, w2) →
  retrieve self clk query_text top_k_arg doc_type_filter metadata_filter w
    = (Ok l, w') →
  w' = w2 ∧
  (l = [] ∨
   ∃ row rows, ids results = Some (row :: rows) ∧
               Forall2 (hit_matches results) (seq 0 (length row)) l ∧
               map source_id l = row).
Proof.
  intros Hemb Hq. unfold retrieve. cbv zeta.
  unfold bind at 1. rewrite Hemb. unfold try_except, bind. rewrite Hq.
  unfold convert_hits.
  destruct (ids results) as [[|row rows]|] eqn:Eids;
    try (unfold ret; intros [= <- <-]; by auto).
  destruct (for_each _ _ w2) as [[l'|e] w3] eqn:E.
  - intros [= <- <-]. apply for_each_hits in E as (Hl & _ & ->).
    split; [done|]. right. exists row, rows. split_and!; [done..|].
    apply list_eq. intros i. rewrite list_lookup_fmap.
    destruct (l' !! i) as [e|] eqn:Ei; cbn.
    + destruct (Forall2_lookup_r _ _ _ _ _ Hl Ei) as (j & Hj & Hm).
      apply lookup_seq in Hj as [-> _].
      destruct Hm as (Hid & _). unfold hit_field in Hid. by rewrite Eids in Hid.
    + apply lookup_ge_None in Ei. symmetry. apply lookup_ge_None.
      apply Forall2_length in Hl. rewrite length_seq in Hl. lia.
  - unfold ret. intros [= <- <-].
    assert (w3 = w2) as ->; [|by auto].
    clear -E. revert E. generalize (seq 0 (length row)). intros idxs.
    induction idxs as [|i idxs IH]; cbn [for_each]; [discriminate|].
    unfold bind at 1.
    destruct (evidence_of_hit clk results i w2) as [[e1|e1] wa] eqn:E1.
    + apply evidence_of_hit_ok in E1 as (_ & _ & ->).
      unfold bind at 1.
      destruct (for_each _ idxs w2) as [[l1|e2] wb] eqn:E2; [discriminate|].
      intros [= <- <-]. by apply IH.
    + intros [= <- <-]. clear -E1. unfold evidence_of_hit, bind in E1.
      repeat match type of E1 with
      | context [hit ?f ?i ?w] =>
          let E := fresh "E" in
          destruct (hit f i w) as [[?|?] ?] eqn:E;
          [apply hit_ok in E as [_ ->]
          | unfold hit, subscript, raise, ret in E;
            repeat match type of E with
                   | context [match ?x with _ => _ end] => destruct x
                   end; congruence ]
      end.
      discriminate.
Qed.

End Retrieve.
End RetrieverMore.

(** ** The nodes, continued *)
Module NodesMore.
Import Evidence Nodes.

Lemma join_cons_nonempty (sep p : string) (ps : list string) :
  p ≠ "" → join sep (p :: ps) ≠ "".
Proof.
  intros Hp. cbn [join]. destruct ps; [exact Hp|].
  destruct p; [done|]. discriminate.
Qed.

Section Nodes.
Context `{PyBuiltins} {W : Type}.
Variable env : Singletons W.

Lemma compose_sources_text_empty (state : AgentState) :
  compose_sources_text state = "" ↔ reranked_sources state = [].
Proof.
  unfold compose_sources_text.
  destruct (reranked_sources state) as [|s l]; [done|].
  split; [|discriminate]. intros Hj. exfalso. revert Hj.
  cbn [take map]. apply join_cons_nonempty. discriminate.
Qed.

(** What the assignments of the [try] block leave. *)
Lemma compose_success_facts (text : string) (state : AgentState) :
  let composed := compose_success env text state in
  let warn := Qltb (confidence state) (confidence_low_threshold (settings env))
              && negb (escalated state) in
  snd composed = warn ∧
  response_text (fst composed) = text ∧
  sources_used (fst composed) = map doc_title (take 3 (reranked_sources state)) ∧
  grounded (fst composed)
    = negb (bool_decide (compose_sources_text state = "")) ∧
  errors (fst composed) = errors state ∧
  escalated (fst composed) = escalated state || warn ∧
  escalation_reason (fst composed) =
    (if warn then Some "confidence_below_threshold"
     else escalation_reason state).
Proof.
  cbv zeta. unfold compose_success, DecisionEngine.should_escalate,
    DecisionEngine.low_threshold.
  assert (∀ a b c st, confidence (set_sources_used a (set_grounded b
            (set_response_text c st))) = confidence st) as -> by (by intros ? ? ? []).
  assert (∀ st, compose_sources_text (set_response_text text st)
                = compose_sources_text st) as Hsrc by (by intros []).
  rewrite Hsrc.
  destruct (Qltb (confidence state) _);
    destruct (escalated state) eqn:Ee; destruct state; cbn in *; subst; cbn;
    by split_and!.
Qed.

(** What the [except] block leaves. *)
Lemma compose_failure_facts (e : string) (state : AgentState) :
  response_text (compose_failure e state) = apology_text ∧
  escalated (compose_failure e state) = true ∧
  escalation_reason (compose_failure e state)
    = Some "response_generation_error" ∧
  errors (compose_failure e state)
    = append_item (errors state) ("Response composition failed: " ++ e) ∧
  sources_used (compose_failure e state) = sources_used state ∧
  grounded (compose_failure e state) = grounded state.
Proof. by destruct state. Qed.

(** X13. When the generation call of the compose node succeeds, the node
    returns in the world that call left, cites the titles of the first
    three reranked sources, and marks the response grounded exactly when
    there is at least one reranked source, that is exactly when it cites a
    source.  It stores the generated text, except for a run that is not
    escalated and whose confidence is below the low threshold while the
    level "warning" is enabled: there the warning of the confidence check
    raises and the response is the apology. *)
Theorem compose_grounded (state : AgentState) (w w' : W) (text : string) :
  generate (llm_provider env) (compose_prompt state) system_prompt
           0.7%Q 500%Z w = (Ok text, w') →
  ∃ state',
    compose_response env state w = (Ok state', w') ∧
    sources_used state' = map doc_title (take 3 (reranked_sources state)) ∧
    (length (sources_used state') <= 3)%nat ∧
    (grounded state' = true ↔ reranked_sources state ≠ []) ∧
    (grounded state' = true ↔ sources_used state' ≠ []) ∧
    (escalated state = true ∨
     (confidence_low_threshold (settings env) <= confidence state)%Q ∨
     TraceLogger.is_enabled (settings env) WARNING = false →
     response_text state' = text) ∧
    (escalated state = false →
     (confidence state < confidence_low_threshold (settings env))%Q →
     TraceLogger.is_enabled (settings env) WARNING = true →
     response_text state' = apology_text).
Proof.
  intros Hgen. rewrite NodesProps.compose_response_unfold, Hgen. cbv zeta.
  pose proof (compose_success_facts text state) as Hs. cbv zeta in Hs.
  destruct Hs as (Hwarn & Htext & Hsrc & Hg & _).
  assert (negb (bool_decide (compose_sources_text state = "")) = true
          ↔ reranked_sources state ≠ []) as Hgr.
  { rewrite negb_true_iff, bool_decide_eq_false.
    by rewrite compose_sources_text_empty. }
  assert (reranked_sources state ≠ [] ↔
          map doc_title (take 3 (reranked_sources state)) ≠ []) as Hcite.
  { by destruct (reranked_sources state). }
  assert (length (map doc_title (take 3 (reranked_sources state))) <= 3)%nat
    as Hlen by (rewrite length_map, length_take; lia).
  rewrite Hwarn.
  destruct (Qltb (confidence state) _) eqn:Elow;
    destruct (escalated state) eqn:Eesc;
    destruct (TraceLogger.is_enabled (settings env) WARNING) eqn:Ewarn;
    cbn [andb negb];
    eexists; (split; [reflexivity|]);
    rewrite ?(proj1 (proj2 (proj2 (proj2 (proj2 (compose_failure_facts _ _)))))),
            ?(proj2 (proj2 (proj2 (proj2 (proj2 (compose_failure_facts _ _)))))),
            ?(proj1 (compose_failure_facts _ _)), ?Hsrc, ?Hg, ?Htext;
    (split; [reflexivity|]); (split; [exact Hlen|]);
    (split; [exact Hgr|]); (split; [by rewrite Hgr|]);
    try (apply Qltb_lt in Elow);
    try (apply not_true_iff_false in Elow; rewrite Qltb_lt in Elow).
  all: split; [intros [?|[?|?]] | intros ? ? ?]; try done; try lra.
Qed.

(** X14. The compose node never raises, and it never changes the world
    after its generation call.  When that call succeeds it re-checks the
    confidence.  A run that is already escalated keeps its flag, its
    reason and its errors, and so does, not escalated, a run whose
    confidence reaches the low threshold.  A run that is not yet escalated
    and whose confidence is strictly below the low threshold becomes
    escalated: with reason "confidence_below_threshold" when the level
    "warning" is not enabled, and otherwise, because the warning raises
    inside the [try], with reason "response_generation_error", the apology
    as response and the error string of the [KeyError] added to the
    errors. *)
Theorem compose_confidence_recheck (state : AgentState) (w : W) :
  (∃ state' w', compose_response env state w = (Ok state', w')) ∧
  (∀ text w' state' w'',
     generate (llm_provider env) (compose_prompt state) system_prompt
              0.7%Q 500%Z w = (Ok text, w') →
     compose_response env state w = (Ok state', w'') →
     w'' = w' ∧
     (escalated state = true →
      escalated state' = true ∧
      escalation_reason state' = escalation_reason state ∧
      errors state' = errors state) ∧
     (escalated state = false →
      (confidence_low_threshold (settings env) <= confidence state)%Q →
      escalated state' = false ∧
      escalation_reason state' = escalation_reason state ∧
      errors state' = errors state) ∧
     (escalated state = false →
      (confidence state < confidence_low_threshold (settings env))%Q →
      escalated state' = true ∧
      (TraceLogger.is_enabled (settings env) WARNING = false →
       escalation_reason state' = Some "confidence_below_threshold" ∧
       response_text state' = text ∧
       errors state' = errors state) ∧
      (TraceLogger.is_enabled (settings env) WARNING = true →
       escalation_reason state' = Some "response_generation_error" ∧
       response_text state' = apology_text ∧
       errors state' =
         (errors state ++
          [("Response composition failed: " ++
            TraceLogger.overwrite_message)%string])%list))).
Proof.
  split.
  - rewrite NodesProps.compose_response_unfold.
    destruct (generate _ _ _ _ _ w) as [[text|e] w']; cbv zeta;
      [destruct (_ && _)|]; eexists _, _; reflexivity.
  - intros text w' state' w'' Hgen.
    rewrite NodesProps.compose_response_unfold, Hgen. cbv zeta.
    pose proof (compose_success_facts text state) as Hs. cbv zeta in Hs.
    destruct Hs as (Hwarn & Htext & _ & _ & Herr & Hesc & Hreason).
    rewrite Hwarn in *.
    destruct (Qltb (confidence state) _) eqn:Elow;
      destruct (escalated state) eqn:Eesc;
      destruct (TraceLogger.is_enabled (settings env) WARNING) eqn:Ewarn;
      cbn [andb negb orb] in *; intros [= <- <-];
      (split; [reflexivity|]);
      try (apply Qltb_lt in Elow);
      try (apply not_true_iff_false in Elow; rewrite Qltb_lt in Elow);
      rewrite ?Hesc, ?Hreason, ?Herr, ?Htext;
      split_and!; try done; try (intros; lra); try (intros _ ?; lra).
    all: destruct (compose_failure_facts TraceLogger.overwrite_message
                     (fst (compose_success env text state)))
           as (Ha & Hb & Hc & Hd & _);
         rewrite ?Ha, ?Hb, ?Hc, ?Hd, ?Herr; by intros.
Qed.

Lemma retrieve_rag_outside (state state' : AgentState) (w w' : W) :
  retrieve_rag env state w = (Ok state', w') →
  outside_retrieval state' = outside_retrieval state.
Proof.
  destruct (retrieval_needed state) eqn:Hneeded.
  - rewrite (NodesProps.retrieve_rag_unfold env state w Hneeded). cbv zeta.
    destruct (Retriever.retrieve _ _ _ _ _ _ w) as [[l|e] w1]; [|discriminate].
    destruct (Reranker.detect_conflicts _).
    + destruct (TraceLogger.is_enabled _ _); [discriminate|].
      intros [= <- _]. by destruct state.
    + intros [= <- _]. by destruct state.
  - unfold retrieve_rag. rewrite Hneeded. unfold ret. by intros [= <- _].
Qed.

(** X15. When retrieval is not requested the retrieval node returns the
    state and the world as they are.  When it is requested and the node
    returns, the sources it stores under "retrieved_sources" are in
    descending order of score, those under "reranked_sources" are the ones
    among them whose score reaches the configured threshold, in the same
    order, no entry of the state other than these two and the confidence
    is changed, the confidence is multiplied by 0.7 when the stored list
    holds a conflict and left as it is otherwise, and either the stored
    list holds no conflict or the level "warning" is not enabled.  When
    the retriever returns a list whose filtered rescoring holds a conflict
    and the level "warning" is enabled, the node raises the [KeyError] of
    its warning, in the world the retriever left. *)
Theorem retrieve_rag_state (state : AgentState) (w : W) :
  (retrieval_needed state = false → retrieve_rag env state w = (Ok state, w)) ∧
  (retrieval_needed state = true →
   ∀ state' w', retrieve_rag env state w = (Ok state', w') →
   Reranker.is_sorted_desc (retrieved_sources state') = true ∧
   Reranker.is_sorted_desc (reranked_sources state') = true ∧
   reranked_sources state' `sublist_of` retrieved_sources state' ∧
   (∀ e, e ∈ reranked_sources state' ↔
         e ∈ retrieved_sources state' ∧
         (rag_confidence_threshold (settings env) <= score e)%Q) ∧
   outside_retrieval state' = outside_retrieval state ∧
   confidence state' =
     (if Reranker.detect_conflicts (reranked_sources state')
      then confidence state * 0.7 else confidence state)%Q ∧
   (Reranker.detect_conflicts (reranked_sources state') = true →
    TraceLogger.is_enabled (settings env) WARNING = false)) ∧
  (retrieval_needed state = true →
   ∀ evidence_list w1,
   Retriever.retrieve (rag_retriever env) (system_clock env) (query state)
     (Some (rag_top_k (settings env))) None None w = (Ok evidence_list, w1) →
   Reranker.detect_conflicts
     (Reranker.filter_low_quality (settings env)
        (Reranker.rerank (reranker env) (clock (system_clock env) w1)
           evidence_list)
        (Some (rag_confidence_threshold (settings env)))) = true →
   TraceLogger.is_enabled (settings env) WARNING = true →
   retrieve_rag env state w = (Raise TraceLogger.overwrite_message, w1)).
Proof.
  split_and!.
  - intros Hno. unfold retrieve_rag. by rewrite Hno.
  - intros Hneeded state' w' Hrun.
    pose proof (retrieve_rag_outside _ _ _ _ Hrun) as Hout.
    pose proof (NodesProps.retrieve_rag_confidence env _ _ _ _ Hrun) as Hconf.
    rewrite Hneeded in Hconf.
    rewrite (NodesProps.retrieve_rag_unfold env state w Hneeded) in Hrun.
    cbv zeta in Hrun.
    destruct (Retriever.retrieve _ _ _ _ _ _ w) as [[l|e] w1]; [|discriminate].
    set (reranked := Reranker.rerank _ _ l) in *.
    set (kept := Reranker.filter_low_quality _ reranked _) in *.
    assert (Reranker.is_sorted_desc reranked = true) as Hs.
    { apply RerankerMore.rerank_sorted. }
    pose proof (RerankerMore.filter_low_quality_elem (settings env) reranked
                  (Some (rag_confidence_threshold (settings env)))) as Hin.
    pose proof (RerankerMore.filter_low_quality_sorted (settings env) reranked
                  (Some (rag_confidence_threshold (settings env)))) as Hsort.
    assert (kept `sublist_of` reranked) as Hsub.
    { unfold kept, Reranker.filter_low_quality. apply sublist_filter. }
    fold kept in Hin, Hsort.
    assert (∀ e, (effective_threshold (settings env)
                    (Some (rag_confidence_threshold (settings env))) <= score e)%Q
                 ↔ (rag_confidence_threshold (settings env) <= score e)%Q) as Ht.
    { intros e. unfold effective_threshold. by destruct (Qeq_bool _ 0). }
    assert (retrieved_sources state' = reranked ∧
            reranked_sources state' = kept ∧
            (Reranker.detect_conflicts kept = true →
             TraceLogger.is_enabled (settings env) WARNING = false))
      as (Hretrieved & Hkept & Hquiet).
    { destruct (Reranker.detect_conflicts kept).
      - destruct (TraceLogger.is_enabled _ _); [discriminate|].
        injection Hrun as <- _. by destruct state.
      - injection Hrun as <- _. by destruct state. }
    rewrite Hretrieved, Hkept. rewrite Hkept in Hconf.
    split_and!; [exact Hs | by apply Hsort | exact Hsub | | exact Hout
                | exact Hconf | exact Hquiet].
    intros e. by rewrite Hin, Ht.
  - intros Hneeded l w1 Hret Hconflict Hwarn.
    rewrite (NodesProps.retrieve_rag_unfold env state w Hneeded), Hret.
    cbv zeta. by rewrite Hconflict, Hwarn.
Qed.

End Nodes.
End NodesMore.

(** ** The tools and escalation nodes *)
Module ToolsNodeProps.
Import Nodes.

Section Nodes.
Context `{PyBuiltins} {W : Type}.
Variable env : Singletons W.

(** One pass of the loop over the requested tools returns, and adds a
    result, an error, or both. *)
Lemma execute_one_tool_ok (state : AgentState) (tool_name : string)
    (results : list ResultDict) (errors : list string) (w : W) :
  ∃ results' errors' w',
    execute_one_tool env state tool_name (results, errors) w
      = (Ok (results', errors'), w') ∧
    ((∃ r, results' = append_item results r ∧
           (errors' = errors ∨ ∃ e, errors' = append_item errors e)) ∨
     (results' = results ∧ ∃ e, errors' = append_item errors e)).
Proof.
  unfold execute_one_tool, try_except, bind.
  match goal with
  | |- context [match ?m w with _ => _ end] =>
      destruct (m w) as [[result|e] w1]
  end.
  - unfold ret. eexists _, _, _. split; [reflexivity|]. left.
    exists result. split; [reflexivity|].
    destruct (rd_success result); cbn; [by left | right; by eexists].
  - unfold ret. eexists _, _, _. split; [reflexivity|]. right.
    split; [reflexivity | by eexists].
Qed.

Lemma execute_tool_loop_ok (state : AgentState) (names : list string) :
  ∀ results errors w,
  ∃ results' errors' w',
    execute_tool_loop env state names (results, errors) w
      = (Ok (results', errors'), w') ∧
    (length results <= length results' <= length results + length names)%nat ∧
    (length errors <= length errors' <= length errors + length names)%nat ∧
    (length results + length errors + length names
     <= length results' + length errors')%nat.
Proof.
  induction names as [|name names IH]; intros results errors w.
  - exists results, errors, w. cbn. split; [reflexivity | lia].
  - cbn [execute_tool_loop]. unfold bind.
    destruct (execute_one_tool_ok state name results errors w)
      as (r1 & e1 & w1 & -> & Hgrow).
    destruct (IH r1 e1 w1) as (r2 & e2 & w2 & -> & Hr & He & Hsum).
    exists r2, e2, w2. split; [reflexivity|]. cbn [length].
    destruct Hgrow as [(r & -> & [-> | [e ->]]) | [-> [e ->]]];
      unfold append_item in *; rewrite ?length_app in *; cbn [length] in *; lia.
Qed.

(** X16. The tools node never raises: a failure or an exception of one
    tool is recorded and the loop goes on.  Without requested tools it
    returns the state and the world as they are.  Otherwise every
    requested name adds a result, an error or both; the node escalates,
    with reason "tool_failure", exactly when some error was recorded and
    the printed error list contains "calendar", and leaves the escalation
    flag and reason alone otherwise; no other entry of the state is
    changed. *)
Theorem execute_tools_total (state : AgentState) (w : W) :
  ∃ state' w',
    execute_tools env state w = (Ok state', w') ∧
    (tools_to_use state = [] → state' = state ∧ w' = w) ∧
    (tools_to_use state ≠ [] →
     (length (tool_results state') <= length (tools_to_use state))%nat ∧
     (length (tool_errors state') <= length (tools_to_use state))%nat ∧
     (length (tools_to_use state)
      <= length (tool_results state') + length (tool_errors state'))%nat ∧
     outside_tools state' = outside_tools state ∧
     (if bool_decide (tool_errors state' ≠ []) &&
         contains "calendar" (py_str_list (tool_errors state'))
      then escalated state' = true ∧
           escalation_reason state' = Some "tool_failure"
      else escalated state' = escalated state ∧
           escalation_reason state' = escalation_reason state)).
Proof.
  unfold execute_tools.
  destruct (tools_to_use state) as [|name names] eqn:Et.
  - exists state, w. split; [reflexivity|]. split; [done | congruence].
  - unfold bind.
    destruct (execute_tool_loop_ok state (name :: names) [] [] w)
      as (results & errors & w' & -> & Hr & He & Hsum).
    eexists _, w'. split; [reflexivity|]. split; [discriminate|]. intros _.
    cbn [length] in *.
    destruct errors as [|e errors].
    + destruct state; cbn in *. split_and!; try done; lia.
    + destruct (contains "calendar" (py_str_list (e :: errors))) eqn:Ec;
        destruct state; cbn in *; rewrite Ec; split_and!; try done; lia.
Qed.

(** X17. A requested name that, lower-cased, contains none of "crm",
    "calendar" and "email" calls no adapter: it yields the failure
    "Unknown tool: <name>" and the matching error entry.  A calendar name
    calls the calendar adapter only when the lower-cased query mentions
    "call", "meeting" or "schedule"; otherwise it yields a success without
    touching the world. *)
Theorem tool_dispatch (state : AgentState) (tool_name : string)
    (results : list ResultDict) (errors : list string) (w : W) :
  (contains "crm" (py_lower tool_name) = false →
   contains "calendar" (py_lower tool_name) = false →
   contains "email" (py_lower tool_name) = false →
   execute_one_tool env state tool_name (results, errors) w =
   (Ok (append_item results
          {| rd_success := false; rd_data := None;
             rd_error := Some ("Unknown tool: " ++ tool_name);
             rd_retry_allowed := None; rd_message := None |},
        append_item errors (tool_name ++ ": Unknown tool: " ++ tool_name)), w)) ∧
  (contains "crm" (py_lower tool_name) = false →
   contains "calendar" (py_lower tool_name) = true →
   contains "call" (py_lower (query state)) = false →
   contains "meeting" (py_lower (query state)) = false →
   contains "schedule" (py_lower (query state)) = false →
   execute_one_tool env state tool_name (results, errors) w =
   (Ok (append_item results
          {| rd_success := true; rd_data := None; rd_error := None;
             rd_retry_allowed := None;
             rd_message := Some "No meeting booking needed" |},
        errors), w)).
Proof.
  split.
  - intros Hcrm Hcal Hmail. unfold execute_one_tool, try_except, bind.
    by rewrite Hcrm, Hcal, Hmail.
  - intros Hcrm Hcal H1 H2 H3.
    unfold execute_one_tool, try_except, bind, _execute_calendar_tool.
    by rewrite Hcrm, Hcal, H1, H2, H3.
Qed.

(** X18. The escalate node does nothing to a run that is not escalated.
    For an escalated run it records the event and asks the CRM adapter to
    set the lead's status, whatever the reason was.  When the adapter
    returns, whatever its result, the node ends with a log call at the
    level "info": when that level is enabled the call raises and so does
    the node, in the world the adapter left; otherwise the node returns
    the state with the response replaced by the hand-off text.  A failure
    of the event store is not caught: the node raises it, before the
    adapter is called; and an exception of the adapter is raised as it
    is. *)
Theorem handle_escalation_spec (state : AgentState) (w : W) :
  let event := {| ea_lead_id := lead_id state;
                  ea_reason := escalation_reason state;
                  ea_confidence_score := confidence state;
                  ea_query := query state;
                  ea_decision := decision state;
                  ea_errors := errors state |} in
  let status_update := <["action" := Some "update_status"]> (
                       <["lead_id" := Some (lead_id state)]> (
                       <["status" := Some "escalated"]> ∅)) in
  (escalated state = false →
   handle_escalation env state w = (Ok state, w)) ∧
  (escalated state = true →
   ∀ w1 r w2,
   create_escalation (factual_memory env) event w = (Ok tt, w1) →
   ToolBase.execute (crm_tool env) status_update w1 = (Ok r, w2) →
   handle_escalation env state w =
     if TraceLogger.is_enabled (settings env) INFO
     then (Raise TraceLogger.overwrite_message, w2)
     else (Ok (set_response_text handoff_text state), w2)) ∧
  (escalated state = true →
   ∀ e w1,
   create_escalation (factual_memory env) event w = (Raise e, w1) →
   handle_escalation env state w = (Raise e, w1)) ∧
  (escalated state = true →
   ∀ w1 e w2,
   create_escalation (factual_memory env) event w = (Ok tt, w1) →
   ToolBase.execute (crm_tool env) status_update w1 = (Raise e, w2) →
   handle_escalation env state w = (Raise e, w2)).
Proof.
  cbv zeta. unfold handle_escalation. split_and!.
  - by intros ->.
  - intros -> w1 r w2 Hev Hcrm. cbn [negb]. unfold bind.
    rewrite Hev, Hcrm, TraceLoggerProps.info_outcome.
    by destruct (TraceLogger.is_enabled (settings env) INFO).
  - intros -> e w1 Hev. cbn [negb]. unfold bind. by rewrite Hev.
  - intros -> w1 e w2 Hev Hcrm. cbn [negb]. unfold bind. by rewrite Hev, Hcrm.
Qed.

Lemma update_memory_state (state state' : AgentState) (w w' : W) :
  update_memory env state w = (Ok state', w') → state' = state.
Proof.
  unfold update_memory, bind, ret.
  repeat match goal with
  | |- context [match ?m ?x with _ => _ end] =>
      destruct (m x) as [[?|?] ?]; [|discriminate]
  end.
  by intros [= <- _].
Qed.

(** X19. Every node other than the decide node keeps the rule that an
    escalated run carries a reason: if the rule holds of the state a node
    receives, it holds of the state the node returns.  The decide node keeps
    it when its generation call raises. *)
Theorem escalation_reason_kept (state state' : AgentState) (w w' : W) :
  escalation_recorded state →
  (intake_webhook state w = (Ok state', w') → escalation_recorded state') ∧
  (load_lead_context env state w = (Ok state', w') → escalation_recorded state') ∧
  (retrieve_rag env state w = (Ok state', w') → escalation_recorded state') ∧
  (compose_response env state w = (Ok state', w') → escalation_recorded state') ∧
  (execute_tools env state w = (Ok state', w') → escalation_recorded state') ∧
  (handle_escalation env state w = (Ok state', w') → escalation_recorded state') ∧
  (update_memory env state w = (Ok state', w') → escalation_recorded state') ∧
  (finalize state w = (Ok state', w') → escalation_recorded state') ∧
  (∀ e w1,
     generate (decision_engine env)
       (DecisionEngine._build_decision_prompt (query state)
          (conversation_history state) (lead_context state)
          (retrieved_sources state))
       DecisionEngine.decision_system_prompt 0.3%Q 500%Z w = (Raise e, w1) →
     decide_action env state w = (Ok state', w') → escalation_recorded state').
Proof.
  unfold escalation_recorded. intros Hrec. split_and!.
  - unfold intake_webhook, ret. by intros [= <- _].
  - unfold load_lead_context, bind, ret.
    destruct (get_lead_by_email _ _ w) as [[[lead|]|?] w1]; [| |discriminate].
    + destruct (get_lead_interactions _ _ _ w1) as [[?|?] ?]; [|discriminate].
      intros [= <- _]. by destruct state.
    + destruct (create_lead _ _ _ w1) as [[?|?] w2]; [|discriminate].
      destruct (get_lead_interactions _ _ _ w2) as [[?|?] ?]; [|discriminate].
      intros [= <- _]. by destruct state.
  - intros Hrun. pose proof (NodesMore.retrieve_rag_outside env _ _ _ _ Hrun) as Hout.
    unfold outside_retrieval in Hout. destruct state, state'; cbn in *.
    injection Hout as <- <- <- <- <- <- <- <- <- <- <- <- <- <- <- <- <- <- <- <-.
    exact Hrec.
  - rewrite NodesProps.compose_response_unfold.
    destruct (generate _ _ _ _ _ w) as [[text|e] w1]; cbv zeta.
    + pose proof (NodesMore.compose_success_facts env text state) as Hs.
      cbv zeta in Hs. destruct Hs as (_ & _ & _ & _ & _ & Hesc & Hreason).
      destruct (snd _ && _); intros [= <- _].
      * intros _.
        by rewrite (proj1 (proj2 (proj2 (NodesMore.compose_failure_facts _ _)))).
      * rewrite Hesc, Hreason.
        destruct (Qltb _ _ && _); [done|]. by rewrite orb_false_r.
    + intros [= <- _]. by destruct state.
  - unfold execute_tools.
    destruct (tools_to_use state) as [|name names] eqn:Et.
    + unfold ret. by intros [= <- _].
    + unfold bind.
      destruct (execute_tool_loop_ok state (name :: names) [] [] w)
        as (results & errors & w1 & -> & _).
      intros [= <- _]. destruct errors as [|e errors].
      * by destruct state.
      * destruct (contains "calendar" (py_str_list (e :: errors))) eqn:Ec;
          destruct state; cbn in *; rewrite ?Ec; done.
  - unfold handle_escalation. destruct (escalated state) eqn:Ee; cbn [negb].
    + unfold bind, ret.
      destruct (create_escalation _ _ w) as [[?|?] w1]; [|discriminate].
      destruct (ToolBase.execute _ _ w1) as [[?|?] w2]; [|discriminate].
      rewrite TraceLoggerProps.info_outcome.
      destruct (TraceLogger.is_enabled _ _); [discriminate|].
      intros [= <- _]. destruct state; cbn in *. subst. exact Hrec.
    + unfold ret. intros [= <- _]. by rewrite Ee.
  - intros ->%update_memory_state. exact Hrec.
  - unfold finalize, ret. by intros [= <- _].
  - intros e w1 Hgen. unfold decide_action, DecisionEngine.decide, try_except.
    unfold bind. rewrite Hgen. unfold ret. intros [= <- _].
    by destruct state.
Qed.

End Nodes.
End ToolsNodeProps.

(** ** The orchestrator, continued *)
Module OrchestratorMore.
Import Nodes Orchestrator.

Section Graph.
Context `{PyBuiltins} {W : Type}.
Variable env : Singletons W.

Lemma node_action_built (n : Node) :
  node_action n (nodes (_build_graph env)) = Some (node_function env n).
Proof. by destruct n. Qed.

Lemma entry_point_built : entry_point (_build_graph env) = Some Intake.
Proof. reflexivity. Qed.

(** One step of the run on the built graph. *)
Lemma run_from_S (k : nat) (n : Node) (state : AgentState) (w : W) :
  run_from (_build_graph env) (S k) n state w =
  match node_function env n state w with
  | (Raise e, w1) => (Raise e, w1)
  | (Ok state1, w1) =>
      match next_target n state1 with
      | To m =>
          match run_from (_build_graph env) k m state1 w1 with
          | (Ok (final, visited), w2) => (Ok (final, n :: visited), w2)
          | (Raise e, w2) => (Raise e, w2)
          end
      | END => (Ok (state1, [n]), w1)
      end
  end.
Proof.
  cbn [run_from]. unfold run_node. rewrite node_action_built. unfold bind.
  destruct (node_function env n state w) as [[state1|e] w1]; [|reflexivity].
  unfold ret. cbn [fst snd]. rewrite PipelineProps.successors_built.
  destruct n; cbn [head next_target]; try reflexivity;
    destruct (run_from _ _ _ _ _) as [[[? ?]|?] ?]; reflexivity.
Qed.

Ltac step_run :=
  rewrite run_from_S; cbn [node_function next_target].






(** [trace_logger.generate_trace_id()]. *)
Variable generate_trace_id : M W string.

(** X21. Given a trace identifier, [run] never raises.  It returns the
    final state of the graph when the graph completes; when a node raises
    it returns the initial state marked as escalated with reason
    "orchestration_error", the exception as its only error and the
    apology as response, with the decision unset and the confidence 0. *)
Theorem run_never_raises (lead_email_arg query_arg source_arg trace_id_arg : string)
    (w : W) :
  trace_id_arg ≠ "" →
  let initial :=
    initial_state lead_email_arg query_arg source_arg trace_id_arg in
  ∃ state w',
    run env generate_trace_id lead_email_arg query_arg source_arg
        (Some trace_id_arg) w = (Ok state, w') ∧
    (∀ final w1, invoke (_build_graph env) initial w = (Ok final, w1) →
                 state = final ∧ w' = w1) ∧
    (∀ e w1, invoke (_build_graph env) initial w = (Raise e, w1) →
             w' = w1 ∧
             escalated state = true ∧
             escalation_reason state = Some "orchestration_error" ∧
             errors state = [e] ∧
             response_text state =
               "I apologize, but I'm experiencing technical difficulties. A team member will assist you shortly." ∧
             lead_email state = lead_email_arg ∧
             query state = query_arg ∧
             decision state = None ∧
             tools_to_use state = [] ∧
             (confidence state == 0)%Q).
Proof.
  intros Hid. cbv zeta. unfold run.
  rewrite bool_decide_eq_false_2 by done.
  unfold bind at 1, ret at 1. unfold try_except.
  destruct (invoke _ _ w) as [[final|e] w1].
  - exists final, w1. split; [reflexivity|]. split.
    + by intros ? ? [= <- <-].
    + discriminate.
  - eexists _, w1. split; [reflexivity|]. split; [discriminate|].
    intros ? ? [= <- <-]. split_and!; reflexivity.
Qed.

(** X22. A failure of the embedding call is not degraded to an empty
    retrieval: when the decide stage asks for retrieval and the embedding
    of the query raises, nothing catches the exception before [run], which
    returns the orchestration-error state in the world the failed call
    left; the compose and memory stages do not run. *)
Theorem run_embedding_failure (lead_email_arg query_arg source_arg trace_id_arg : string)
    (w w1 w2 w3 : W) (s1 s2 : AgentState) (e : string) :
  trace_id_arg ≠ "" →
  let initial :=
    initial_state lead_email_arg query_arg source_arg trace_id_arg in
  load_lead_context env initial w = (Ok s1, w1) →
  decide_action env s1 w1 = (Ok s2, w2) →
  retrieval_needed s2 = true →
  Retriever.embed_single (Retriever.embedding_generator (rag_retriever env))
    (query s2) w2 = (Raise e, w3) →
  run env generate_trace_id lead_email_arg query_arg source_arg
      (Some trace_id_arg) w = (Ok (error_state initial e), w3).
Proof.
  intros Hid initial Hload Hdecide Hneeded Hembed. unfold run.
  rewrite bool_decide_eq_false_2 by done.
  unfold bind at 1, ret at 1. fold initial. unfold try_except.
  assert (invoke (_build_graph env) initial w = (Raise e, w3)) as ->; [|reflexivity].
  unfold invoke, invoke_trace, bind.
  rewrite entry_point_built. unfold recursion_limit.
  step_run.
  unfold intake_webhook at 1, ret at 1.
  step_run.
  rewrite Hload.
  step_run.
  rewrite Hdecide, Hneeded.
  step_run.
  assert (retrieve_rag env s2 w2 = (Raise e, w3)) as ->; [|reflexivity].
  unfold retrieve_rag. rewrite Hneeded. cbn [negb]. unfold bind at 1.
  unfold Retriever.retrieve, bind. by rewrite Hembed.
Qed.

End Graph.
End OrchestratorMore.

(** ** The tool adapters *)
Module AdaptersProps.
Import ToolBase Adapters.

Section Execute.
Context {W : Type}.
Variable settings : Settings.
Variable self : Adapter W.
Variable tool_name : string.

Lemma after_raises_failures (handler : gmap string (option string) → M W ToolResult)
    (kwargs : gmap string (option string)) (a : string) (k : nat) :
  kwargs !! "action" = Some (Some a) →
  actions self !! a = Some handler →
  ∀ w wk,
  after_raises handler (delete "action" kwargs) k w = Some wk →
  after_failures (as_tool self tool_name) kwargs k w = Some wk.
Proof.
  intros Ha Hh. induction k as [|k IH]; intros w wk; [done|].
  cbn [after_raises after_failures ToolBase.execute as_tool].
  unfold Adapters.execute. rewrite Ha. cbv beta iota. rewrite Hh. unfold try_except.
  destruct (handler _ w) as [[r|e] w1]; [discriminate|].
  cbn. apply IH.
Qed.

(** X23. [execute] of an adapter that is told its action never raises: an
    action that is not in its dict gives a failure that must not be
    retried, without touching the world; a handler that returns gives its
    own result; a handler that raises gives a failure that may be
    retried, carrying the exception's message. *)
Theorem adapter_execute_spec (kwargs : gmap string (option string))
    (action : option string) (w : W) :
  kwargs !! "action" = Some action →
  (∃ r w', Adapters.execute self kwargs w = (Ok r, w')) ∧
  ((∀ a, action = Some a → actions self !! a = None) →
   Adapters.execute self kwargs w =
   (Ok {| success := false; data := None;
          error := Some (unknown_prefix self ++ fmt_opt action);
          retry_allowed := false |}, w)) ∧
  (∀ a (handler : gmap string (option string) → M W ToolResult),
     action = Some a → actions self !! a = Some handler →
     (∀ r w', handler (delete "action" kwargs) w = (Ok r, w') →
              Adapters.execute self kwargs w = (Ok r, w')) ∧
     (∀ e w', handler (delete "action" kwargs) w = (Raise e, w') →
              Adapters.execute self kwargs w =
              (Ok {| success := false; data := None;
                     error := Some (failed_prefix self ++ e);
                     retry_allowed := true |}, w'))).
Proof.
  intros Ha. unfold Adapters.execute. rewrite Ha. split_and!.
  - destruct action as [a|]; [|by eexists _, _].
    destruct (actions self !! a) as [handler|]; [|by eexists _, _].
    unfold try_except. destruct (handler _ w) as [[r|e] w']; by eexists _, _.
  - intros Hnone. destruct action as [a|]; [|reflexivity].
    by rewrite (Hnone a eq_refl).
  - intros a handler -> Hh. rewrite Hh. unfold try_except.
    split; intros ? ? ->; reflexivity.
Qed.

(** X24. Under [execute_with_retry] an adapter is called once for an
    action it does not know.  A handler that raises makes the adapter
    report a failure that may be retried.  With the log level "info"
    enabled, as by default, the announcement of the retry raises inside
    the wrapper's [try]: the adapter is called once and the result is the
    failure "Tool execution exception: ..." built from the logger's
    [KeyError], which must not be retried.  With the level not enabled a
    handler that keeps raising is called four times and the result is the
    adapter's failure built from the fourth exception. *)
Theorem adapter_retry (kwargs : gmap string (option string)) (a : string) (w : W) :
  kwargs !! "action" = Some (Some a) →
  (actions self !! a = None →
   execute_with_retry settings (counting (as_tool self tool_name)) kwargs
     (w, 0%nat) =
   (Ok {| success := false; data := None;
          error := Some (unknown_prefix self ++ a);
          retry_allowed := false |}, (w, 1%nat))) ∧
  (∀ (handler : gmap string (option string) → M W ToolResult) e w1,
     actions self !! a = Some handler →
     TraceLogger.is_enabled settings INFO = true →
     handler (delete "action" kwargs) w = (Raise e, w1) →
     execute_with_retry settings (counting (as_tool self tool_name)) kwargs
       (w, 0%nat) =
     (Ok {| success := false; data := None;
            error := Some ("Tool execution exception: "
                           ++ TraceLogger.overwrite_message);
            retry_allowed := false |}, (w1, 1%nat))) ∧
  (∀ (handler : gmap string (option string) → M W ToolResult) w3 e w4,
     actions self !! a = Some handler →
     TraceLogger.is_enabled settings INFO = false →
     after_raises handler (delete "action" kwargs) 3 w = Some w3 →
     handler (delete "action" kwargs) w3 = (Raise e, w4) →
     execute_with_retry settings (counting (as_tool self tool_name)) kwargs
       (w, 0%nat) =
     (Ok {| success := false; data := None;
            error := Some (failed_prefix self ++ e);
            retry_allowed := true |}, (w4, 4%nat))).
Proof.
  intros Ha. split_and!.
  - intros Hnone. unfold execute_with_retry. cbn [retry_loop Nat.leb].
    unfold bind. rewrite ToolBaseProps.attempt_counting.
    cbn [ToolBase.execute as_tool]. unfold Adapters.execute.
    rewrite Ha. cbv beta iota. by rewrite Hnone.
  - intros handler e w1 Hh Hinfo Hraise.
    rewrite ToolBaseProps.single_call by exact Hinfo.
    cbn [ToolBase.execute as_tool]. unfold Adapters.execute.
    rewrite Ha. cbv beta iota. rewrite Hh. unfold try_except.
    by rewrite Hraise.
  - intros handler w3 e w4 Hh Hquiet Hraises Hlast.
    rewrite (ToolBaseProps.retry_after_failures settings
               (as_tool self tool_name) kwargs Hquiet 3 w w3);
      [|unfold max_retries; lia|by eapply after_raises_failures].
    cbn [ToolBase.execute as_tool]. unfold Adapters.execute.
    rewrite Ha. cbv beta iota. rewrite Hh. unfold try_except. by rewrite Hlast.
Qed.

End Execute.

(** X25. An action name that is not a key of the dict of the CRM tool, of
    the calendar tool or of the email tool is answered, without a call of
    a handler and without a change of the world, by that tool's own
    "Unknown ... action" failure, which must not be retried. *)
Theorem unknown_actions {W} (crm : CRMHandlers W) (calendar : CalendarHandlers W)
    (email : EmailHandlers W) (kwargs : gmap string (option string))
    (a : string) (w : W) :
  kwargs !! "action" = Some (Some a) →
  (a ∉ ["upsert"; "qualify"; "update_status"; "get_lead"; "schedule_followup"] →
   ToolBase.execute (CRMTool crm) kwargs w =
   (Ok {| success := false; data := None;
          error := Some ("Unknown CRM action: " ++ a);
          retry_allowed := false |}, w)) ∧
  (a ∉ ["book_meeting"; "check_availability"; "cancel_meeting"] →
   ToolBase.execute (CalendarTool calendar) kwargs w =
   (Ok {| success := false; data := None;
          error := Some ("Unknown calendar action: " ++ a);
          retry_allowed := false |}, w)) ∧
  (a ∉ ["send"; "send_followup"] →
   ToolBase.execute (EmailTool email) kwargs w =
   (Ok {| success := false; data := None;
          error := Some ("Unknown email action: " ++ a);
          retry_allowed := false |}, w)).
Proof.
  intros Ha. split_and!; rewrite !not_elem_of_cons; intros Hnot;
    cbn [ToolBase.execute CRMTool CalendarTool EmailTool as_tool];
    unfold Adapters.execute; rewrite Ha; cbv beta iota;
    cbn [actions unknown_prefix CRMAdapter CalendarAdapter EmailAdapter];
    rewrite !lookup_insert_ne by (intros ?; subst; tauto); rewrite lookup_empty; reflexivity.
Qed.

End AdaptersProps.

(** ** The embedding generator *)
Module EmbeddingsProps.
Import Embeddings.






Section Cache.
Context {W : Type}.
Variable settings : Settings.
Variable c : EmbeddingCache W.



End Cache.

Section Generator.
Context {W : Type}.
Variable settings : Settings.
Variable self : EmbeddingGenerator W.










End Generator.
End EmbeddingsProps.

(** ** Retrieval by document type *)
Module RetrieverByTypeProps.
Import RetrieverByType.

Section ByType.
Context {W : Type}.
Variable self : Retriever.RAGRetriever W.
Variable clk : Clock W.

Lemma by_type_loop_inv (query_text : string) (k : Z) (doc_types : list string) :
  ∀ results w results' w',
  by_type_loop self clk query_text k doc_types results w = (Ok results', w') →
  ∀ t l, results' !! t = Some l →
         results !! t = Some l ∨ (t ∈ doc_types ∧ l ≠ []).
Proof.
  induction doc_types as [|d ds IH]; intros results w results' w'; cbn [by_type_loop].
  - unfold ret. intros [= <- _] t l Ht. by left.
  - unfold bind at 1.
    destruct (Retriever.retrieve _ _ _ _ _ _ w) as [[ev|?] w1]; [|discriminate].
    intros Hrest t l Ht.
    destruct (IH _ _ _ _ Hrest t l Ht) as [Hprev | [Hin Hne]].
    + destruct ev as [|e ev]; [by left|].
      destruct (decide (d = t)) as [->|Hdt].
      * rewrite lookup_insert_eq in Hprev. injection Hprev as <-.
        right. split; [by left | discriminate].
      * rewrite lookup_insert_ne in Hprev by done. by left.
    + right. split; [by right | exact Hne].
Qed.

(** X28. The dict returned by [retrieve_by_doc_type] has an entry only for
    document types that were asked for, and never an empty list: a type
    whose retrieval gave nothing, or whose store query failed, is left
    out. *)
Theorem retrieve_by_doc_type_entries (query_text : string)
    (doc_types : list string) (k : Z) (w w' : W)
    (results : gmap string (list Evidence.Evidence)) :
  retrieve_by_doc_type self clk query_text doc_types k w = (Ok results, w') →
  ∀ t l, results !! t = Some l → t ∈ doc_types ∧ l ≠ [].
Proof.
  unfold retrieve_by_doc_type. intros Hrun t l Ht.
  destruct (by_type_loop_inv _ _ _ _ _ _ _ Hrun t l Ht) as [Hprev | ?]; [|done].
  by rewrite lookup_empty in Hprev.
Qed.

End ByType.
End RetrieverByTypeProps.

(** ** The additional properties on concrete inputs *)
Module MoreWitnesses.
Import Scenario Inputs MoreInputs.

Lemma parse_decision_tools_witness :
  length (DecisionEngine.required_tools
            (DecisionEngine._parse_decision two_tools_reply)) = 2%nat.
Proof.
  pose proof (DecisionEngineMore.parse_decision_tools_and_retrieval
                two_tools_reply) as Hparse.
  cbv zeta in Hparse. destruct Hparse as (_ & Hlen & _).
  rewrite Hlen; [reflexivity|]. vm_compute. discriminate.
Defined.

Lemma parse_lines_witness :
  DecisionEngine.parse_lines (["A: 1"] ++ ["noise"])
    = DecisionEngine.parse_lines ["A: 1"] ∧
  DecisionEngine.parse_lines (["A: 1"] ++ ["a" ++ String ":" " 2"])
    = <[py_upper (py_strip "a") := py_strip " 2"]>
        (DecisionEngine.parse_lines ["A: 1"]).
Proof.
  split.
  - apply (proj1 (DecisionEngineMore.parse_lines_last_wins
                    ["A: 1"] "noise" "a" " 2")). reflexivity.
  - apply (proj2 (DecisionEngineMore.parse_lines_last_wins
                    ["A: 1"] "noise" "a" " 2")). reflexivity.
Defined.

Lemma should_escalate_witness :
  DecisionEngine.should_escalate default_settings 0.2 false false
    = (true, Some "confidence_below_threshold") ∧
  DecisionEngine.should_escalate default_settings 0.9 false false
    = (false, None).
Proof.
  split.
  - pose proof (DecisionEngineMore.should_escalate_priority
                  default_settings 0.2 false false) as Hp.
    cbv zeta in Hp. destruct Hp as (_ & _ & _ & Hlow & _).
    apply Hlow; [reflexivity | reflexivity | cbn; lra].
  - pose proof (DecisionEngineMore.should_escalate_priority
                  default_settings 0.9 false false) as Hp.
    cbv zeta in Hp. destruct Hp as (_ & _ & _ & _ & Hhigh).
    apply Hhigh; [reflexivity | reflexivity | cbn; lra].
Defined.

Lemma calculate_confidence_range_witness :
  (DecisionEngine.calculate_confidence 1 0 1 1 true <= 0.5)%Q.
Proof.
  apply (proj2 (DecisionEngineMore.calculate_confidence_range 1 0 1 1 true));
    unfold in_unit; lra.
Defined.

Lemma execute_with_retry_provenance_witness :
  ∃ r w',
    ToolBase.execute_with_retry default_settings (scripted_tool "crm_tool")
      upsert_args always_failing = (Ok r, w') ∧
    ∃ w0,
      ToolBase.execute (scripted_tool "crm_tool") upsert_args w0 = (Ok r, w') ∨
      (∃ e, ToolBase.execute (scripted_tool "crm_tool") upsert_args w0
              = (Raise e, w') ∧
            r = {| ToolBase.success := false; ToolBase.data := None;
                   ToolBase.error := Some ("Tool execution exception: " ++ e);
                   ToolBase.retry_allowed := false |}) ∨
      (TraceLogger.is_enabled default_settings INFO = true ∧
       ∃ r0, ToolBase.execute (scripted_tool "crm_tool") upsert_args w0
               = (Ok r0, w') ∧
             ToolBase.retryable_failure r0 = true ∧
             r = {| ToolBase.success := false; ToolBase.data := None;
                    ToolBase.error := Some ("Tool execution exception: " ++
                                            TraceLogger.overwrite_message);
                    ToolBase.retry_allowed := false |}).
Proof.
  apply (ToolBaseMore.execute_with_retry_provenance default_settings
           (scripted_tool "crm_tool") upsert_args always_failing).
Defined.

Lemma execute_with_retry_quiet_witness :
  ∃ w4,
    ToolBase.execute_with_retry errors_only
      (ToolBase.counting (scripted_tool "crm_tool")) upsert_args
      (always_failing, 0%nat)
    = (transient "timeout 4", (w4, 4%nat)) ∧
    length (tool_replies w4) = 1%nat.
Proof.
  eexists. split.
  - eapply (proj1 (proj2 (ToolBaseMore.execute_with_retry_quiet errors_only
                            (scripted_tool "crm_tool") upsert_args eq_refl)));
      reflexivity.
  - reflexivity.
Defined.

Lemma score_components_witness :
  Reranker._calculate_quality_score (chunk "a" "general" 0.5) = 0.7%Q ∧
  Reranker._calculate_recency_score 0 (chunk "a" "general" 0.5) = 0.7%Q ∧
  (Reranker.composite_score Reranker.default_reranker 0 (chunk "a" "general" 0.5)
   <= Reranker.composite_score Reranker.default_reranker 0
        (chunk "b" "general" 0.8))%Q.
Proof.
  destruct (RerankerMore.score_components Reranker.default_reranker 0
              (chunk "a" "general" 0.5) (chunk "b" "general" 0.8))
    as (_ & Hq & Hr & Hmono).
  split_and!.
  - apply Hq. rewrite !not_elem_of_cons.
    split_and!; try discriminate. apply not_elem_of_nil.
  - apply Hr. by left.
  - apply Hmono; [reflexivity | reflexivity | cbn; lra | cbn; lra].
Defined.

Lemma filter_low_quality_witness :
  Reranker.is_sorted_desc
    (Reranker.filter_low_quality default_settings
       [chunk "a" "pricing" 0.9; chunk "b" "faq" 0.2] None) = true.
Proof.
  pose proof (RerankerMore.filter_low_quality_spec default_settings
                [chunk "a" "pricing" 0.9; chunk "b" "faq" 0.2] None) as Hf.
  cbv zeta in Hf. destruct Hf as (_ & _ & Hsorted & _).
  apply Hsorted. reflexivity.
Defined.

Lemma retrieve_all_or_nothing_witness :
  ∃ l w',
    Retriever.retrieve scripted_retriever (Nodes.system_clock env) query_in
      None None None conflicting_prices = (Ok l, w') ∧
    w' = log "store.query" (log "embed" conflicting_prices) ∧
    (l = [] ∨
     ∃ row rows,
       Retriever.ids (hits [chunk "a" "pricing" 1; chunk "b" "pricing" 0.45])
         = Some (row :: rows) ∧
       Forall2 (hit_matches (hits [chunk "a" "pricing" 1; chunk "b" "pricing" 0.45]))
               (seq 0 (length row)) l ∧
       map Evidence.source_id l = row).
Proof.
  eexists _, _. split; [vm_compute; reflexivity|].
  apply (RetrieverMore.retrieve_all_or_nothing scripted_retriever
           (Nodes.system_clock env) query_in None None None conflicting_prices
           (log "embed" conflicting_prices) _ _ [1%Q]
           (hits [chunk "a" "pricing" 1; chunk "b" "pricing" 0.45]) _);
    reflexivity.
Defined.

Lemma compose_grounded_witness :
  ∃ state',
    Nodes.compose_response env grounded_state conflicting_prices
      = (Ok state', log "llm.generate" (pop_llm conflicting_prices)) ∧
    response_text state' = "Our plans start at two prices." ∧
    sources_used state' = ["T-a"] ∧
    grounded state' = true.
Proof.
  destruct (NodesMore.compose_grounded env grounded_state conflicting_prices
              (log "llm.generate" (pop_llm conflicting_prices))
              "Our plans start at two prices." eq_refl)
    as (state' & Hrun & Hsrc & _ & Hg & _ & Htext & _).
  exists state'. split_and!; [exact Hrun | | exact Hsrc |].
  - apply Htext. right. left. cbn. lra.
  - apply Hg. discriminate.
Defined.

Lemma compose_confidence_recheck_witness :
  ∃ state' w',
    Nodes.compose_response env unsure_state conflicting_prices = (Ok state', w') ∧
    escalated state' = true ∧
    escalation_reason state' = Some "response_generation_error" ∧
    response_text state' = Nodes.apology_text.
Proof.
  eexists _, _. split; [vm_compute; reflexivity|].
  destruct (NodesMore.compose_confidence_recheck env unsure_state
              conflicting_prices) as [_ Hre].
  destruct (Hre _ _ _ _ eq_refl eq_refl) as (_ & _ & _ & Hlow).
  destruct Hlow as (Hesc & _ & Hwarn); [reflexivity | cbn; lra |].
  destruct (Hwarn eq_refl) as (Hreason & Htext & _).
  by split_and!.
Defined.

Lemma retrieve_rag_state_witness :
  (∃ state' w',
     Nodes.retrieve_rag env confident_state one_price = (Ok state', w') ∧
     Reranker.is_sorted_desc (retrieved_sources state') = true ∧
     reranked_sources state' `sublist_of` retrieved_sources state') ∧
  (∃ w1,
     Nodes.retrieve_rag env confident_state conflicting_prices
       = (Raise TraceLogger.overwrite_message, w1)).
Proof.
  split.
  - eexists _, _. split; [vm_compute; reflexivity|].
    destruct (NodesMore.retrieve_rag_state env confident_state one_price)
      as (_ & Hyes & _).
    destruct (Hyes eq_refl _ _ eq_refl) as (Hs & _ & Hsub & _). by split.
  - eexists.
    destruct (NodesMore.retrieve_rag_state env confident_state
                conflicting_prices) as (_ & _ & Hraise).
    eapply (Hraise eq_refl); vm_compute; reflexivity.
Defined.

Lemma execute_tools_witness :
  ∃ state' w',
    Nodes.execute_tools env tools_state upsert_succeeds = (Ok state', w') ∧
    (length (tool_results state') <= 2)%nat ∧
    outside_tools state' = outside_tools tools_state.
Proof.
  destruct (ToolsNodeProps.execute_tools_total env tools_state upsert_succeeds)
    as (st & w' & Hrun & _ & Hsome).
  exists st, w'. split; [exact Hrun|].
  destruct (Hsome ltac:(discriminate)) as (Hr & _ & _ & Hout & _).
  split; [exact Hr | exact Hout].
Defined.

Lemma tool_dispatch_witness :
  Nodes.execute_one_tool env state_in "fax" ([], []) upsert_succeeds =
    (Ok (append_item []
           {| rd_success := false; rd_data := None;
              rd_error := Some ("Unknown tool: " ++ "fax");
              rd_retry_allowed := None; rd_message := None |},
         append_item [] ("fax" ++ ": Unknown tool: " ++ "fax")),
     upsert_succeeds) ∧
  Nodes.execute_one_tool env pricing_question "calendar" ([], []) upsert_succeeds =
    (Ok (append_item []
           {| rd_success := true; rd_data := None; rd_error := None;
              rd_retry_allowed := None;
              rd_message := Some "No meeting booking needed" |},
         []), upsert_succeeds).
Proof.
  split.
  - apply (proj1 (ToolsNodeProps.tool_dispatch env state_in "fax" [] []
                    upsert_succeeds)); reflexivity.
  - apply (proj2 (ToolsNodeProps.tool_dispatch env pricing_question "calendar"
                    [] [] upsert_succeeds)); reflexivity.
Defined.

Lemma handle_escalation_witness :
  (∃ w2,
     Nodes.handle_escalation env escalated_state upsert_succeeds
       = (Raise TraceLogger.overwrite_message, w2)) ∧
  (∃ w2,
     Nodes.handle_escalation quiet_env escalated_state upsert_succeeds
       = (Ok (set_response_text Nodes.handoff_text escalated_state), w2)).
Proof.
  split; eexists.
  - pose proof (ToolsNodeProps.handle_escalation_spec env escalated_state
                  upsert_succeeds) as Hh.
    cbv zeta in Hh. destruct Hh as (_ & Hyes & _).
    rewrite (Hyes eq_refl _ _ _ eq_refl eq_refl). reflexivity.
  - pose proof (ToolsNodeProps.handle_escalation_spec quiet_env escalated_state
                  upsert_succeeds) as Hh.
    cbv zeta in Hh. destruct Hh as (_ & Hyes & _).
    rewrite (Hyes eq_refl _ _ _ eq_refl eq_refl). reflexivity.
Defined.

Lemma escalation_reason_kept_witness :
  ∃ state' w',
    Nodes.compose_response env unsure_state conflicting_prices = (Ok state', w') ∧
    escalation_recorded state'.
Proof.
  eexists _, _. split; [vm_compute; reflexivity|].
  assert (escalation_recorded unsure_state) as Hrec.
  { unfold escalation_recorded. cbn. discriminate. }
  eapply (proj1 (proj2 (proj2 (proj2
            (ToolsNodeProps.escalation_reason_kept env unsure_state _
               conflicting_prices _ Hrec))))).
  vm_compute; reflexivity.
Defined.


Lemma run_never_raises_witness :
  ∃ state w',
    Orchestrator.run env (ret "generated") lead_email_in query_in
      "website_form" (Some "trace-0") retrieval_embedding_down = (Ok state, w') ∧
    escalated state = true ∧
    errors state = ["embedding provider down"].
Proof.
  pose proof (OrchestratorMore.run_never_raises env (ret "generated")
                lead_email_in query_in "website_form" "trace-0"
                retrieval_embedding_down ltac:(discriminate)) as Hrun.
  cbv zeta in Hrun. destruct Hrun as (state & w' & Hrun & _ & Hraise).
  exists state, w'. split; [exact Hrun|].
  destruct (Hraise "embedding provider down" _ eq_refl)
    as (_ & He & _ & Herr & _).
  by split.
Defined.

Lemma run_embedding_failure_witness :
  ∃ w3,
    Orchestrator.run env (ret "generated") lead_email_in query_in
      "website_form" (Some "trace-0") retrieval_embedding_down
    = (Ok (Orchestrator.error_state state_in "embedding provider down"), w3).
Proof.
  eexists.
  eapply (OrchestratorMore.run_embedding_failure env (ret "generated")
            lead_email_in query_in "website_form" "trace-0"
            retrieval_embedding_down);
    [discriminate | reflexivity | reflexivity | reflexivity | reflexivity].
Defined.

Lemma adapter_execute_witness :
  Adapters.execute (Adapters.CRMAdapter scripted_crm) upsert_args database_locked =
    (Ok {| ToolBase.success := false; ToolBase.data := None;
           ToolBase.error := Some ("CRM operation failed: " ++ "database is locked");
           ToolBase.retry_allowed := true |},
     log "crm._upsert_lead" (pop_tool database_locked)) ∧
  Adapters.execute (Adapters.CRMAdapter scripted_crm) delete_args database_locked =
    (Ok {| ToolBase.success := false; ToolBase.data := None;
           ToolBase.error := Some ("Unknown CRM action: " ++ "delete");
           ToolBase.retry_allowed := false |}, database_locked).
Proof.
  split.
  - destruct (AdaptersProps.adapter_execute_spec (Adapters.CRMAdapter scripted_crm)
                upsert_args (Some "upsert") database_locked eq_refl)
      as (_ & _ & Hknown).
    destruct (Hknown "upsert" (scripted_handler "crm._upsert_lead")
                eq_refl eq_refl) as [_ Hraise].
    apply Hraise. reflexivity.
  - destruct (AdaptersProps.adapter_execute_spec (Adapters.CRMAdapter scripted_crm)
                delete_args (Some "delete") database_locked eq_refl)
      as (_ & Hunknown & _).
    apply Hunknown. intros a [= <-]. reflexivity.
Defined.

Lemma adapter_retry_witness :
  (∃ w1,
     ToolBase.execute_with_retry default_settings
       (ToolBase.counting (Adapters.CRMTool scripted_crm)) upsert_args
       (database_locked, 0%nat)
     = (Ok {| ToolBase.success := false; ToolBase.data := None;
              ToolBase.error := Some ("Tool execution exception: "
                                      ++ TraceLogger.overwrite_message);
              ToolBase.retry_allowed := false |}, (w1, 1%nat))) ∧
  (∃ w4,
     ToolBase.execute_with_retry errors_only
       (ToolBase.counting (Adapters.CRMTool scripted_crm)) upsert_args
       (database_locked, 0%nat)
     = (Ok {| ToolBase.success := false; ToolBase.data := None;
              ToolBase.error := Some ("CRM operation failed: " ++ "database is locked");
              ToolBase.retry_allowed := true |}, (w4, 4%nat))).
Proof.
  split; eexists.
  - destruct (AdaptersProps.adapter_retry default_settings
                (Adapters.CRMAdapter scripted_crm)
                "crm_tool" upsert_args "upsert" database_locked eq_refl)
      as (_ & Hloud & _).
    eapply (Hloud (scripted_handler "crm._upsert_lead")); reflexivity.
  - destruct (AdaptersProps.adapter_retry errors_only
                (Adapters.CRMAdapter scripted_crm)
                "crm_tool" upsert_args "upsert" database_locked eq_refl)
      as (_ & _ & Hquiet).
    eapply (Hquiet (scripted_handler "crm._upsert_lead")); reflexivity.
Defined.

Lemma unknown_actions_witness :
  ToolBase.execute (Adapters.CalendarTool scripted_calendar) delete_args
    upsert_succeeds =
  (Ok {| ToolBase.success := false; ToolBase.data := None;
         ToolBase.error := Some ("Unknown calendar action: " ++ "delete");
         ToolBase.retry_allowed := false |}, upsert_succeeds).
Proof.
  apply (proj1 (proj2 (AdaptersProps.unknown_actions scripted_crm
                         scripted_calendar scripted_email delete_args "delete"
                         upsert_succeeds eq_refl))).
  rewrite !not_elem_of_cons. split_and!; try discriminate. apply not_elem_of_nil.
Defined.



Lemma retrieve_by_doc_type_witness :
  ∃ results w' l,
    RetrieverByType.retrieve_by_doc_type scripted_retriever
      (Nodes.system_clock env) query_in ["pricing"; "faq"] 3 conflicting_prices
      = (Ok results, w') ∧
    results !! "faq" = Some l ∧
    "faq" ∈ ["pricing"; "faq"] ∧ l ≠ [].
Proof.
  eexists _, _, _. split; [vm_compute; reflexivity|].
  split; [vm_compute; reflexivity|].
  eapply (RetrieverByTypeProps.retrieve_by_doc_type_entries scripted_retriever
            (Nodes.system_clock env) query_in ["pricing"; "faq"] 3
            conflicting_prices); vm_compute; reflexivity.
Defined.

End MoreWitnesses.

